(** * TomoPy UI for APS 13-BM: the pipeline controller of [aps13bm_gui.py]

    A shallow embedding of the event handlers of class [APS_13BM] that drive
    the volume-processing pipeline (artifact correction, normalization,
    centering, tilt correction, reconstruction, export), and the properties
    of the controller's bookkeeping.

    Modelling conventions.
    - Python [int] is [Z]. In the handlers, Python and NumPy
      floating-point numbers are idealised as exact rationals [Q] (array
      samples add NaN and the two infinities): that is enough to follow
      control flow, the order of calls and which expression reaches which
      kernel. What the arithmetic on the centers yields is stated on
      IEEE 754 binary64 numbers, in the module [Binary64].
    - A wx text control holds a [text]: what [int()] and [float()] make of
      its content is decided by its constructor.
    - The object [self] is the record [APS_13BM]; a handler is a function
      from the record to an [Outcome], which keeps the record as it stands
      when an exception is raised (Python mutates [self] in place).
    - TomoPy, SciPy and the export writer are external: their kernels are
      the fields of the class [Kernels], and every call to one of them is
      recorded in the ghost field [calls]. *)

From Stdlib Require Import ZArith QArith Qpower Lqa Lia String Floats Uint63.
From stdpp Require Import base list strings.

Local Open Scope string_scope.
Local Open Scope list_scope.
Local Open Scope Z_scope.

(** ** Numbers, text controls and arrays *)

(** One element of a NumPy float array. *)
Inductive sample : Type :=
  | Fin (q : Q)
  | NaN
  | PosInf
  | NegInf.

(** The content of a text control, as Python's conversions see it:
    an integer literal, a decimal literal, or anything else. *)
Inductive text : Type :=
  | IntText (z : Z)
  | FloatText (q : Q)
  | OtherText (s : string).

(** [str(z)] for an [int] and [str(q)] for a [float]: what a text control
    shows after [SetValue(str(...))], and what [int()] or [float()] read
    back from it. *)
Definition str_int (z : Z) : text := IntText z.
Definition str_float (q : Q) : text := FloatText q.

(** A projection is indexed by row and column, a volume by the three
    axes of [data]. *)
Abbreviation Projection := (list (list sample)).
Abbreviation Volume := (list (list (list sample))).

(** [arr.shape[k]], read off the nested lists. *)
Definition shape0 (v : Volume) : Z := Z.of_nat (length v).
Definition shape1 (v : Volume) : Z := Z.of_nat (length (hd [] v)).
Definition shape2 (v : Volume) : Z := Z.of_nat (length (hd [] (hd [] v))).

Definition map3 (f : sample -> sample) (v : Volume) : Volume :=
  map (map (map f)) v.

Definition flatten (v : Volume) : list sample := concat (concat v).

(** [x < 0] on a float: false on NaN. *)
Definition lt0 (x : sample) : bool :=
  match x with
  | Fin q => negb (Qle_bool 0 q)
  | NegInf => true
  | NaN | PosInf => false
  end.

Definition is_nan (x : sample) : bool :=
  match x with NaN => true | _ => false end.

Definition sample_leb (a b : sample) : bool :=
  match a, b with
  | NegInf, _ => true
  | _, PosInf => true
  | Fin p, Fin q => Qle_bool p q
  | _, _ => false
  end.

(** NumPy's [max] and [min] propagate NaN. *)
Definition sample_max (a b : sample) : sample :=
  if is_nan a then NaN else if is_nan b then NaN
  else if sample_leb a b then b else a.

Definition sample_min (a b : sample) : sample :=
  if is_nan a then NaN else if is_nan b then NaN
  else if sample_leb a b then a else b.

(** [arr.max()] and [arr.min()]: [None] stands for the [ValueError] NumPy
    raises on an array without elements. *)
Definition np_amax (v : Volume) : option sample :=
  match flatten v with
  | [] => None
  | x :: xs => Some (foldl sample_max x xs)
  end.

Definition np_amin (v : Volume) : option sample :=
  match flatten v with
  | [] => None
  | x :: xs => Some (foldl sample_min x xs)
  end.

(** [np.arange(n)]. *)
Definition np_arange (n : Z) : list Z := map Z.of_nat (seq 0 (Z.to_nat n)).

(** [l[i]] with Python's negative indices; [None] is [IndexError]. *)
Definition py_index {A : Type} (l : list A) (i : Z) : option A :=
  let n := Z.of_nat (length l) in
  if (0 <=? i) && (i <? n) then l !! Z.to_nat i
  else if (- n <=? i) && (i <? 0) then l !! Z.to_nat (n + i)
  else None.

(** One bound of a slice, clamped as Python does. *)
Definition slice_bound (n i : Z) : Z :=
  if i <? 0 then Z.max (i + n) 0 else Z.min i n.

(** [l[start:stop]]. *)
Definition py_slice {A : Type} (l : list A) (start stop : Z) : list A :=
  let n := Z.of_nat (length l) in
  let a := slice_bound n start in
  let b := slice_bound n stop in
  take (Z.to_nat (b - a)) (drop (Z.to_nat a) l).

(** NumPy broadcasting of one axis to length [n]. *)
Definition broadcast_axis {A : Type} (n : nat) (l : list A) : option (list A) :=
  if decide (length l = n) then Some l
  else match l with
       | [x] => Some (replicate n x)
       | _ => None
       end.

(** Broadcasting a two-dimensional array to [rows] by [cols];
    [None] is the [ValueError] of a shape mismatch. *)
Definition broadcast2 (rows cols : nat) (r : Projection) : option Projection :=
  match mapM (broadcast_axis cols) r with
  | Some r' => broadcast_axis rows r'
  | None => None
  end.

(** [tp.remove_nan(arr, val)]: every NaN becomes [val]. *)
Definition tp_remove_nan (v : Volume) (val : Q) : Volume :=
  map3 (fun x => if is_nan x then Fin val else x) v.

(** The literal [1**-6] of [normalization], with Python's power of
    integers to a negative exponent. *)
Definition neg_floor : Q := (1 ^ (-6))%Q.

(** [data[np.where(data < 0)] = 1**-6]. *)
Definition floor_negatives (v : Volume) : Volume :=
  map3 (fun x => if lt0 x then Fin neg_floor else x) v.

(** ** The external kernels *)

(** The [center] argument of [tp.recon]: a scalar or one value per index. *)
Inductive Center : Type :=
  | ScalarCenter (c : Q)
  | CenterArray (cs : list Q).

Class Kernels : Type := {
  (** [tp.normalize(arr, flat, dark, ncore)] *)
  tp_normalize : Volume -> Volume -> Volume -> Z -> Volume;
  (** [tp.normalize_bg(arr, air)] *)
  tp_normalize_bg : Volume -> Z -> Volume;
  (** [tp.misc.morph.pad(arr, axis, npad, mode)] *)
  tp_pad : Volume -> Z -> Z -> string -> Volume;
  (** [-log(x)], which [tp.minus_log] applies to every element *)
  neg_log : sample -> sample;
  (** [tp.find_center(arr, theta, ind, init, tol, sinogram_order=False)] *)
  tp_find_center : Volume -> list Q -> Z -> Q -> Q -> Q;
  (** [tp.find_center_pc(proj1, proj2, tol)] *)
  tp_find_center_pc : Projection -> Projection -> Q -> Q;
  (** [tp.find_center_vo(arr)] *)
  tp_find_center_vo : Volume -> Q;
  (** [tp.recon(arr, theta, center, sinogram_order=False, algorithm,
      filter_name, ncore)]; the last two are optional *)
  tp_recon : Volume -> list Q -> Center -> string -> option string ->
             option Z -> Volume;
  (** [tp.prep.stripe.remove_stripe_sf(arr, size)] *)
  tp_remove_stripe_sf : Volume -> Z -> Volume;
  (** [tp.remove_outlier(arr, dif, size, ncore)] *)
  tp_remove_outlier : Volume -> Q -> Z -> Z -> Volume;
  (** [scipy.ndimage.rotate(input, angle)] *)
  ndimage_rotate : Projection -> Q -> Projection
}.

(** [tp.minus_log(arr, out=arr)]. *)
Definition tp_minus_log `{Kernels} (v : Volume) : Volume := map3 neg_log v.

(** ** The state of the application *)

(** The three entries of the centering-method menu. *)
Inductive CenterMethod : Type := Entropy | NghiaVo | Pc0_180.

(** [save_dtype]: ['u1'], ['u2'] or ['f4'], as [OnSaveDtypeCombo] sets it. *)
Inductive Dtype : Type := u1 | u2 | f4.

(** [save_data_type]: the entries ['.tif'] and ['.vol'] of the export menu. *)
Inductive FileType : Type := Tif | Vol.

(** One [logfile.write]: the literal part of the line and the values
    formatted into it. *)
Inductive LogEntry : Type := Log (line : string) (args : list text).

(** One call to an external kernel, or to the image frame, with the
    arguments the controller chose. *)
Inductive Call : Type :=
  | Call_remove_stripe_sf (size : Z)
  | Call_remove_outlier (dif : Q) (size ncore : Z)
  | Call_normalize (ncore : Z)
  | Call_normalize_bg (air : Z)
  | Call_pad (axis npad : Z) (mode : string)
  | Call_minus_log
  | Call_remove_nan (val : Q)
  | Call_find_center (ind : Z) (init tol : Q)
  | Call_find_center_pc (tol : Q)
  | Call_find_center_vo
  | Call_recon (center : Center) (algorithm : string)
      (filter_name : option string) (ncore : option Z)
  | Call_rotate (angle : Q)
  | Call_save_recon (data_type : FileType) (save_dtype : Dtype) (npad : Z)
      (fname : string)
  | Call_display (image : Projection).

Record APS_13BM : Type := Build_APS_13BM {
  (** Attributes of [self]. An attribute that may be absent is an [option]. *)
  data : Volume;
  flat : Volume;
  dark : option Volume;
  theta : list Q;
  sx : Z;
  sy : Z;
  sz : Z;
  data_max : sample;
  data_min : sample;
  _fname : string;
  pad_size : Z;
  npad : Z;
  cb : bool;
  find_center_type : CenterMethod;
  recon_type : string;
  filter_type : string;
  save_dtype : Dtype;
  save_data_type : FileType;
  nchunk : option Z;
  ncore : option Z;
  zinger : option Q;
  upper_rot_center : option Q;
  lower_rot_center : option Q;
  rot_center : option Q;
  data_slice : option Volume;
  (** Widgets: the status label and the text controls. *)
  status_ID : string;
  ring_width_blank : text;
  zinger_diff_blank : text;
  zinger_kernel_size_blank : text;
  upper_rot_slice_blank : text;
  upper_rot_center_blank : text;
  lower_rot_slice_blank : text;
  lower_rot_center_blank : text;
  tol_blank : text;
  ncore_blank : text;
  nchunk_blank : text;
  (** The operation log and whether [close()] has been called on it. *)
  logfile : list LogEntry;
  logfile_closed : bool;
  (** Ghost: the calls made to external kernels and to the image frame,
      oldest first. *)
  calls : list Call
}.

(** Assignment to one attribute, the others kept. *)
Definition set_data (v : Volume) (s : APS_13BM) : APS_13BM :=
  Build_APS_13BM v (flat s) (dark s) (theta s) (sx s) (sy s) (sz s) (data_max
    s) (data_min s) (_fname s) (pad_size s) (npad s) (cb s) (find_center_type
    s) (recon_type s) (filter_type s) (save_dtype s) (save_data_type s)
    (nchunk s) (ncore s) (zinger s) (upper_rot_center s) (lower_rot_center s)
    (rot_center s) (data_slice s) (status_ID s) (ring_width_blank s)
    (zinger_diff_blank s) (zinger_kernel_size_blank s) (upper_rot_slice_blank
    s) (upper_rot_center_blank s) (lower_rot_slice_blank s)
    (lower_rot_center_blank s) (tol_blank s) (ncore_blank s) (nchunk_blank s)
    (logfile s) (logfile_closed s) (calls s).

Definition set_dark (v : option Volume) (s : APS_13BM) : APS_13BM :=
  Build_APS_13BM (data s) (flat s) v (theta s) (sx s) (sy s) (sz s) (data_max
    s) (data_min s) (_fname s) (pad_size s) (npad s) (cb s) (find_center_type
    s) (recon_type s) (filter_type s) (save_dtype s) (save_data_type s)
    (nchunk s) (ncore s) (zinger s) (upper_rot_center s) (lower_rot_center s)
    (rot_center s) (data_slice s) (status_ID s) (ring_width_blank s)
    (zinger_diff_blank s) (zinger_kernel_size_blank s) (upper_rot_slice_blank
    s) (upper_rot_center_blank s) (lower_rot_slice_blank s)
    (lower_rot_center_blank s) (tol_blank s) (ncore_blank s) (nchunk_blank s)
    (logfile s) (logfile_closed s) (calls s).

Definition set_sx (v : Z) (s : APS_13BM) : APS_13BM :=
  Build_APS_13BM (data s) (flat s) (dark s) (theta s) v (sy s) (sz s)
    (data_max s) (data_min s) (_fname s) (pad_size s) (npad s) (cb s)
    (find_center_type s) (recon_type s) (filter_type s) (save_dtype s)
    (save_data_type s) (nchunk s) (ncore s) (zinger s) (upper_rot_center s)
    (lower_rot_center s) (rot_center s) (data_slice s) (status_ID s)
    (ring_width_blank s) (zinger_diff_blank s) (zinger_kernel_size_blank s)
    (upper_rot_slice_blank s) (upper_rot_center_blank s)
    (lower_rot_slice_blank s) (lower_rot_center_blank s) (tol_blank s)
    (ncore_blank s) (nchunk_blank s) (logfile s) (logfile_closed s) (calls s).

Definition set_sy (v : Z) (s : APS_13BM) : APS_13BM :=
  Build_APS_13BM (data s) (flat s) (dark s) (theta s) (sx s) v (sz s)
    (data_max s) (data_min s) (_fname s) (pad_size s) (npad s) (cb s)
    (find_center_type s) (recon_type s) (filter_type s) (save_dtype s)
    (save_data_type s) (nchunk s) (ncore s) (zinger s) (upper_rot_center s)
    (lower_rot_center s) (rot_center s) (data_slice s) (status_ID s)
    (ring_width_blank s) (zinger_diff_blank s) (zinger_kernel_size_blank s)
    (upper_rot_slice_blank s) (upper_rot_center_blank s)
    (lower_rot_slice_blank s) (lower_rot_center_blank s) (tol_blank s)
    (ncore_blank s) (nchunk_blank s) (logfile s) (logfile_closed s) (calls s).

Definition set_sz (v : Z) (s : APS_13BM) : APS_13BM :=
  Build_APS_13BM (data s) (flat s) (dark s) (theta s) (sx s) (sy s) v
    (data_max s) (data_min s) (_fname s) (pad_size s) (npad s) (cb s)
    (find_center_type s) (recon_type s) (filter_type s) (save_dtype s)
    (save_data_type s) (nchunk s) (ncore s) (zinger s) (upper_rot_center s)
    (lower_rot_center s) (rot_center s) (data_slice s) (status_ID s)
    (ring_width_blank s) (zinger_diff_blank s) (zinger_kernel_size_blank s)
    (upper_rot_slice_blank s) (upper_rot_center_blank s)
    (lower_rot_slice_blank s) (lower_rot_center_blank s) (tol_blank s)
    (ncore_blank s) (nchunk_blank s) (logfile s) (logfile_closed s) (calls s).

Definition set_data_max (v : sample) (s : APS_13BM) : APS_13BM :=
  Build_APS_13BM (data s) (flat s) (dark s) (theta s) (sx s) (sy s) (sz s) v
    (data_min s) (_fname s) (pad_size s) (npad s) (cb s) (find_center_type s)
    (recon_type s) (filter_type s) (save_dtype s) (save_data_type s) (nchunk
    s) (ncore s) (zinger s) (upper_rot_center s) (lower_rot_center s)
    (rot_center s) (data_slice s) (status_ID s) (ring_width_blank s)
    (zinger_diff_blank s) (zinger_kernel_size_blank s) (upper_rot_slice_blank
    s) (upper_rot_center_blank s) (lower_rot_slice_blank s)
    (lower_rot_center_blank s) (tol_blank s) (ncore_blank s) (nchunk_blank s)
    (logfile s) (logfile_closed s) (calls s).

Definition set_data_min (v : sample) (s : APS_13BM) : APS_13BM :=
  Build_APS_13BM (data s) (flat s) (dark s) (theta s) (sx s) (sy s) (sz s)
    (data_max s) v (_fname s) (pad_size s) (npad s) (cb s) (find_center_type
    s) (recon_type s) (filter_type s) (save_dtype s) (save_data_type s)
    (nchunk s) (ncore s) (zinger s) (upper_rot_center s) (lower_rot_center s)
    (rot_center s) (data_slice s) (status_ID s) (ring_width_blank s)
    (zinger_diff_blank s) (zinger_kernel_size_blank s) (upper_rot_slice_blank
    s) (upper_rot_center_blank s) (lower_rot_slice_blank s)
    (lower_rot_center_blank s) (tol_blank s) (ncore_blank s) (nchunk_blank s)
    (logfile s) (logfile_closed s) (calls s).

Definition set_pad_size (v : Z) (s : APS_13BM) : APS_13BM :=
  Build_APS_13BM (data s) (flat s) (dark s) (theta s) (sx s) (sy s) (sz s)
    (data_max s) (data_min s) (_fname s) v (npad s) (cb s) (find_center_type
    s) (recon_type s) (filter_type s) (save_dtype s) (save_data_type s)
    (nchunk s) (ncore s) (zinger s) (upper_rot_center s) (lower_rot_center s)
    (rot_center s) (data_slice s) (status_ID s) (ring_width_blank s)
    (zinger_diff_blank s) (zinger_kernel_size_blank s) (upper_rot_slice_blank
    s) (upper_rot_center_blank s) (lower_rot_slice_blank s)
    (lower_rot_center_blank s) (tol_blank s) (ncore_blank s) (nchunk_blank s)
    (logfile s) (logfile_closed s) (calls s).

Definition set_npad (v : Z) (s : APS_13BM) : APS_13BM :=
  Build_APS_13BM (data s) (flat s) (dark s) (theta s) (sx s) (sy s) (sz s)
    (data_max s) (data_min s) (_fname s) (pad_size s) v (cb s)
    (find_center_type s) (recon_type s) (filter_type s) (save_dtype s)
    (save_data_type s) (nchunk s) (ncore s) (zinger s) (upper_rot_center s)
    (lower_rot_center s) (rot_center s) (data_slice s) (status_ID s)
    (ring_width_blank s) (zinger_diff_blank s) (zinger_kernel_size_blank s)
    (upper_rot_slice_blank s) (upper_rot_center_blank s)
    (lower_rot_slice_blank s) (lower_rot_center_blank s) (tol_blank s)
    (ncore_blank s) (nchunk_blank s) (logfile s) (logfile_closed s) (calls s).

Definition set_nchunk (v : option Z) (s : APS_13BM) : APS_13BM :=
  Build_APS_13BM (data s) (flat s) (dark s) (theta s) (sx s) (sy s) (sz s)
    (data_max s) (data_min s) (_fname s) (pad_size s) (npad s) (cb s)
    (find_center_type s) (recon_type s) (filter_type s) (save_dtype s)
    (save_data_type s) v (ncore s) (zinger s) (upper_rot_center s)
    (lower_rot_center s) (rot_center s) (data_slice s) (status_ID s)
    (ring_width_blank s) (zinger_diff_blank s) (zinger_kernel_size_blank s)
    (upper_rot_slice_blank s) (upper_rot_center_blank s)
    (lower_rot_slice_blank s) (lower_rot_center_blank s) (tol_blank s)
    (ncore_blank s) (nchunk_blank s) (logfile s) (logfile_closed s) (calls s).

Definition set_ncore (v : option Z) (s : APS_13BM) : APS_13BM :=
  Build_APS_13BM (data s) (flat s) (dark s) (theta s) (sx s) (sy s) (sz s)
    (data_max s) (data_min s) (_fname s) (pad_size s) (npad s) (cb s)
    (find_center_type s) (recon_type s) (filter_type s) (save_dtype s)
    (save_data_type s) (nchunk s) v (zinger s) (upper_rot_center s)
    (lower_rot_center s) (rot_center s) (data_slice s) (status_ID s)
    (ring_width_blank s) (zinger_diff_blank s) (zinger_kernel_size_blank s)
    (upper_rot_slice_blank s) (upper_rot_center_blank s)
    (lower_rot_slice_blank s) (lower_rot_center_blank s) (tol_blank s)
    (ncore_blank s) (nchunk_blank s) (logfile s) (logfile_closed s) (calls s).

Definition set_zinger (v : option Q) (s : APS_13BM) : APS_13BM :=
  Build_APS_13BM (data s) (flat s) (dark s) (theta s) (sx s) (sy s) (sz s)
    (data_max s) (data_min s) (_fname s) (pad_size s) (npad s) (cb s)
    (find_center_type s) (recon_type s) (filter_type s) (save_dtype s)
    (save_data_type s) (nchunk s) (ncore s) v (upper_rot_center s)
    (lower_rot_center s) (rot_center s) (data_slice s) (status_ID s)
    (ring_width_blank s) (zinger_diff_blank s) (zinger_kernel_size_blank s)
    (upper_rot_slice_blank s) (upper_rot_center_blank s)
    (lower_rot_slice_blank s) (lower_rot_center_blank s) (tol_blank s)
    (ncore_blank s) (nchunk_blank s) (logfile s) (logfile_closed s) (calls s).

Definition set_upper_rot_center (v : option Q) (s : APS_13BM) : APS_13BM :=
  Build_APS_13BM (data s) (flat s) (dark s) (theta s) (sx s) (sy s) (sz s)
    (data_max s) (data_min s) (_fname s) (pad_size s) (npad s) (cb s)
    (find_center_type s) (recon_type s) (filter_type s) (save_dtype s)
    (save_data_type s) (nchunk s) (ncore s) (zinger s) v (lower_rot_center s)
    (rot_center s) (data_slice s) (status_ID s) (ring_width_blank s)
    (zinger_diff_blank s) (zinger_kernel_size_blank s) (upper_rot_slice_blank
    s) (upper_rot_center_blank s) (lower_rot_slice_blank s)
    (lower_rot_center_blank s) (tol_blank s) (ncore_blank s) (nchunk_blank s)
    (logfile s) (logfile_closed s) (calls s).

Definition set_lower_rot_center (v : option Q) (s : APS_13BM) : APS_13BM :=
  Build_APS_13BM (data s) (flat s) (dark s) (theta s) (sx s) (sy s) (sz s)
    (data_max s) (data_min s) (_fname s) (pad_size s) (npad s) (cb s)
    (find_center_type s) (recon_type s) (filter_type s) (save_dtype s)
    (save_data_type s) (nchunk s) (ncore s) (zinger s) (upper_rot_center s) v
    (rot_center s) (data_slice s) (status_ID s) (ring_width_blank s)
    (zinger_diff_blank s) (zinger_kernel_size_blank s) (upper_rot_slice_blank
    s) (upper_rot_center_blank s) (lower_rot_slice_blank s)
    (lower_rot_center_blank s) (tol_blank s) (ncore_blank s) (nchunk_blank s)
    (logfile s) (logfile_closed s) (calls s).

Definition set_rot_center (v : option Q) (s : APS_13BM) : APS_13BM :=
  Build_APS_13BM (data s) (flat s) (dark s) (theta s) (sx s) (sy s) (sz s)
    (data_max s) (data_min s) (_fname s) (pad_size s) (npad s) (cb s)
    (find_center_type s) (recon_type s) (filter_type s) (save_dtype s)
    (save_data_type s) (nchunk s) (ncore s) (zinger s) (upper_rot_center s)
    (lower_rot_center s) v (data_slice s) (status_ID s) (ring_width_blank s)
    (zinger_diff_blank s) (zinger_kernel_size_blank s) (upper_rot_slice_blank
    s) (upper_rot_center_blank s) (lower_rot_slice_blank s)
    (lower_rot_center_blank s) (tol_blank s) (ncore_blank s) (nchunk_blank s)
    (logfile s) (logfile_closed s) (calls s).

Definition set_data_slice (v : option Volume) (s : APS_13BM) : APS_13BM :=
  Build_APS_13BM (data s) (flat s) (dark s) (theta s) (sx s) (sy s) (sz s)
    (data_max s) (data_min s) (_fname s) (pad_size s) (npad s) (cb s)
    (find_center_type s) (recon_type s) (filter_type s) (save_dtype s)
    (save_data_type s) (nchunk s) (ncore s) (zinger s) (upper_rot_center s)
    (lower_rot_center s) (rot_center s) v (status_ID s) (ring_width_blank s)
    (zinger_diff_blank s) (zinger_kernel_size_blank s) (upper_rot_slice_blank
    s) (upper_rot_center_blank s) (lower_rot_slice_blank s)
    (lower_rot_center_blank s) (tol_blank s) (ncore_blank s) (nchunk_blank s)
    (logfile s) (logfile_closed s) (calls s).

Definition set_status_ID (v : string) (s : APS_13BM) : APS_13BM :=
  Build_APS_13BM (data s) (flat s) (dark s) (theta s) (sx s) (sy s) (sz s)
    (data_max s) (data_min s) (_fname s) (pad_size s) (npad s) (cb s)
    (find_center_type s) (recon_type s) (filter_type s) (save_dtype s)
    (save_data_type s) (nchunk s) (ncore s) (zinger s) (upper_rot_center s)
    (lower_rot_center s) (rot_center s) (data_slice s) v (ring_width_blank s)
    (zinger_diff_blank s) (zinger_kernel_size_blank s) (upper_rot_slice_blank
    s) (upper_rot_center_blank s) (lower_rot_slice_blank s)
    (lower_rot_center_blank s) (tol_blank s) (ncore_blank s) (nchunk_blank s)
    (logfile s) (logfile_closed s) (calls s).

Definition set_upper_rot_center_blank (v : text) (s : APS_13BM) : APS_13BM :=
  Build_APS_13BM (data s) (flat s) (dark s) (theta s) (sx s) (sy s) (sz s)
    (data_max s) (data_min s) (_fname s) (pad_size s) (npad s) (cb s)
    (find_center_type s) (recon_type s) (filter_type s) (save_dtype s)
    (save_data_type s) (nchunk s) (ncore s) (zinger s) (upper_rot_center s)
    (lower_rot_center s) (rot_center s) (data_slice s) (status_ID s)
    (ring_width_blank s) (zinger_diff_blank s) (zinger_kernel_size_blank s)
    (upper_rot_slice_blank s) v (lower_rot_slice_blank s)
    (lower_rot_center_blank s) (tol_blank s) (ncore_blank s) (nchunk_blank s)
    (logfile s) (logfile_closed s) (calls s).

Definition set_lower_rot_center_blank (v : text) (s : APS_13BM) : APS_13BM :=
  Build_APS_13BM (data s) (flat s) (dark s) (theta s) (sx s) (sy s) (sz s)
    (data_max s) (data_min s) (_fname s) (pad_size s) (npad s) (cb s)
    (find_center_type s) (recon_type s) (filter_type s) (save_dtype s)
    (save_data_type s) (nchunk s) (ncore s) (zinger s) (upper_rot_center s)
    (lower_rot_center s) (rot_center s) (data_slice s) (status_ID s)
    (ring_width_blank s) (zinger_diff_blank s) (zinger_kernel_size_blank s)
    (upper_rot_slice_blank s) (upper_rot_center_blank s)
    (lower_rot_slice_blank s) v (tol_blank s) (ncore_blank s) (nchunk_blank s)
    (logfile s) (logfile_closed s) (calls s).

Definition set_logfile (v : list LogEntry) (s : APS_13BM) : APS_13BM :=
  Build_APS_13BM (data s) (flat s) (dark s) (theta s) (sx s) (sy s) (sz s)
    (data_max s) (data_min s) (_fname s) (pad_size s) (npad s) (cb s)
    (find_center_type s) (recon_type s) (filter_type s) (save_dtype s)
    (save_data_type s) (nchunk s) (ncore s) (zinger s) (upper_rot_center s)
    (lower_rot_center s) (rot_center s) (data_slice s) (status_ID s)
    (ring_width_blank s) (zinger_diff_blank s) (zinger_kernel_size_blank s)
    (upper_rot_slice_blank s) (upper_rot_center_blank s)
    (lower_rot_slice_blank s) (lower_rot_center_blank s) (tol_blank s)
    (ncore_blank s) (nchunk_blank s) v (logfile_closed s) (calls s).

Definition set_logfile_closed (v : bool) (s : APS_13BM) : APS_13BM :=
  Build_APS_13BM (data s) (flat s) (dark s) (theta s) (sx s) (sy s) (sz s)
    (data_max s) (data_min s) (_fname s) (pad_size s) (npad s) (cb s)
    (find_center_type s) (recon_type s) (filter_type s) (save_dtype s)
    (save_data_type s) (nchunk s) (ncore s) (zinger s) (upper_rot_center s)
    (lower_rot_center s) (rot_center s) (data_slice s) (status_ID s)
    (ring_width_blank s) (zinger_diff_blank s) (zinger_kernel_size_blank s)
    (upper_rot_slice_blank s) (upper_rot_center_blank s)
    (lower_rot_slice_blank s) (lower_rot_center_blank s) (tol_blank s)
    (ncore_blank s) (nchunk_blank s) (logfile s) v (calls s).

Definition set_calls (v : list Call) (s : APS_13BM) : APS_13BM :=
  Build_APS_13BM (data s) (flat s) (dark s) (theta s) (sx s) (sy s) (sz s)
    (data_max s) (data_min s) (_fname s) (pad_size s) (npad s) (cb s)
    (find_center_type s) (recon_type s) (filter_type s) (save_dtype s)
    (save_data_type s) (nchunk s) (ncore s) (zinger s) (upper_rot_center s)
    (lower_rot_center s) (rot_center s) (data_slice s) (status_ID s)
    (ring_width_blank s) (zinger_diff_blank s) (zinger_kernel_size_blank s)
    (upper_rot_slice_blank s) (upper_rot_center_blank s)
    (lower_rot_slice_blank s) (lower_rot_center_blank s) (tol_blank s)
    (ncore_blank s) (nchunk_blank s) (logfile s) (logfile_closed s) v.
(** What the operator changes: a menu entry, the check box, or the text
    typed into a control. *)
Definition set_cb (v : bool) (s : APS_13BM) : APS_13BM :=
  Build_APS_13BM (data s) (flat s) (dark s) (theta s) (sx s) (sy s) (sz s)
    (data_max s) (data_min s) (_fname s) (pad_size s) (npad s) v
    (find_center_type s) (recon_type s) (filter_type s) (save_dtype s)
    (save_data_type s) (nchunk s) (ncore s) (zinger s) (upper_rot_center s)
    (lower_rot_center s) (rot_center s) (data_slice s) (status_ID s)
    (ring_width_blank s) (zinger_diff_blank s) (zinger_kernel_size_blank s)
    (upper_rot_slice_blank s) (upper_rot_center_blank s)
    (lower_rot_slice_blank s) (lower_rot_center_blank s) (tol_blank s)
    (ncore_blank s) (nchunk_blank s) (logfile s) (logfile_closed s) (calls s).

Definition set_find_center_type (v : CenterMethod) (s : APS_13BM) : APS_13BM :=
  Build_APS_13BM (data s) (flat s) (dark s) (theta s) (sx s) (sy s) (sz s)
    (data_max s) (data_min s) (_fname s) (pad_size s) (npad s) (cb s) v
    (recon_type s) (filter_type s) (save_dtype s) (save_data_type s) (nchunk
    s) (ncore s) (zinger s) (upper_rot_center s) (lower_rot_center s)
    (rot_center s) (data_slice s) (status_ID s) (ring_width_blank s)
    (zinger_diff_blank s) (zinger_kernel_size_blank s) (upper_rot_slice_blank
    s) (upper_rot_center_blank s) (lower_rot_slice_blank s)
    (lower_rot_center_blank s) (tol_blank s) (ncore_blank s) (nchunk_blank s)
    (logfile s) (logfile_closed s) (calls s).

Definition set_save_dtype (v : Dtype) (s : APS_13BM) : APS_13BM :=
  Build_APS_13BM (data s) (flat s) (dark s) (theta s) (sx s) (sy s) (sz s)
    (data_max s) (data_min s) (_fname s) (pad_size s) (npad s) (cb s)
    (find_center_type s) (recon_type s) (filter_type s) v (save_data_type s)
    (nchunk s) (ncore s) (zinger s) (upper_rot_center s) (lower_rot_center s)
    (rot_center s) (data_slice s) (status_ID s) (ring_width_blank s)
    (zinger_diff_blank s) (zinger_kernel_size_blank s) (upper_rot_slice_blank
    s) (upper_rot_center_blank s) (lower_rot_slice_blank s)
    (lower_rot_center_blank s) (tol_blank s) (ncore_blank s) (nchunk_blank s)
    (logfile s) (logfile_closed s) (calls s).

Definition set_save_data_type (v : FileType) (s : APS_13BM) : APS_13BM :=
  Build_APS_13BM (data s) (flat s) (dark s) (theta s) (sx s) (sy s) (sz s)
    (data_max s) (data_min s) (_fname s) (pad_size s) (npad s) (cb s)
    (find_center_type s) (recon_type s) (filter_type s) (save_dtype s) v
    (nchunk s) (ncore s) (zinger s) (upper_rot_center s) (lower_rot_center s)
    (rot_center s) (data_slice s) (status_ID s) (ring_width_blank s)
    (zinger_diff_blank s) (zinger_kernel_size_blank s) (upper_rot_slice_blank
    s) (upper_rot_center_blank s) (lower_rot_slice_blank s)
    (lower_rot_center_blank s) (tol_blank s) (ncore_blank s) (nchunk_blank s)
    (logfile s) (logfile_closed s) (calls s).

Definition set_ring_width_blank (v : text) (s : APS_13BM) : APS_13BM :=
  Build_APS_13BM (data s) (flat s) (dark s) (theta s) (sx s) (sy s) (sz s)
    (data_max s) (data_min s) (_fname s) (pad_size s) (npad s) (cb s)
    (find_center_type s) (recon_type s) (filter_type s) (save_dtype s)
    (save_data_type s) (nchunk s) (ncore s) (zinger s) (upper_rot_center s)
    (lower_rot_center s) (rot_center s) (data_slice s) (status_ID s) v
    (zinger_diff_blank s) (zinger_kernel_size_blank s) (upper_rot_slice_blank
    s) (upper_rot_center_blank s) (lower_rot_slice_blank s)
    (lower_rot_center_blank s) (tol_blank s) (ncore_blank s) (nchunk_blank s)
    (logfile s) (logfile_closed s) (calls s).

Definition set_zinger_diff_blank (v : text) (s : APS_13BM) : APS_13BM :=
  Build_APS_13BM (data s) (flat s) (dark s) (theta s) (sx s) (sy s) (sz s)
    (data_max s) (data_min s) (_fname s) (pad_size s) (npad s) (cb s)
    (find_center_type s) (recon_type s) (filter_type s) (save_dtype s)
    (save_data_type s) (nchunk s) (ncore s) (zinger s) (upper_rot_center s)
    (lower_rot_center s) (rot_center s) (data_slice s) (status_ID s)
    (ring_width_blank s) v (zinger_kernel_size_blank s) (upper_rot_slice_blank
    s) (upper_rot_center_blank s) (lower_rot_slice_blank s)
    (lower_rot_center_blank s) (tol_blank s) (ncore_blank s) (nchunk_blank s)
    (logfile s) (logfile_closed s) (calls s).

Definition set_zinger_kernel_size_blank (v : text) (s : APS_13BM) : APS_13BM :=
  Build_APS_13BM (data s) (flat s) (dark s) (theta s) (sx s) (sy s) (sz s)
    (data_max s) (data_min s) (_fname s) (pad_size s) (npad s) (cb s)
    (find_center_type s) (recon_type s) (filter_type s) (save_dtype s)
    (save_data_type s) (nchunk s) (ncore s) (zinger s) (upper_rot_center s)
    (lower_rot_center s) (rot_center s) (data_slice s) (status_ID s)
    (ring_width_blank s) (zinger_diff_blank s) v (upper_rot_slice_blank s)
    (upper_rot_center_blank s) (lower_rot_slice_blank s)
    (lower_rot_center_blank s) (tol_blank s) (ncore_blank s) (nchunk_blank s)
    (logfile s) (logfile_closed s) (calls s).

Definition set_upper_rot_slice_blank (v : text) (s : APS_13BM) : APS_13BM :=
  Build_APS_13BM (data s) (flat s) (dark s) (theta s) (sx s) (sy s) (sz s)
    (data_max s) (data_min s) (_fname s) (pad_size s) (npad s) (cb s)
    (find_center_type s) (recon_type s) (filter_type s) (save_dtype s)
    (save_data_type s) (nchunk s) (ncore s) (zinger s) (upper_rot_center s)
    (lower_rot_center s) (rot_center s) (data_slice s) (status_ID s)
    (ring_width_blank s) (zinger_diff_blank s) (zinger_kernel_size_blank s) v
    (upper_rot_center_blank s) (lower_rot_slice_blank s)
    (lower_rot_center_blank s) (tol_blank s) (ncore_blank s) (nchunk_blank s)
    (logfile s) (logfile_closed s) (calls s).

Definition set_lower_rot_slice_blank (v : text) (s : APS_13BM) : APS_13BM :=
  Build_APS_13BM (data s) (flat s) (dark s) (theta s) (sx s) (sy s) (sz s)
    (data_max s) (data_min s) (_fname s) (pad_size s) (npad s) (cb s)
    (find_center_type s) (recon_type s) (filter_type s) (save_dtype s)
    (save_data_type s) (nchunk s) (ncore s) (zinger s) (upper_rot_center s)
    (lower_rot_center s) (rot_center s) (data_slice s) (status_ID s)
    (ring_width_blank s) (zinger_diff_blank s) (zinger_kernel_size_blank s)
    (upper_rot_slice_blank s) (upper_rot_center_blank s) v
    (lower_rot_center_blank s) (tol_blank s) (ncore_blank s) (nchunk_blank s)
    (logfile s) (logfile_closed s) (calls s).

(** ** Handlers: state and exceptions *)

Inductive PyExc : Type :=
  | ValueError
  | IndexError
  | ZeroDivisionError
  | AttributeError.

(** What a piece of a handler leaves behind: a value and the state, or an
    exception and the state as it stood when the exception was raised. *)
Inductive Outcome (A : Type) : Type :=
  | Done (a : A) (s : APS_13BM)
  | Raised (e : PyExc) (s : APS_13BM).
Arguments Done {A} a s.
Arguments Raised {A} e s.

Definition Handler (A : Type) : Type := APS_13BM -> Outcome A.

Definition ret {A : Type} (a : A) : Handler A := fun s => Done a s.

Definition bind {A B : Type} (c : Handler A) (k : A -> Handler B) : Handler B :=
  fun s => match c s with
           | Done a s' => k a s'
           | Raised e s' => Raised e s'
           end.

Notation "x <- c ;; k" := (bind c (fun x => k))
  (at level 100, c at next level, k at level 200, right associativity).
Notation "c ;; k" := (bind c (fun _ => k))
  (at level 100, k at level 200, right associativity).

Definition raise {A : Type} (e : PyExc) : Handler A := fun s => Raised e s.

Definition gets {A : Type} (f : APS_13BM -> A) : Handler A :=
  fun s => Done (f s) s.

Definition modify (f : APS_13BM -> APS_13BM) : Handler unit :=
  fun s => Done tt (f s).

(** The value of an expression that raises [e] when it has none. *)
Definition expect {A : Type} (e : PyExc) (o : option A) : Handler A :=
  match o with
  | Some a => ret a
  | None => raise e
  end.

(** The state a handler ends in, however it ends. *)
Definition final {A : Type} (o : Outcome A) : APS_13BM :=
  match o with
  | Done _ s => s
  | Raised _ s => s
  end.

(** Whether a handler ran to its end (or to a [return]). *)
Definition completed {A : Type} (o : Outcome A) : bool :=
  match o with
  | Done _ _ => true
  | Raised _ _ => false
  end.

(** [for i in idx: body(i)]. *)
Fixpoint for_each {A : Type} (idx : list A) (body : A -> Handler unit)
  : Handler unit :=
  match idx with
  | [] => ret tt
  | i :: rest => body i ;; for_each rest body
  end.

(** *** Python's conversions and arithmetic *)

(** [int(t)] on the content of a text control. *)
Definition py_int (t : text) : option Z :=
  match t with
  | IntText z => Some z
  | FloatText _ | OtherText _ => None
  end.

(** [float(t)] on the content of a text control. *)
Definition py_float (t : text) : option Q :=
  match t with
  | IntText z => Some (inject_Z z)
  | FloatText q => Some q
  | OtherText _ => None
  end.

(** [a / b] on floats. *)
Definition py_div (a b : Q) : option Q :=
  if Qeq_bool b 0 then None else Some (a / b)%Q.

(** [a % b] on integers (the sign of the result follows [b]). *)
Definition py_mod (a b : Z) : option Z :=
  if b =? 0 then None else Some (a mod b).

(** [int(a / b)] for integers [a] and [b <> 0]: the quotient, truncated. *)
Definition int_of_quotient (a b : Z) : Z := Z.quot a b.

Definition int_of (w : APS_13BM -> text) : Handler Z :=
  t <- gets w ;; expect ValueError (py_int t).

Definition float_of (w : APS_13BM -> text) : Handler Q :=
  t <- gets w ;; expect ValueError (py_float t).

(** *** Effects shared by the handlers *)

Definition SetLabel_status (msg : string) : Handler unit :=
  modify (set_status_ID msg).

(** [self.logfile.write(...)]; writing to a closed file is a [ValueError]. *)
Definition logfile_write (line : string) (args : list text) : Handler unit :=
  closed <- gets logfile_closed ;;
  if (closed : bool) then raise ValueError
  else modify (fun s => set_logfile (logfile s ++ [Log line args]) s).

Definition call (c : Call) : Handler unit :=
  modify (fun s => set_calls (calls s ++ [c]) s).

(** [self.data.max()] and [self.data.min()], as the handlers evaluate
    them for their progress messages and for [data_max], [data_min]. *)
Definition data_extrema : Handler (sample * sample) :=
  d <- gets data ;;
  hi <- expect ValueError (np_amax d) ;;
  lo <- expect ValueError (np_amin d) ;;
  ret (hi, lo).

(** [self.nchunk = int(...)] and [self.ncore = int(...)]: every stage
    starts by reading the compute budget; the two values are returned. *)
Definition read_budget : Handler (Z * Z) :=
  n <- int_of nchunk_blank ;;
  modify (set_nchunk (Some n)) ;;
  c <- int_of ncore_blank ;;
  modify (set_ncore (Some c)) ;;
  ret (n, c).

(** ** The handlers of [APS_13BM] *)

Section Handlers.
Context `{K : Kernels}.

(** [pad_size_combo_recall]: [None] is the entry ['No Padding']. *)
Definition pad_size_combo_recall (new_pad : option Z) : Handler unit :=
  match new_pad with
  | None => modify (set_pad_size 0) ;; modify (set_npad 0)
  | Some p => modify (set_pad_size p)
  end.

(** [if k % 2 == 0: k = k + 1]. *)
Definition make_odd (k : Z) : Z := if k mod 2 =? 0 then k + 1 else k.

(** [remove_ring]. *)
Definition remove_ring : Handler unit :=
  SetLabel_status "Deringing" ;;
  _ <- read_budget ;;
  ring_width <- int_of ring_width_blank ;;
  let ring_width := make_odd ring_width in
  d <- gets data ;;
  call (Call_remove_stripe_sf ring_width) ;;
  modify (set_data (tp_remove_stripe_sf d ring_width)) ;;
  logfile_write "tp.prep.stripe.remove_stripe_sf(data, size='ring_width')" [] ;;
  SetLabel_status "Ring removed.".

(** [zinger_removal]. The coerced [zinger_kernel_size] is computed and
    not used: [size] is read again, from the ring-width control. *)
Definition zinger_removal : Handler unit :=
  SetLabel_status "Correcting Zingers" ;;
  budget <- read_budget ;;
  let ncore_v := snd budget in
  zinger_kernel_size <- int_of zinger_kernel_size_blank ;;
  let zinger_kernel_size := make_odd zinger_kernel_size in
  t <- gets zinger_diff_blank ;;
  match py_float t with
  | None =>
      SetLabel_status
        "Provide expected difference b/n zinger and median data value"
  | Some dif =>
      modify (set_zinger (Some dif)) ;;
      size <- int_of ring_width_blank ;;
      d <- gets data ;;
      call (Call_remove_outlier dif size ncore_v) ;;
      modify (set_data (tp_remove_outlier d dif size ncore_v)) ;;
      logfile_write
        "tp.remove_outlier(data, dif = zinger, size = size, ncore = ncore)" [] ;;
      SetLabel_status "Artifacts Removed."
  end.

(** The end of [normalization], from [del self.dark] on. *)
Definition normalization_tail (ncore_v : Z) : Handler unit :=
  dk <- gets dark ;;
  _ <- expect AttributeError dk ;;
  modify (set_dark None) ;;
  modify (fun s => set_data (floor_negatives (data s)) s) ;;
  logfile_write "data[np.where(data < 0)] = 1**-6" [] ;;
  _ <- data_extrema ;;
  call Call_minus_log ;;
  modify (fun s => set_data (tp_minus_log (data s)) s) ;;
  logfile_write "tp.minus_log(data, out = data)" [] ;;
  _ <- data_extrema ;;
  call (Call_remove_nan 0) ;;
  modify (fun s => set_data (tp_remove_nan (data s) 0) s) ;;
  logfile_write "tp.remove_nan(data, val = 0., ncore = ncore)" [] ;;
  _ <- data_extrema ;;
  ext <- data_extrema ;;
  modify (set_data_max (fst ext)) ;;
  modify (set_data_min (snd ext)) ;;
  SetLabel_status "Preprocessing Complete" ;;
  _ <- data_extrema ;;
  ret tt.

(** [normalization]. *)
Definition normalization : Handler unit :=
  SetLabel_status "Preprocessing" ;;
  budget <- read_budget ;;
  let ncore_v := snd budget in
  logfile_write "nchunk =" [str_int (fst budget)] ;;
  logfile_write "ncore = " [str_int ncore_v] ;;
  _ <- data_extrema ;;
  d <- gets data ;;
  fl <- gets flat ;;
  dk <- gets dark ;;
  dk <- expect AttributeError dk ;;
  call (Call_normalize ncore_v) ;;
  modify (set_data (tp_normalize d fl dk ncore_v)) ;;
  logfile_write
    "tp.normalize(data, flat = flat, dark = dark, ncore = ncore, out = data)" [] ;;
  _ <- data_extrema ;;
  air <- gets cb ;;
  (if (air : bool) then
     d <- gets data ;;
     call (Call_normalize_bg 10) ;;
     modify (set_data (tp_normalize_bg d 10)) ;;
     logfile_write "tp.normalize_bg(data, air = 10)" [] ;;
     _ <- data_extrema ;;
     ret tt
   else ret tt) ;;
  p <- gets pad_size ;;
  if p =? 0 then normalization_tail ncore_v
  else
    modify (set_npad 0) ;;
    d <- gets data ;;
    if p <? shape2 d then
      SetLabel_status "Pad Size too small for dataset. Normalized but no padding."
    else
      let n := int_of_quotient (p - shape2 d) 2 in
      modify (set_npad n) ;;
      logfile_write "npad = " [str_int n] ;;
      call (Call_pad 2 n "edge") ;;
      modify (set_data (tp_pad d 2 n "edge")) ;;
      logfile_write
        "tp.misc.morph(data, axis = 2, npad = npad, mode = 'edge')" [] ;;
      normalization_tail ncore_v.

(** [find_rot_center]. Only the 0-180 method looks at the range of the
    two slice numbers, and it compares them with [shape[2]]. *)
Definition find_rot_center : Handler unit :=
  SetLabel_status "Centering" ;;
  tol <- float_of tol_blank ;;
  upper_slice <- int_of upper_rot_slice_blank ;;
  lower_slice <- int_of lower_rot_slice_blank ;;
  upper_center <- float_of upper_rot_center_blank ;;
  lower_center <- float_of lower_rot_center_blank ;;
  logfile_write "upper_slice = " [str_int upper_slice] ;;
  logfile_write "lower_slice = " [str_int lower_slice] ;;
  logfile_write "upper_center= " [str_float upper_center] ;;
  logfile_write "lower_center= " [str_float lower_center] ;;
  d <- gets data ;;
  th <- gets theta ;;
  let finish : Handler unit :=
    SetLabel_status "Rotation Center found." ;;
    _ <- (c <- gets rot_center ;; expect AttributeError c) ;;
    n <- gets npad ;;
    u <- (c <- gets upper_rot_center ;; expect AttributeError c) ;;
    modify (set_upper_rot_center_blank (str_float (u - inject_Z n))) ;;
    l <- (c <- gets lower_rot_center ;; expect AttributeError c) ;;
    modify (set_lower_rot_center_blank (str_float (l - inject_Z n)))
  in
  method <- gets find_center_type ;;
  match method with
  | Entropy =>
      call (Call_find_center upper_slice upper_center tol) ;;
      let u := tp_find_center (py_slice d upper_slice (upper_slice + 1))
                 th upper_slice upper_center tol in
      modify (set_upper_rot_center (Some u)) ;;
      logfile_write "float(tp.find_center(data[upper_slice:upper_slice+1,:,:], theta, ind = upper_slice, init = upper_center, tol = tol, sinogram_order = False))" [] ;;
      call (Call_find_center upper_slice lower_center tol) ;;
      let l := tp_find_center (py_slice d lower_slice (lower_slice + 1))
                 th upper_slice lower_center tol in
      modify (set_lower_rot_center (Some l)) ;;
      logfile_write "float(tp.find_center(data[lower_slice:lower_slice+1,:,:], theta, ind = lower_slice, init = lower_center, tol = tol, sinogram_order = False))" [] ;;
      modify (set_rot_center (Some ((u + l) / 2)%Q)) ;;
      finish
  | Pc0_180 =>
      if shape2 d <? upper_slice then
        SetLabel_status "Upper slice out of range."
      else if shape2 d <? lower_slice then
        SetLabel_status "Lower slice out of range."
      else
        upper_proj1 <- expect IndexError (py_index d upper_slice) ;;
        u_slice2 <- expect ZeroDivisionError
          (py_mod (upper_slice + int_of_quotient (shape0 d) 2) (shape0 d)) ;;
        upper_proj2 <- expect IndexError (py_index d u_slice2) ;;
        call (Call_find_center_pc tol) ;;
        let u := tp_find_center_pc upper_proj1 upper_proj2 tol in
        modify (set_upper_rot_center (Some u)) ;;
        logfile_write "tp.find_center_pc(upper_proj1, upper_proj2, tol = tol)" [] ;;
        lower_proj1 <- expect IndexError (py_index d lower_slice) ;;
        l_slice2 <- expect ZeroDivisionError
          (py_mod (lower_slice + int_of_quotient (shape0 d) 2) (shape0 d)) ;;
        lower_proj2 <- expect IndexError (py_index d l_slice2) ;;
        call (Call_find_center_pc tol) ;;
        let l := tp_find_center_pc lower_proj1 lower_proj2 tol in
        modify (set_lower_rot_center (Some l)) ;;
        logfile_write "tp.find_center_pc(lower_proj1, lower_proj2, tol = tol)" [] ;;
        modify (set_rot_center (Some ((u + l) / 2)%Q)) ;;
        finish
  | NghiaVo =>
      call Call_find_center_vo ;;
      let u := tp_find_center_vo
                 (map (fun p => py_slice p upper_slice (upper_slice + 1)) d) in
      modify (set_upper_rot_center (Some u)) ;;
      logfile_write "tp.find_center_vo(data[:,upper_slice:upper_slice+1,:])" [] ;;
      call Call_find_center_vo ;;
      let l := tp_find_center_vo
                 (map (fun p => py_slice p lower_slice (lower_slice + 1)) d) in
      modify (set_lower_rot_center (Some l)) ;;
      logfile_write "tp.find_center_vo(data[:,lower_slice:lower_slice+1,:])" [] ;;
      modify (set_rot_center (Some ((u + l) / 2)%Q)) ;;
      finish
  end.

(** The center a reconstruction works with: the number in the text
    control, with [npad] added when it is not zero. *)
Definition padded_center (c : Q) (n : Z) : Q :=
  if n =? 0 then c else (c + inject_Z n)%Q.

(** [plot_slice_data]: the first slice of [data_slice], its rows in
    reverse order, goes to a new image frame. The attribute [data_slice]
    is absent until a preview assigns it and is never [None] afterwards,
    so the test that opens the method does not return early. *)
Definition plot_slice_data : Handler unit :=
  ds <- gets data_slice ;;
  ds <- expect AttributeError ds ;;
  d_data <- expect IndexError (py_index ds 0) ;;
  call (Call_display (reverse d_data)).

(** The body shared by [up_recon_slice] and [lower_recon_slice]. *)
Definition recon_slice (center_blank slice_blank : APS_13BM -> text)
  : Handler unit :=
  SetLabel_status "Reconstructing slice." ;;
  c <- float_of center_blank ;;
  n <- gets npad ;;
  let c := padded_center c n in
  start <- int_of slice_blank ;;
  d <- gets data ;;
  let sl := map (fun p => py_slice p start (start + 1)) d in
  modify (set_data_slice (Some sl)) ;;
  th <- gets theta ;;
  alg <- gets recon_type ;;
  call (Call_recon (ScalarCenter c) alg None None) ;;
  modify (set_data_slice (Some (tp_recon sl th (ScalarCenter c) alg None None))) ;;
  SetLabel_status "Slice Reconstructed." ;;
  plot_slice_data.

(** [up_recon_slice]. *)
Definition up_recon_slice : Handler unit :=
  recon_slice upper_rot_center_blank upper_rot_slice_blank.


(** One turn of the loop of [tilt_correction]:
    [self.data[i,:,:] = scipy.ndimage.rotate(self.data[i,:,:], angle)]. *)
Definition tilt_step (angle : Q) (i : nat) : Handler unit :=
  d <- gets data ;;
  projection <- expect IndexError (d !! i) ;;
  call (Call_rotate angle) ;;
  let r := ndimage_rotate projection angle in
  r <- expect ValueError
         (broadcast2 (Z.to_nat (shape1 d)) (Z.to_nat (shape2 d)) r) ;;
  modify (set_data (<[i := r]> d)).

(** [tilt_correction]: the loop runs over [range(nangles-1)]. *)
Definition tilt_correction : Handler unit :=
  SetLabel_status "Correcting Tilt" ;;
  nangles <- gets (fun s => shape0 (data s)) ;;
  top_center <- float_of upper_rot_center_blank ;;
  bottom_center <- float_of lower_rot_center_blank ;;
  top_slice <- float_of upper_rot_slice_blank ;;
  bottom_slice <- float_of lower_rot_slice_blank ;;
  angle <- expect ZeroDivisionError
             (py_div (top_center - bottom_center) (bottom_slice - top_slice)) ;;
  for_each (seq 0 (Z.to_nat (nangles - 1))) (tilt_step angle) ;;
  SetLabel_status "Tilt Corrected".

(** [upper_rot_center + (np.arange(n) * center_slope)], as the expression
    handed to the kernel; [Binary64.center_array] is the same expression
    on floats. *)
Definition center_array (upper_rot_center center_slope : Q) (n : Z) : list Q :=
  map (fun i => (upper_rot_center + inject_Z i * center_slope)%Q) (np_arange n).

(** [reconstruct]: the centers come from the two text controls; whether
    [find_rot_center] has run is not looked at. *)
Definition reconstruct : Handler unit :=
  SetLabel_status "Reconstructing." ;;
  budget <- read_budget ;;
  let ncore_v := snd budget in
  upper_rot_center <- float_of upper_rot_center_blank ;;
  lower_rot_center <- float_of lower_rot_center_blank ;;
  n <- gets npad ;;
  let upper_rot_center := padded_center upper_rot_center n in
  let lower_rot_center := padded_center lower_rot_center n in
  d <- gets data ;;
  center_slope <- expect ZeroDivisionError
    (py_div (lower_rot_center - upper_rot_center) (inject_Z (shape0 d))) ;;
  let centers := center_array upper_rot_center center_slope (shape0 d) in
  th <- gets theta ;;
  alg <- gets recon_type ;;
  flt <- gets filter_type ;;
  call (Call_recon (CenterArray centers) alg (Some flt) (Some ncore_v)) ;;
  modify (set_data
            (tp_recon d th (CenterArray centers) alg (Some flt) (Some ncore_v))) ;;
  logfile_write "tp.recon(data, theta, center = center_array, sinogram_order = False, algorithm, recon_type, filterName = filter_type, ncore = ncore, nchunk = nchunk)" [] ;;
  call (Call_remove_nan 0) ;;
  modify (fun s => set_data (tp_remove_nan (data s) 0) s) ;;
  logfile_write "tp.remove_nan(data)" [] ;;
  SetLabel_status "Reconstruction Complete" ;;
  d <- gets data ;;
  modify (set_sx (shape2 d - 2 * n)) ;;
  modify (set_sy (shape1 d - 2 * n)) ;;
  modify (set_sz (shape0 d)) ;;
  hi <- expect ValueError (np_amax d) ;;
  modify (set_data_max hi) ;;
  lo <- expect ValueError (np_amin d) ;;
  modify (set_data_min lo).

(** The guard of [save_recon]:
    [save_data_type == '.vol' and (save_dtype == 'u1' or save_dtype == 'u2')]. *)
Definition unsupported (t : FileType) (dt : Dtype) : bool :=
  match t, dt with
  | Vol, u1 | Vol, u2 => true
  | _, _ => false
  end.

Definition str_FileType (t : FileType) : text :=
  match t with
  | Tif => OtherText ".tif"
  | Vol => OtherText ".vol"
  end.

(** [save_recon]. The writer is the function [save_recon] of the module
    [save_data]; here it is the call [Call_save_recon]. *)
Definition save_recon : Handler unit :=
  SetLabel_status "Saving" ;;
  t <- gets save_data_type ;;
  dt <- gets save_dtype ;;
  if unsupported t dt then
    SetLabel_status "netCDF3 does not support unsigned images"
  else
    n <- gets npad ;;
    fname <- gets _fname ;;
    logfile_write "npad = ; save_data_type =" [str_int n; str_FileType t] ;;
    logfile_write "fname = " [OtherText fname] ;;
    call (Call_save_recon t dt n fname) ;;
    logfile_write "save_data(data_type = save_data_type, save_dtype = save_dtype, npad = npad, data = data, fname = _fname)" [] ;;
    modify (set_logfile_closed true) ;;
    SetLabel_status "Saving completed.".

End Handlers.

(** ** The arithmetic of the centers in binary64 *)

(** The handlers above carry the centers as exact rationals, which is
    enough to follow which value goes where. The expressions that
    compute them are repeated here on IEEE 754 binary64 numbers, the
    floats of Python and NumPy, with every operation rounded to nearest. *)
Module Binary64.

(** [float(z)], and the conversion Python and NumPy apply to an integer
    operand of a float operation, for an integer of magnitude below
    [2^63]: an array extent, an index, a padding amount. *)
Definition float_of_int (z : Z) : float :=
  if z <? 0 then (- of_uint63 (Uint63.of_Z (- z)))%float
  else of_uint63 (Uint63.of_Z z).


(** [if self.npad != 0: c = float(c + self.npad)], the center a
    reconstruction works with. *)
Definition padded_center (c : float) (npad : Z) : float :=
  if npad =? 0 then c else (c + float_of_int npad)%float.

(** [(lower_rot_center - upper_rot_center) / float(self.data.shape[0])];
    [None] is the [ZeroDivisionError] of a volume without projections. *)
Definition center_slope (upper_rot_center lower_rot_center : float) (n : Z)
  : option float :=
  if n =? 0 then None
  else Some ((lower_rot_center - upper_rot_center) / float_of_int n)%float.

(** [upper_rot_center + (np.arange(n) * center_slope)]. *)
Definition center_array (upper_rot_center center_slope : float) (n : Z)
  : list float :=
  map (fun i => (upper_rot_center + float_of_int i * center_slope)%float)
    (np_arange n).

(** The rational number a finite float stands for. *)
Definition value (x : float) : option Q :=
  match Prim2SF x with
  | S754_zero _ => Some 0%Q
  | S754_finite s m e =>
      Some ((if s then - inject_Z (Z.pos m) else inject_Z (Z.pos m)) * 2 ^ e)%Q
  | S754_infinity _ | S754_nan => None
  end.

End Binary64.

(** ** Import *)

(** What [import_data] hands back, apart from the path. *)
Record Imported : Type := {
  i_fname : string;
  i_sx : Z;
  i_sy : Z;
  i_sz : Z;
  i_data_max : sample;
  i_data_min : sample;
  i_data : Volume;
  i_flat : Volume;
  i_dark : Volume;
  i_theta : list Q
}.

(** [int(q)] on a float: truncation towards zero. *)
Definition py_trunc (q : Q) : Z := Z.quot (Qnum q) (Z.pos (Qden q)).

(** The application after [__init__] and one [client_read_nc]: the
    attributes [__init__] sets keep their defaults, the import fills in
    the dataset and seeds the four centering controls, and the attributes
    that only a later handler assigns are absent. *)
Definition client_read_nc (i : Imported) : APS_13BM :=
  let szq := inject_Z (i_sz i) in
  {| data := i_data i; flat := i_flat i; dark := Some (i_dark i);
     theta := i_theta i;
     sx := i_sx i; sy := i_sy i; sz := i_sz i;
     data_max := i_data_max i; data_min := i_data_min i;
     _fname := i_fname i;
     pad_size := 2048; npad := 0; cb := true;
     find_center_type := NghiaVo;
     recon_type := "gridrec"; filter_type := "hann";
     save_dtype := f4; save_data_type := Vol;
     nchunk := None; ncore := None; zinger := None;
     upper_rot_center := None; lower_rot_center := None; rot_center := None;
     data_slice := None;
     status_ID := "Data Imported";
     ring_width_blank := IntText 9;
     zinger_diff_blank := OtherText "Est: Median - Zing";
     zinger_kernel_size_blank := IntText 3;
     upper_rot_slice_blank := str_int (py_trunc (szq - 3 * (szq / 4)));
     upper_rot_center_blank := str_float (inject_Z (i_sx i) / 2);
     lower_rot_slice_blank := str_int (py_trunc (szq - szq / 4));
     lower_rot_center_blank := str_float (inject_Z (i_sx i) / 2);
     tol_blank := FloatText 0.25;
     ncore_blank := IntText 12;
     nchunk_blank := IntText 128;
     logfile := [Log "import tomopy; import dxchange; import numpy as np" []];
     logfile_closed := false;
     calls := [] |}%Q.

(** ** A small instance of the kernels, to run the handlers on examples *)

(** Edge padding of one row by [n] on both sides. *)
Definition pad_row (n : nat) (row : list sample) : list sample :=
  match row with
  | [] => []
  | x :: _ => replicate n x ++ row ++ replicate n (List.last row x)
  end.

(** The kernels of the examples keep shapes as TomoPy documents them:
    corrections return their input, padding extends the last axis at its
    edges, the center searches return the seed or the middle column, and a
    reconstruction of [(angles, rows, columns)] is a volume of zeros of
    [(rows, columns, columns)]. [1 - q] stands for [-ln q] on positive
    numbers; it agrees with it at [1]. *)
Definition example_kernels : Kernels := {|
  tp_normalize := fun v _ _ _ => v;
  tp_normalize_bg := fun v _ => v;
  tp_pad := fun v axis n _ =>
    if axis =? 2 then map (map (pad_row (Z.to_nat n))) v else v;
  neg_log := fun x =>
    match x with
    | Fin q => if Qeq_bool q 0 then PosInf
               else if Qle_bool q 0 then NaN else Fin (1 - q)
    | NaN => NaN
    | PosInf => NegInf
    | NegInf => NaN
    end;
  tp_find_center := fun _ _ _ init _ => init;
  tp_find_center_pc := fun p _ _ => (inject_Z (Z.of_nat (length (hd [] p))) / 2)%Q;
  tp_find_center_vo := fun v => (inject_Z (shape2 v) / 2)%Q;
  tp_recon := fun v _ _ _ _ _ =>
    replicate (Z.to_nat (shape1 v))
      (replicate (Z.to_nat (shape2 v))
         (replicate (Z.to_nat (shape2 v)) (Fin 0)));
  tp_remove_stripe_sf := fun v _ => v;
  tp_remove_outlier := fun v _ _ _ => v;
  ndimage_rotate := fun p _ => p
|}.

(** A volume of [a] projections of [r] rows and [c] columns, every
    sample [x]. *)
Definition constant_volume (a r c : nat) (x : sample) : Volume :=
  replicate a (replicate r (replicate c x)).

(** An import of 6 projections of 2 rows and 6 columns. *)
Definition example_import : Imported := {|
  i_fname := "sample.nc";
  i_sx := 6; i_sy := 2; i_sz := 6;
  i_data_max := Fin 0.5; i_data_min := Fin 0.5;
  i_data := constant_volume 6 2 6 (Fin 0.5);
  i_flat := constant_volume 1 2 6 (Fin 1);
  i_dark := constant_volume 1 2 6 (Fin 0);
  i_theta := [0; 0.5; 1; 1.5; 2; 2.5]%Q
|}.

(** ** Properties *)

Arguments shape0 : simpl never.
Arguments shape1 : simpl never.
Arguments shape2 : simpl never.
Arguments np_amax : simpl never.
Arguments np_amin : simpl never.
Arguments py_int : simpl never.
Arguments py_float : simpl never.
Arguments py_div : simpl never.
Arguments py_mod : simpl never.
Arguments py_index : simpl never.
Arguments py_slice : simpl never.
Arguments int_of_quotient : simpl never.
Arguments make_odd : simpl never.
Arguments padded_center : simpl never.
Arguments center_array : simpl never.
Arguments floor_negatives : simpl never.
Arguments tp_remove_nan : simpl never.
Arguments tp_minus_log : simpl never.
Arguments broadcast2 : simpl never.
Arguments unsupported : simpl never.

(** Unfolds the plumbing of a handler, leaving the tests it makes. *)
Ltac unfold_handler :=
  unfold read_budget, int_of, float_of, SetLabel_status, logfile_write, call,
    bind, gets, modify, expect, ret, raise.

(** Runs a handler forward: rewrites the next test with a hypothesis that
    decides it. *)
Ltac run :=
  repeat (cbn; match goal with H : _ = _ |- _ => rewrite H end);
  cbn.

(** *** Odd kernel sizes *)

Lemma make_odd_odd (k : Z) : Z.odd (make_odd k) = true.
Proof.
  unfold make_odd. apply Z.odd_spec. exists (k / 2).
  pose proof (Z.div_mod k 2 ltac:(lia)) as D.
  pose proof (Z.mod_pos_bound k 2 ltac:(lia)) as B.
  destruct (Z.eqb_spec (k mod 2) 0); lia.
Qed.

Lemma make_odd_ge (k : Z) : k <= make_odd k.
Proof. unfold make_odd. destruct (k mod 2 =? 0); lia. Qed.

Lemma make_odd_even (k : Z) : Z.even k = true -> make_odd k = k + 1.
Proof.
  intros E. apply Z.even_spec in E as [m ->]. unfold make_odd.
  replace (2 * m) with (m * 2) by lia. rewrite Z.mod_mul by lia. reflexivity.
Qed.

Lemma make_odd_id (k : Z) : Z.odd k = true -> make_odd k = k.
Proof.
  intros O. apply Z.odd_spec in O as [m ->]. unfold make_odd.
  replace (2 * m + 1) with (1 + m * 2) by lia. rewrite Z.mod_add by lia.
  reflexivity.
Qed.

(** Ring removal hands the coerced width to the stripe kernel. *)
Lemma remove_ring_size `{K : Kernels} (s : APS_13BM) (n c w : Z) :
  py_int (nchunk_blank s) = Some n ->
  py_int (ncore_blank s) = Some c ->
  py_int (ring_width_blank s) = Some w ->
  calls (final (remove_ring s)) = calls s ++ [Call_remove_stripe_sf (make_odd w)]
  /\ Z.odd (make_odd w) = true /\ w <= make_odd w.
Proof.
  intros Hn Hc Hw. split; [| split; [apply make_odd_odd | apply make_odd_ge]].
  unfold remove_ring. unfold_handler. run.
  destruct (logfile_closed s); reflexivity.
Qed.

(** Zinger removal hands the content of the ring-width control to the
    outlier kernel, whatever the kernel-size control holds. *)
Lemma zinger_removal_size `{K : Kernels} (s : APS_13BM) (n c k w : Z) (dif : Q) :
  py_int (nchunk_blank s) = Some n ->
  py_int (ncore_blank s) = Some c ->
  py_int (zinger_kernel_size_blank s) = Some k ->
  py_float (zinger_diff_blank s) = Some dif ->
  py_int (ring_width_blank s) = Some w ->
  calls (final (zinger_removal s)) = calls s ++ [Call_remove_outlier dif w c].
Proof.
  intros Hn Hc Hk Hd Hw.
  unfold zinger_removal. unfold_handler. run.
  destruct (logfile_closed s); reflexivity.
Qed.

(** The operator types a zinger difference of 1 and a kernel size. *)
Definition zinger_request (kernel_size ring_width : Z) : APS_13BM :=
  set_ring_width_blank (IntText ring_width)
    (set_zinger_kernel_size_blank (IntText kernel_size)
       (set_zinger_diff_blank (FloatText 1)
          (client_read_nc example_import))).

(** C2. The kernel size handed to the outlier (zinger) kernel is not the
    coerced kernel size. With kernel size 11 and the ring width left at
    its default 9, the kernel is called with size 9, less than the input;
    with kernel size 4 and ring width 8 it is called with size 8, an even
    number. Ring removal, for the same inputs, gets an odd size no less
    than the ring width. *)
Theorem zinger_kernel_size_not_coerced :
  calls (final (zinger_removal (K := example_kernels) (zinger_request 11 9)))
    = [Call_remove_outlier 1 9 12]
  /\ calls (final (zinger_removal (K := example_kernels) (zinger_request 4 8)))
    = [Call_remove_outlier 1 8 12]
  /\ calls (final (remove_ring (K := example_kernels) (zinger_request 4 8)))
    = [Call_remove_stripe_sf 9].
Proof. repeat split; vm_compute; reflexivity. Qed.

(** *** Export *)

(** C6. An export request for the packed-volume format ['.vol'] with an
    unsigned dtype (['u1'] or ['u2']) stops at the guard: the handler only
    sets the status to the refusal message, so the writer is not called,
    nothing is logged and the volume is as it was. *)
Theorem save_recon_unsigned_vol_refused (s : APS_13BM) :
  save_data_type s = Vol ->
  save_dtype s = u1 \/ save_dtype s = u2 ->
  save_recon s
    = Done tt (set_status_ID "netCDF3 does not support unsigned images" s)
  /\ calls (final (save_recon s)) = calls s
  /\ logfile (final (save_recon s)) = logfile s
  /\ logfile_closed (final (save_recon s)) = logfile_closed s
  /\ data (final (save_recon s)) = data s.
Proof.
  intros Ht Hd.
  assert (E : save_recon s
              = Done tt (set_status_ID "netCDF3 does not support unsigned images" s)).
  { unfold save_recon. unfold_handler. cbn. rewrite Ht.
    destruct Hd as [-> | ->]; reflexivity. }
  rewrite E. repeat split; reflexivity.
Qed.

(** An export request after the operator chose ['.vol'] and
    ['16 bit unsigned']. *)
Definition unsigned_vol_request : APS_13BM :=
  set_save_dtype u2 (set_save_data_type Vol (client_read_nc example_import)).

Lemma save_recon_unsigned_vol_refused_witness :
  save_recon unsigned_vol_request
    = Done tt (set_status_ID "netCDF3 does not support unsigned images"
                 unsigned_vol_request)
  /\ calls (final (save_recon unsigned_vol_request)) = [].
Proof.
  destruct (save_recon_unsigned_vol_refused
              unsigned_vol_request eq_refl (or_intror eq_refl))
    as (E & C & _).
  split; [exact E | exact C].
Defined.

(** Every other combination reaches the writer. *)
Lemma save_recon_supported_calls_writer (s : APS_13BM) :
  unsupported (save_data_type s) (save_dtype s) = false ->
  logfile_closed s = false ->
  calls (final (save_recon s))
    = calls s ++ [Call_save_recon (save_data_type s) (save_dtype s) (npad s)
                    (_fname s)].
Proof.
  intros Hu Hl. unfold save_recon. unfold_handler. run. reflexivity.
Qed.

(** *** Normalization *)

(** A volume with at least one sample: [max()] and [min()] are defined. *)
Definition nonempty (v : Volume) : Prop := flatten v <> [].

Definition extrema (v : Volume) : sample * sample :=
  (default NaN (np_amax v), default NaN (np_amin v)).

Arguments data_extrema : simpl never.
Arguments extrema : simpl never.

Lemma data_extrema_done (s : APS_13BM) :
  nonempty (data s) -> data_extrema s = Done (extrema (data s)) s.
Proof.
  unfold nonempty, data_extrema, extrema, np_amax, np_amin. unfold_handler.
  cbn.
  destruct (flatten (data s)); [congruence | reflexivity].
Qed.

Definition has_sample (v : Volume) : bool :=
  match flatten v with
  | [] => false
  | _ :: _ => true
  end.

Lemma has_sample_nonempty (v : Volume) : has_sample v = true -> nonempty v.
Proof.
  unfold has_sample, nonempty. destruct (flatten v); [discriminate | congruence].
Qed.

(** Decides a closed goal by evaluation. *)
Ltac evaluate :=
  first [ apply has_sample_nonempty; vm_compute; reflexivity
        | vm_compute; first [reflexivity | discriminate | lia] ].

(** Splits a conjunction into its parts, and nothing else. *)
Ltac conjuncts :=
  cbv zeta; repeat match goal with |- _ /\ _ => split end.

Lemma flatten_map3 (f : sample -> sample) (v : Volume) :
  flatten (map3 f v) = map f (flatten v).
Proof.
  unfold flatten, map3.
  induction v as [| p v IH]; [reflexivity |].
  cbn. rewrite !concat_app, map_app, IH. f_equal.
  symmetry. apply concat_map.
Qed.

Lemma nonempty_map3 (f : sample -> sample) (v : Volume) :
  nonempty v -> nonempty (map3 f v).
Proof.
  unfold nonempty. rewrite flatten_map3.
  destruct (flatten v); [congruence | discriminate].
Qed.

(** The three steps that end [normalization], as one function. *)
Definition log_transform `{K : Kernels} (v : Volume) : Volume :=
  tp_remove_nan (tp_minus_log (floor_negatives v)) 0.

Lemma nonempty_floor (v : Volume) : nonempty v -> nonempty (floor_negatives v).
Proof. apply nonempty_map3. Qed.

Lemma nonempty_minus_log `{K : Kernels} (v : Volume) :
  nonempty v -> nonempty (tp_minus_log v).
Proof. apply nonempty_map3. Qed.

Lemma nonempty_remove_nan (v : Volume) (val : Q) :
  nonempty v -> nonempty (tp_remove_nan v val).
Proof. apply nonempty_map3. Qed.

Create HintDb nonempty.
#[local] Hint Resolve nonempty_floor nonempty_minus_log nonempty_remove_nan
  : nonempty.

(** Runs a handler forward through its progress messages as well. *)
Ltac run_extrema :=
  repeat (run;
          match goal with
          | |- context [data_extrema ?s] =>
              rewrite (data_extrema_done s) by (cbn; auto with nonempty)
          end);
  run.

(** From [del self.dark] on, [normalization] floors the negative samples,
    takes the negative logarithm and replaces NaN, in this order. *)
Lemma normalization_tail_done `{K : Kernels} (s : APS_13BM) (c : Z) (dk : Volume) :
  dark s = Some dk ->
  logfile_closed s = false ->
  nonempty (data s) ->
  exists s',
    normalization_tail c s = Done tt s'
    /\ data s' = log_transform (data s)
    /\ calls s' = calls s ++ [Call_minus_log; Call_remove_nan 0]
    /\ status_ID s' = "Preprocessing Complete"
    /\ dark s' = None
    /\ npad s' = npad s.
Proof.
  intros Hd Hl Hne. eexists. split.
  - unfold normalization_tail. unfold_handler. run_extrema. reflexivity.
  - cbn. rewrite <- app_assoc. repeat split; reflexivity.
Qed.

(** The volume after the flat/dark correction and the optional
    normalization to the air at the edges. *)
Definition flat_dark_corrected `{K : Kernels} (s : APS_13BM) (c : Z) (dk : Volume)
  : Volume :=
  let d := tp_normalize (data s) (flat s) dk c in
  if cb s then tp_normalize_bg d 10 else d.

(** The kernel calls up to the padding step. *)
Definition correction_calls (s : APS_13BM) (c : Z) : list Call :=
  Call_normalize c :: (if cb s then [Call_normalize_bg 10] else []).

Lemma int_of_quotient_floor (a : Z) : 0 <= a -> int_of_quotient a 2 = a / 2.
Proof. intros H. unfold int_of_quotient. apply Z.quot_div_nonneg; lia. Qed.

(** A pad size below the column count: the handler returns before the
    logarithm, with the corrected volume and [npad = 0]. *)
Lemma normalization_pad_too_small `{K : Kernels} (s : APS_13BM) (n c : Z)
    (dk : Volume) :
  py_int (nchunk_blank s) = Some n ->
  py_int (ncore_blank s) = Some c ->
  logfile_closed s = false ->
  dark s = Some dk ->
  nonempty (data s) ->
  nonempty (tp_normalize (data s) (flat s) dk c) ->
  nonempty (flat_dark_corrected s c dk) ->
  pad_size s <> 0 ->
  pad_size s < shape2 (flat_dark_corrected s c dk) ->
  exists s',
    normalization s = Done tt s'
    /\ status_ID s' = "Pad Size too small for dataset. Normalized but no padding."
    /\ data s' = flat_dark_corrected s c dk
    /\ npad s' = 0
    /\ dark s' = Some dk
    /\ calls s' = calls s ++ correction_calls s c.
Proof.
  intros Hn Hc Hl Hd N0 N1 N2 Hp Hlt.
  apply Z.eqb_neq in Hp. apply Z.ltb_lt in Hlt.
  unfold flat_dark_corrected, correction_calls in *.
  destruct (cb s) eqn:Hcb; eexists; split.
  - unfold normalization. unfold_handler. run_extrema. reflexivity.
  - cbn. rewrite <- app_assoc. repeat split; auto.
  - unfold normalization. unfold_handler. run_extrema. reflexivity.
  - cbn. repeat split; auto.
Qed.

(** A pad size of at least the column count: the volume is padded by
    half the difference on both sides and the handler goes on to the
    logarithm. *)
Lemma normalization_padded `{K : Kernels} (s : APS_13BM) (n c : Z) (dk : Volume) :
  py_int (nchunk_blank s) = Some n ->
  py_int (ncore_blank s) = Some c ->
  logfile_closed s = false ->
  dark s = Some dk ->
  nonempty (data s) ->
  nonempty (tp_normalize (data s) (flat s) dk c) ->
  nonempty (flat_dark_corrected s c dk) ->
  pad_size s <> 0 ->
  shape2 (flat_dark_corrected s c dk) <= pad_size s ->
  let d := flat_dark_corrected s c dk in
  let p := (pad_size s - shape2 d) / 2 in
  nonempty (tp_pad d 2 p "edge") ->
  exists s',
    normalization s = Done tt s'
    /\ status_ID s' = "Preprocessing Complete"
    /\ npad s' = p
    /\ data s' = log_transform (tp_pad d 2 p "edge")
    /\ dark s' = None
    /\ calls s' = calls s ++ correction_calls s c
                    ++ [Call_pad 2 p "edge"; Call_minus_log; Call_remove_nan 0].
Proof.
  intros Hn Hc Hl Hd N0 N1 N2 Hp Hle d p N3. subst d p.
  rewrite <- int_of_quotient_floor in * by lia.
  apply Z.eqb_neq in Hp. apply Z.ltb_ge in Hle.
  unfold flat_dark_corrected, correction_calls in *.
  destruct (cb s) eqn:Hcb; eexists; split.
  - unfold normalization, normalization_tail. unfold_handler. run_extrema.
    reflexivity.
  - cbn. rewrite <- !app_assoc. repeat split; reflexivity.
  - unfold normalization, normalization_tail. unfold_handler. run_extrema.
    reflexivity.
  - cbn. rewrite <- !app_assoc. repeat split; reflexivity.
Qed.

(** An import of 2 projections of 1 row and [cols] columns, every sample
    [x], with a flat field of ones and a dark field of zeros. *)
Definition wide_import (cols : nat) (x : sample) : Imported := {|
  i_fname := "sample.nc";
  i_sx := Z.of_nat cols; i_sy := 1; i_sz := 2;
  i_data_max := x; i_data_min := x;
  i_data := constant_volume 2 1 cols x;
  i_flat := constant_volume 1 1 cols (Fin 1);
  i_dark := constant_volume 1 1 cols (Fin 0);
  i_theta := [0; 1.5]%Q
|}.

(** The operator picks the pad size [p] after the import [i]. *)
Definition request_pad (p : Z) (i : Imported) : APS_13BM :=
  final (pad_size_combo_recall (Some p) (client_read_nc i)).

(** C4, counterexample. With pad size 1024 and a volume of 1024 columns
    the stage does not stop with the too-small status: it pads by zero
    and goes on to the logarithm. *)
Lemma pad_size_equal_to_width_is_accepted :
  let s := request_pad 1024 (wide_import 1024 (Fin 0.25)) in
  pad_size s = shape2 (data s)
  /\ match normalization (K := example_kernels) s with
     | Done _ s' =>
         status_ID s' = "Preprocessing Complete"
         /\ status_ID s'
            <> "Pad Size too small for dataset. Normalized but no padding."
         /\ npad s' = 0
         /\ calls s' = [Call_normalize 12; Call_normalize_bg 10;
                        Call_pad 2 0 "edge"; Call_minus_log; Call_remove_nan 0]
         /\ data s' <> data s
     | Raised _ _ => False
     end.
Proof. vm_compute. repeat split; try reflexivity; discriminate. Qed.

(** C4, as the code has it. With a non-zero pad size, and the corrected
    volume of [cols] columns: when the pad size is below [cols] the stage
    stops with the too-small status, the volume corrected but neither
    padded nor log-transformed and [npad = 0]; when the pad size is at
    least [cols] (equality included) [npad = floor((pad size - cols) / 2)],
    the padding kernel is called on the column axis with that amount and
    mode edge, and the stage goes on to the logarithm. *)
Theorem normalization_padding_policy `{K : Kernels} (s : APS_13BM) (n c : Z)
    (dk : Volume) :
  py_int (nchunk_blank s) = Some n ->
  py_int (ncore_blank s) = Some c ->
  logfile_closed s = false ->
  dark s = Some dk ->
  nonempty (data s) ->
  nonempty (tp_normalize (data s) (flat s) dk c) ->
  nonempty (flat_dark_corrected s c dk) ->
  pad_size s <> 0 ->
  let d := flat_dark_corrected s c dk in
  let p := (pad_size s - shape2 d) / 2 in
  (pad_size s < shape2 d ->
   exists s',
     normalization s = Done tt s'
     /\ status_ID s' = "Pad Size too small for dataset. Normalized but no padding."
     /\ data s' = d
     /\ npad s' = 0
     /\ calls s' = calls s ++ correction_calls s c)
  /\ (shape2 d <= pad_size s ->
      nonempty (tp_pad d 2 p "edge") ->
      exists s',
        normalization s = Done tt s'
        /\ status_ID s' = "Preprocessing Complete"
        /\ npad s' = p
        /\ data s' = log_transform (tp_pad d 2 p "edge")
        /\ calls s' = calls s ++ correction_calls s c
                        ++ [Call_pad 2 p "edge"; Call_minus_log;
                            Call_remove_nan 0]).
Proof.
  intros Hn Hc Hl Hd N0 N1 N2 Hp d p. split.
  - intros Hlt.
    destruct (normalization_pad_too_small s n c dk) as (s' & E & S & D & P & _ & C);
      auto.
    exists s'. auto.
  - intros Hle N3.
    destruct (normalization_padded s n c dk) as (s' & E & S & P & D & _ & C);
      auto.
    exists s'. auto.
Qed.

Lemma normalization_padding_policy_witness :
  (exists s',
     normalization (K := example_kernels)
       (request_pad 1024 (wide_import 1030 (Fin 0.25))) = Done tt s'
     /\ status_ID s' = "Pad Size too small for dataset. Normalized but no padding."
     /\ npad s' = 0)
  /\ (exists s',
        normalization (K := example_kernels)
          (request_pad 1024 (wide_import 1000 (Fin 0.25))) = Done tt s'
        /\ status_ID s' = "Preprocessing Complete"
        /\ npad s' = 12).
Proof.
  split.
  - destruct (normalization_padding_policy (K := example_kernels)
                (request_pad 1024 (wide_import 1030 (Fin 0.25))) 128 12
                (constant_volume 1 1 1030 (Fin 0)))
      as [(s' & E & S & _ & P & _) _]; try evaluate.
    exists s'. split; [exact E | split; [exact S | exact P]].
  - destruct (normalization_padding_policy (K := example_kernels)
                (request_pad 1024 (wide_import 1000 (Fin 0.25))) 128 12
                (constant_volume 1 1 1000 (Fin 0)))
      as [_ H]; try evaluate.
    destruct H as (s' & E & S & P & _); try evaluate.
    exists s'. split; [exact E | split; [exact S | exact P]].
Defined.

(** C7. The floor that replaces the negative samples is the value of
    [1**-6], which is 1: a negative sample becomes 1, the others (zero
    included) are kept, and the negative logarithm of a floored sample is
    that of 1. *)
Theorem negative_floor_is_one :
  neg_floor = 1%Q
  /\ floor_negatives [[[Fin (-0.5); Fin 0; Fin 0.5]]]
     = [[[Fin 1; Fin 0; Fin 0.5]]]
  /\ (forall K : Kernels,
        log_transform [[[Fin (-0.5)]]]
        = tp_remove_nan [[[neg_log (Fin 1)]]] 0).
Proof. repeat split. Qed.

(** *** Reconstruction *)

Lemma np_amax_nonempty (v : Volume) : nonempty v -> exists x, np_amax v = Some x.
Proof.
  unfold nonempty, np_amax. destruct (flatten v); [congruence | eauto].
Qed.

Lemma np_amin_nonempty (v : Volume) : nonempty v -> exists x, np_amin v = Some x.
Proof.
  unfold nonempty, np_amin. destruct (flatten v); [congruence | eauto].
Qed.

Lemma py_div_nonzero (a : Q) (n : Z) :
  n <> 0 -> py_div a (inject_Z n) = Some (a / inject_Z n)%Q.
Proof.
  intros H. unfold py_div.
  destruct (Qeq_bool (inject_Z n) 0) eqn:E; [| reflexivity].
  apply Qeq_bool_eq in E. unfold Qeq in E. cbn in E. lia.
Qed.

(** The schedule [reconstruct] builds from the two center controls. *)
Definition schedule (s : APS_13BM) (u l : Q) : list Q :=
  let U := padded_center u (npad s) in
  let L := padded_center l (npad s) in
  center_array U ((L - U) / inject_Z (shape0 (data s))) (shape0 (data s)).

(** The volume [reconstruct] stores. *)
Definition reconstructed `{K : Kernels} (s : APS_13BM) (c : Z) (u l : Q) : Volume :=
  tp_remove_nan
    (tp_recon (data s) (theta s) (CenterArray (schedule s u l)) (recon_type s)
       (Some (filter_type s)) (Some c)) 0.

Arguments schedule : simpl never.
Arguments reconstructed : simpl never.

(** What [reconstruct] does once its inputs parse: it calls the kernel
    with the schedule, stores the result and records its geometry; it
    ends normally when the result has a sample. *)
Lemma reconstruct_run `{K : Kernels} (s : APS_13BM) (n c : Z) (u l : Q) :
  py_int (nchunk_blank s) = Some n ->
  py_int (ncore_blank s) = Some c ->
  py_float (upper_rot_center_blank s) = Some u ->
  py_float (lower_rot_center_blank s) = Some l ->
  shape0 (data s) <> 0 ->
  logfile_closed s = false ->
  let out := reconstructed s c u l in
  let s' := final (reconstruct s) in
  data s' = out
  /\ calls s' = calls s ++ [Call_recon (CenterArray (schedule s u l))
                              (recon_type s) (Some (filter_type s)) (Some c);
                            Call_remove_nan 0]
  /\ status_ID s' = "Reconstruction Complete"
  /\ sx s' = shape2 out - 2 * npad s
  /\ sy s' = shape1 out - 2 * npad s
  /\ sz s' = shape0 out
  /\ npad s' = npad s
  /\ (upper_rot_center s' = upper_rot_center s
      /\ lower_rot_center s' = lower_rot_center s
      /\ rot_center s' = rot_center s)
  /\ (nonempty out -> reconstruct s = Done tt s').
Proof.
  intros Hn Hc Hu Hl H0 Hlog out s'.
  pose proof (py_div_nonzero
                (padded_center l (npad s) - padded_center u (npad s))
                (shape0 (data s)) H0) as Hdiv.
  assert (E : exists o, reconstruct s = o /\ s' = final o) by eauto.
  destruct E as (o & E & ->). revert E.
  unfold reconstruct. unfold_handler. run.
  fold (schedule s u l). fold (reconstructed s c u l). fold out.
  destruct (np_amax out) as [hi |] eqn:Ehi; cbn;
    [destruct (np_amin out) as [lo |] eqn:Elo; cbn |];
    intros <-; cbn; repeat split; try reflexivity;
    try (rewrite <- app_assoc; reflexivity); intros Hne; try reflexivity.
  - destruct (np_amin_nonempty out Hne); congruence.
  - destruct (np_amax_nonempty out Hne); congruence.
Qed.

(** The example import, padded to 1024 columns and normalized; no center
    has been searched for. *)
Definition normalized_example : APS_13BM :=
  final (normalization (K := example_kernels)
           (request_pad 1024 (wide_import 1022 (Fin 0.25)))).

(** C1, counterexample. After import and normalization, with no center
    resolved, a full reconstruction runs to its end, reports completion
    and replaces the volume of 2 projections by a volume of 1 slice. *)
Lemma reconstruct_runs_with_unresolved_centers :
  let s := normalized_example in
  let o := reconstruct (K := example_kernels) s in
  upper_rot_center s = None /\ lower_rot_center s = None /\ rot_center s = None
  /\ completed o = true
  /\ status_ID (final o) = "Reconstruction Complete"
  /\ length (calls (final o)) = S (S (length (calls s)))
  /\ shape0 (data s) = 2 /\ shape0 (data (final o)) = 1
  /\ data (final o) <> data s.
Proof.
  intros s o. conjuncts; try (vm_compute; reflexivity).
  intros E. apply (f_equal shape0) in E. vm_compute in E. discriminate.
Qed.

(** C1, as the code has it. A full reconstruction requested while no
    center has been resolved does not fail: once the compute budget and
    the two center controls parse (the import seeds them with half the
    column count) and the volume has a projection, the kernel is called
    with the schedule built from the controls, the volume is replaced by
    its result, and the resolved centers stay unset. *)
Theorem reconstruct_without_center_resolution `{K : Kernels} (s : APS_13BM)
    (n c : Z) (u l : Q) :
  upper_rot_center s = None ->
  lower_rot_center s = None ->
  py_int (nchunk_blank s) = Some n ->
  py_int (ncore_blank s) = Some c ->
  py_float (upper_rot_center_blank s) = Some u ->
  py_float (lower_rot_center_blank s) = Some l ->
  shape0 (data s) <> 0 ->
  logfile_closed s = false ->
  nonempty (reconstructed s c u l) ->
  exists s',
    reconstruct s = Done tt s'
    /\ status_ID s' = "Reconstruction Complete"
    /\ data s' = reconstructed s c u l
    /\ calls s' = calls s ++ [Call_recon (CenterArray (schedule s u l))
                                (recon_type s) (Some (filter_type s)) (Some c);
                              Call_remove_nan 0]
    /\ upper_rot_center s' = None
    /\ lower_rot_center s' = None.
Proof.
  intros Hu0 Hl0 Hn Hc Hu Hl H0 Hlog Hne.
  destruct (reconstruct_run s n c u l Hn Hc Hu Hl H0 Hlog)
    as (D & C & S & _ & _ & _ & _ & (Fu & Fl & _) & E).
  exists (final (reconstruct s)). rewrite Fu, Fl. auto 10.
Qed.

Lemma reconstruct_without_center_resolution_witness :
  exists s',
    reconstruct (K := example_kernels) normalized_example = Done tt s'
    /\ status_ID s' = "Reconstruction Complete"
    /\ upper_rot_center s' = None.
Proof.
  destruct (reconstruct_without_center_resolution (K := example_kernels)
              normalized_example 128 12 (1022 # 2) (1022 # 2))
    as (s' & E & S & _ & _ & U & _); try evaluate.
  exists s'. split; [exact E | split; [exact S | exact U]].
Defined.

(** *** Binary64 arithmetic *)

(** Rocq's primitive floats are the binary64 numbers of the hardware;
    [Prim2SF] reads one as a sign, a mantissa and an exponent, and the
    library specifies every operation on that reading ([SpecFloat]). The
    lemmas below give the rounding of that specification as a function
    on integers and derive that a product and a sum keep the order of
    their arguments. *)

(** **** Rounding to nearest, ties to even *)

(** [n / 2^k] rounded to the nearest integer, a tie going to the even
    one. *)
Definition rne (n k : Z) : Z :=
  let q := n / 2 ^ k in
  let r := n mod 2 ^ k in
  if 2 * r <? 2 ^ k then q
  else if 2 ^ k <? 2 * r then q + 1
  else if Z.even q then q else q + 1.

Lemma pow2_pos (k : Z) : 0 <= k -> 0 < 2 ^ k.
Proof. intros H. apply Z.pow_pos_nonneg; lia. Qed.

Lemma rne_exact (t k : Z) : 0 <= k -> rne (t * 2 ^ k) k = t.
Proof.
  intros H. pose proof (pow2_pos k H) as P. unfold rne.
  rewrite Z.div_mul, Z.mod_mul by lia.
  destruct (Z.ltb_spec (2 * 0) (2 ^ k)); [reflexivity | lia].
Qed.

Lemma rne_mono (n1 n2 k : Z) : 0 <= k -> n1 <= n2 -> rne n1 k <= rne n2 k.
Proof.
  intros H L. pose proof (pow2_pos k H) as P. unfold rne.
  pose proof (Z.div_mod n1 (2 ^ k) ltac:(lia)) as E1.
  pose proof (Z.div_mod n2 (2 ^ k) ltac:(lia)) as E2.
  pose proof (Z.mod_pos_bound n1 (2 ^ k) P) as B1.
  pose proof (Z.mod_pos_bound n2 (2 ^ k) P) as B2.
  pose proof (Z.div_le_mono n1 n2 (2 ^ k) P L) as D.
  set (q1 := n1 / 2 ^ k) in *. set (q2 := n2 / 2 ^ k) in *.
  set (r1 := n1 mod 2 ^ k) in *. set (r2 := n2 mod 2 ^ k) in *.
  set (p := 2 ^ k) in *.
  destruct (Z.eq_dec q1 q2) as [Q | Q].
  - rewrite <- Q in *. assert (r1 <= r2) by nia.
    destruct (Z.ltb_spec (2 * r1) p), (Z.ltb_spec (2 * r2) p),
      (Z.ltb_spec p (2 * r1)), (Z.ltb_spec p (2 * r2)), (Z.even q1); lia.
  - assert (q1 + 1 <= q2) by lia.
    destruct (Z.ltb_spec (2 * r1) p), (Z.ltb_spec (2 * r2) p),
      (Z.ltb_spec p (2 * r1)), (Z.ltb_spec p (2 * r2)), (Z.even q1),
      (Z.even q2); lia.
Qed.

Lemma rne_nonneg (n k : Z) : 0 <= k -> 0 <= n -> 0 <= rne n k.
Proof.
  intros H N. rewrite <- (rne_exact 0 k H). apply rne_mono; lia.
Qed.

(** The same number written with [j] more binary places rounds alike. *)
Lemma rne_shift (n j k : Z) :
  0 <= j -> 0 <= k -> rne (n * 2 ^ j) (k + j) = rne n k.
Proof.
  intros Hj Hk. pose proof (pow2_pos j Hj) as Pj. pose proof (pow2_pos k Hk) as Pk.
  unfold rne. rewrite Z.pow_add_r by lia.
  rewrite Z.div_mul_cancel_r by lia.
  rewrite Z.mul_mod_distr_r by lia.
  set (r := n mod 2 ^ k). set (q := n / 2 ^ k).
  destruct (Z.ltb_spec (2 * r) (2 ^ k)), (Z.ltb_spec (2 * (r * 2 ^ j)) (2 ^ k * 2 ^ j));
    try nia;
  destruct (Z.ltb_spec (2 ^ k) (2 * r)), (Z.ltb_spec (2 ^ k * 2 ^ j) (2 * (r * 2 ^ j)));
    try nia; reflexivity.
Qed.

(** **** Rounding to the format *)

(** Integers stand for multiples of a fixed power of two below every
    binary64 number; [c] is the number of binary places between that unit
    and the smallest positive binary64 number. [rnd c n] is [n] rounded
    to 53 significant bits, or to a multiple of [2^c] when that is
    coarser. *)
Definition places (c n : Z) : Z := Z.max (Z.log2 n + 1 - 53) c.

Definition rnd (c n : Z) : Z := rne n (places c n) * 2 ^ places c n.

Lemma places_nonneg (c n : Z) : 0 <= c -> 0 <= places c n.
Proof. unfold places. lia. Qed.

Lemma places_mono (c n1 n2 : Z) : n1 <= n2 -> places c n1 <= places c n2.
Proof.
  intros H. unfold places. pose proof (Z.log2_le_mono n1 n2 H). lia.
Qed.

Lemma rnd_exact (c n : Z) :
  0 <= c -> (2 ^ places c n | n) -> rnd c n = n.
Proof.
  intros H [t E]. unfold rnd. rewrite E at 1. rewrite rne_exact; [lia |].
  apply places_nonneg, H.
Qed.

Lemma rnd_mono (c n1 n2 : Z) :
  0 <= c -> 0 < n1 -> n1 <= n2 -> rnd c n1 <= rnd c n2.
Proof.
  intros Hc H1 L. unfold rnd.
  pose proof (places_nonneg c n1 Hc) as K1.
  pose proof (places_mono c n1 n2 L) as KM.
  set (k1 := places c n1) in *. set (k2 := places c n2) in *.
  destruct (Z.eq_dec k1 k2) as [E | NE].
  - rewrite <- E. pose proof (pow2_pos k1 K1).
    pose proof (rne_mono n1 n2 k1 K1 L). nia.
  - (* the larger number is in a higher binade: the power of two between
       them is kept by both roundings *)
    assert (K2 : k2 = Z.log2 n2 + 1 - 53) by (unfold k2, k1, places in *; lia).
    assert (LT : Z.log2 n1 < Z.log2 n2) by (unfold k2, k1, places in *; lia).
    set (b := 2 ^ Z.log2 n2).
    assert (B2 : b <= n2) by (apply Z.log2_spec; lia).
    assert (B1 : n1 <= b).
    { pose proof (Z.log2_spec n1 H1) as [_ U].
      assert (2 ^ Z.succ (Z.log2 n1) <= b)
        by (apply Z.pow_le_mono_r; lia).
      lia. }
    assert (D1 : b = 2 ^ (Z.log2 n2 - k1) * 2 ^ k1).
    { unfold b. rewrite <- Z.pow_add_r by lia. f_equal. lia. }
    assert (D2 : b = 2 ^ (Z.log2 n2 - k2) * 2 ^ k2).
    { unfold b. rewrite <- Z.pow_add_r by lia. f_equal. lia. }
    pose proof (rne_mono n1 b k1 K1 B1) as M1.
    rewrite D1 in M1. rewrite rne_exact in M1 by lia.
    pose proof (rne_mono b n2 k2 ltac:(lia) B2) as M2.
    rewrite D2 in M2. rewrite rne_exact in M2 by lia.
    pose proof (pow2_pos k1 K1). pose proof (pow2_pos k2 ltac:(lia)).
    nia.
Qed.

Lemma rnd_0 (c : Z) : 0 <= c -> rnd c 0 = 0.
Proof.
  intros H. unfold rnd. rewrite <- (Z.mul_0_l (2 ^ places c 0)) at 1.
  rewrite rne_exact by (apply places_nonneg, H). reflexivity.
Qed.

Lemma rnd_nonneg (c n : Z) : 0 <= c -> 0 <= n -> 0 <= rnd c n.
Proof.
  intros H N. unfold rnd. pose proof (places_nonneg c n H).
  pose proof (rne_nonneg n (places c n) ltac:(lia) N).
  pose proof (pow2_pos (places c n) ltac:(lia)). nia.
Qed.

(** Rounding is monotone on the non-negative integers. *)
Lemma rnd_mono0 (c n1 n2 : Z) :
  0 <= c -> 0 <= n1 -> n1 <= n2 -> rnd c n1 <= rnd c n2.
Proof.
  intros Hc H1 L. destruct (Z.eq_dec n1 0) as [-> | N].
  - rewrite rnd_0 by exact Hc. apply rnd_nonneg; lia.
  - apply rnd_mono; lia.
Qed.

(** **** The rounding of [SpecFloat] *)

Lemma digits2_pos_size (p : positive) : digits2_pos p = Pos.size p.
Proof. induction p as [p IH | p IH |]; cbn; congruence. Qed.

Lemma digits2_pos_log2 (p : positive) :
  Z.pos (digits2_pos p) = Z.log2 (Z.pos p) + 1.
Proof.
  destruct p as [p | p |]; cbn [digits2_pos Z.log2];
    rewrite ?digits2_pos_size; lia.
Qed.

Lemma iter_pos_nat {A : Type} (f : A -> A) (p : positive) (x : A) :
  SpecFloat.iter_pos f p x = Nat.iter (Pos.to_nat p) f x.
Proof.
  revert x. induction p as [p IH | p IH |]; intros x; cbn [SpecFloat.iter_pos].
  - rewrite !IH, Pos2Nat.inj_xI.
    replace (S (2 * Pos.to_nat p)) with (Pos.to_nat p + (Pos.to_nat p + 1))%nat
      by lia.
    rewrite !Nat.iter_add. reflexivity.
  - rewrite !IH, Pos2Nat.inj_xO.
    replace (2 * Pos.to_nat p)%nat with (Pos.to_nat p + Pos.to_nat p)%nat by lia.
    rewrite Nat.iter_add. reflexivity.
  - reflexivity.
Qed.

(** What the shift register holds after [m] has been shifted right by
    [k] places: the quotient, whether the remainder reaches the half, and
    whether it is off both zero and the half. *)
Definition shifted (m k : Z) (mrs : shr_record) : Prop :=
  let r := m mod 2 ^ k in
  shr_m mrs = m / 2 ^ k
  /\ (shr_r mrs = true <-> 2 ^ k <= 2 * r)
  /\ (shr_s mrs = true <-> r <> 0 /\ 2 * r <> 2 ^ k).

Lemma shifted_0 (m : Z) : shifted m 0 (Build_shr_record m false false).
Proof.
  unfold shifted. cbn [shr_m shr_r shr_s]. rewrite Z.pow_0_r, Z.mod_1_r, Z.div_1_r.
  repeat split; intros; try discriminate; lia.
Qed.

Lemma shr_1_shifted (m k : Z) (mrs : shr_record) :
  0 <= m -> 0 <= k -> shifted m k mrs -> shifted m (k + 1) (shr_1 mrs).
Proof.
  intros Hm Hk (Q & R & S).
  pose proof (pow2_pos k Hk) as P.
  pose proof (Z.mod_pos_bound m (2 ^ k) P) as B.
  assert (Q0 : 0 <= m / 2 ^ k) by (apply Z.div_pos; lia).
  assert (E : m mod 2 ^ (k + 1) = m mod 2 ^ k + 2 ^ k * ((m / 2 ^ k) mod 2)).
  { rewrite Z.pow_add_r, Z.pow_1_r by lia. apply Z.rem_mul_r; lia. }
  assert (D : m / 2 ^ (k + 1) = m / 2 ^ k / 2).
  { rewrite Z.pow_add_r, Z.pow_1_r by lia. symmetry. apply Z.div_div; lia. }
  assert (P1 : 2 ^ (k + 1) = 2 * 2 ^ k).
  { rewrite Z.pow_add_r, Z.pow_1_r by lia. lia. }
  unfold shifted. rewrite E, D, P1.
  destruct mrs as [q rb st]. cbn [shr_m shr_r shr_s] in Q, R, S. subst q.
  set (q := m / 2 ^ k) in *. set (r := m mod 2 ^ k) in *.
  assert (SS : orb rb st = true <-> r <> 0).
  { rewrite orb_true_iff, R, S. lia. }
  pose proof (Z.mod_pos_bound q 2 ltac:(lia)) as B2.
  pose proof (Z.div_mod q 2 ltac:(lia)) as DM.
  unfold shr_1.
  destruct q as [| [p | p |] |] eqn:Eq; try lia; cbn [shr_m shr_r shr_s];
    rewrite SS.
  - change (0 / 2) with 0. change (0 mod 2) with 0.
    repeat split; intros; try discriminate; try lia.
  - assert (M : Z.pos p~1 mod 2 = 1) by (rewrite Pos2Z.inj_xI; lia).
    assert (V : Z.pos p~1 / 2 = Z.pos p) by (rewrite Pos2Z.inj_xI; lia).
    rewrite M, V.
    repeat split; intros; try discriminate; try lia.
  - assert (M : Z.pos p~0 mod 2 = 0) by (rewrite Pos2Z.inj_xO; lia).
    assert (V : Z.pos p~0 / 2 = Z.pos p) by (rewrite Pos2Z.inj_xO; lia).
    rewrite M, V.
    repeat split; intros; try discriminate; try lia.
  - change (1 / 2) with 0. change (1 mod 2) with 1.
    repeat split; intros; try discriminate; try lia.
Qed.

Lemma iter_shr_1_shifted (m : Z) (j : nat) (k : Z) (mrs : shr_record) :
  0 <= m -> 0 <= k -> shifted m k mrs ->
  shifted m (k + Z.of_nat j) (Nat.iter j shr_1 mrs).
Proof.
  intros Hm Hk H. induction j as [| j IH].
  - cbn. rewrite Z.add_0_r. exact H.
  - cbn [Nat.iter]. replace (k + Z.of_nat (S j)) with (k + Z.of_nat j + 1) by lia.
    apply shr_1_shifted; [exact Hm | lia | exact IH].
Qed.

(** [shr] shifts by [n] places when [n] is positive, and not at all
    otherwise. *)
Lemma shr_shifted (m e n : Z) :
  0 <= m ->
  let k := Z.max n 0 in
  exists mrs, shr (Build_shr_record m false false) e n = (mrs, e + k)
              /\ shifted m k mrs.
Proof.
  intros Hm k. unfold shr. destruct n as [| p | p]; subst k.
  - eexists. split; [rewrite Z.add_0_r; reflexivity | apply shifted_0].
  - eexists. split; [reflexivity |].
    rewrite iter_pos_nat.
    replace (Z.max (Z.pos p) 0) with (0 + Z.of_nat (Pos.to_nat p)) by lia.
    apply iter_shr_1_shifted; [exact Hm | lia | apply shifted_0].
  - eexists. split; [rewrite Z.add_0_r; reflexivity | apply shifted_0].
Qed.

Lemma round_shifted (m k : Z) (mrs : shr_record) :
  0 <= k -> shifted m k mrs ->
  round_nearest_even (shr_m mrs) (loc_of_shr_record mrs) = rne m k.
Proof.
  intros Hk (Q & R & S). pose proof (pow2_pos k Hk) as P.
  pose proof (Z.mod_pos_bound m (2 ^ k) P) as B.
  unfold rne. rewrite <- Q.
  destruct mrs as [q rb st]. cbn [shr_m shr_r shr_s] in *.
  destruct (Z.ltb_spec (2 * (m mod 2 ^ k)) (2 ^ k)),
    (Z.ltb_spec (2 ^ k) (2 * (m mod 2 ^ k))); try lia;
    destruct rb, st; cbn; try reflexivity; intuition (try discriminate; try lia).
Qed.

Lemma shr_fexp_shifted (m e : Z) :
  0 <= m ->
  let k := Z.max (fexp prec emax (Zdigits2 m + e) - e) 0 in
  exists mrs, shr_fexp prec emax m e loc_Exact = (mrs, e + k)
              /\ shifted m k mrs.
Proof. intros H. apply (shr_shifted m e _ H). Qed.

Lemma Zdigits2_log2 (m : Z) : 0 < m -> Zdigits2 m = Z.log2 m + 1.
Proof.
  destruct m as [| p | p]; try lia. intros _. apply digits2_pos_log2.
Qed.

Lemma log2_units (m j : Z) : 0 < m -> 0 <= j -> Z.log2 (m * 2 ^ j) = Z.log2 m + j.
Proof.
  intros Hm Hj. rewrite <- Z.shiftl_mul_pow2 by lia.
  rewrite Z.log2_shiftl by lia. reflexivity.
Qed.

Lemma fexp_eq (z : Z) : fexp prec emax z = Z.max (z - 53) (-1074).
Proof. reflexivity. Qed.

(** **** Values in units of a small power of two *)

(** Every binary64 number, every product of two and every sum of two is
    an integer number of units [2^e0] when [e0 <= -2148]; the infinities
    stand at [2^1024]. *)
Definition top (e0 : Z) : Z := 2 ^ (1024 - e0).

Definition sval (e0 : Z) (x : spec_float) : Z :=
  match x with
  | S754_zero _ | S754_nan => 0
  | S754_infinity s => if s then - top e0 else top e0
  | S754_finite s m e =>
      if s then - (Z.pos m * 2 ^ (e - e0)) else Z.pos m * 2 ^ (e - e0)
  end.

(** Rounding, with overflow to infinity. *)
Definition round_units (e0 n : Z) : Z := Z.min (rnd (-1074 - e0) n) (top e0).

Definition signed (s : bool) (n : Z) : Z := if s then - n else n.

Lemma round_units_mono (e0 n1 n2 : Z) :
  e0 <= -1074 -> 0 <= n1 -> n1 <= n2 -> round_units e0 n1 <= round_units e0 n2.
Proof.
  intros H N L. unfold round_units.
  pose proof (rnd_mono0 (-1074 - e0) n1 n2 ltac:(lia) N L). lia.
Qed.

(** What [binary_round_aux] makes of [m * 2^e], when [m] has no fewer
    bits than the format asks for at that exponent. *)
Lemma binary_round_aux_spec (e0 : Z) (sx : bool) (m : positive) (e : Z) :
  e0 <= -1074 -> e0 <= e ->
  e <= fexp prec emax (Z.pos (digits2_pos m) + e) ->
  let out := binary_round_aux prec emax sx (Z.pos m) e loc_Exact in
  out <> S754_nan
  /\ sval e0 out = signed sx (round_units e0 (Z.pos m * 2 ^ (e - e0))).
Proof.
  intros He0 He HW out. subst out.
  set (d := Z.pos (digits2_pos m)) in *.
  set (E := fexp prec emax (d + e)) in *.
  set (k := E - e).
  assert (Hk : 0 <= k) by (subst k; lia).
  assert (HE : E = Z.max (d + e - 53) (-1074)) by (subst E; apply fexp_eq).
  pose proof (pow2_pos k Hk) as Pk.
  (* the mantissa and its bounds *)
  assert (Dlo : 2 ^ (d - 1) <= Z.pos m).
  { subst d. rewrite digits2_pos_log2.
    replace (Z.log2 (Z.pos m) + 1 - 1) with (Z.log2 (Z.pos m)) by lia.
    apply Z.log2_spec; lia. }
  assert (Dhi : Z.pos m < 2 ^ d).
  { subst d. rewrite digits2_pos_log2.
    apply Z.log2_spec; lia. }
  set (mz := rne (Z.pos m) k).
  assert (Mhi : mz <= 2 ^ 53).
  { subst mz. rewrite <- (rne_exact (2 ^ 53) k Hk). apply rne_mono; [exact Hk |].
    rewrite <- Z.pow_add_r by lia.
    assert (2 ^ d <= 2 ^ (53 + k)) by (apply Z.pow_le_mono_r; lia). lia. }
  assert (Mlo : 0 <= mz) by (apply rne_nonneg; lia).
  assert (Mnorm : -1074 < E -> 2 ^ 52 <= mz).
  { intros N. assert (Ek : k = d - 53) by lia.
    subst mz. rewrite <- (rne_exact (2 ^ 52) k Hk). apply rne_mono; [exact Hk |].
    rewrite <- Z.pow_add_r by lia.
    replace (52 + k) with (d - 1) by lia. exact Dlo. }
  (* the rounded value *)
  assert (V : rnd (-1074 - e0) (Z.pos m * 2 ^ (e - e0)) = mz * 2 ^ (E - e0)).
  { assert (Dd : d = Z.log2 (Z.pos m) + 1) by apply digits2_pos_log2.
    unfold rnd, places. rewrite log2_units by lia.
    replace (Z.max (Z.log2 (Z.pos m) + (e - e0) + 1 - 53) (-1074 - e0))
      with (k + (e - e0)) by lia.
    rewrite rne_shift by lia. fold mz. f_equal. f_equal. lia. }
  unfold binary_round_aux.
  destruct (shr_fexp_shifted (Z.pos m) e ltac:(lia)) as (mrs1 & E1 & S1).
  cbn [Zdigits2] in E1, S1. fold d E in E1, S1.
  replace (Z.max (E - e) 0) with k in E1, S1 by lia.
  replace (e + k) with E in E1 by lia.
  rewrite E1, (round_shifted _ _ _ Hk S1). fold mz.
  destruct (shr_fexp_shifted mz E Mlo) as (mrs2 & E2 & S2).
  rewrite E2. destruct S2 as (Q2 & _). rewrite Q2. clear E1 S1 E2 Q2.
  unfold round_units. rewrite V.
  assert (PE : 0 < 2 ^ (E - e0)) by (apply pow2_pos; lia).
  destruct (Z.eq_dec mz 0) as [Z0 | NZ].
  - (* underflow to zero *)
    rewrite Z0. cbn [Zdigits2]. rewrite fexp_eq.
    replace (Z.max (Z.max (0 + E - 53) (-1074) - E) 0) with 0 by lia.
    rewrite Z.pow_0_r, Z.div_1_r. cbv beta iota. split; [discriminate |].
    assert (0 < top e0) by (apply pow2_pos; lia).
    unfold sval, signed. destruct sx; lia.
  - destruct (Z.eq_dec mz (2 ^ 53)) as [C | NC].
    + (* the carry into the next binade *)
      rewrite C. change (Zdigits2 (2 ^ 53)) with 54. rewrite fexp_eq.
      replace (Z.max (Z.max (54 + E - 53) (-1074) - E) 0) with 1 by lia.
      change (2 ^ 53 / 2 ^ 1) with (Z.pos (2 ^ 52)).
      assert (T : 2 ^ 53 * 2 ^ (E - e0) = Z.pos (2 ^ 52) * 2 ^ (E + 1 - e0)).
      { replace (E + 1 - e0) with (Z.succ (E - e0)) by lia.
        rewrite Z.pow_succ_r by lia. change (2 ^ 53) with (2 * Z.pos (2 ^ 52)). lia. }
      destruct (Z.leb_spec (E + 1) (emax - prec)) as [B | B];
        unfold emax, prec in B; (split; [discriminate |]).
      * cbn [sval]. rewrite <- T.
        assert (2 ^ 53 * 2 ^ (E - e0) < top e0).
        { unfold top. rewrite <- Z.pow_add_r by lia.
          apply Z.pow_lt_mono_r; lia. }
        unfold signed; destruct sx; lia.
      * cbn [sval].
        assert (top e0 <= 2 ^ 53 * 2 ^ (E - e0)).
        { unfold top. rewrite <- Z.pow_add_r by lia.
          apply Z.pow_le_mono_r; lia. }
        unfold signed; destruct sx; lia.
    + (* a mantissa of at most 53 bits *)
      assert (Mlt : mz < 2 ^ 53) by lia.
      assert (Dz : Zdigits2 mz <= 53).
      { rewrite Zdigits2_log2 by lia.
        assert (Z.log2 mz < 53) by (apply Z.log2_lt_pow2; lia). lia. }
      rewrite fexp_eq.
      replace (Z.max (Z.max (Zdigits2 mz + E - 53) (-1074) - E) 0) with 0 by lia.
      rewrite Z.pow_0_r, Z.div_1_r.
      destruct mz as [| p | p] eqn:Emz; try lia.
      destruct (Z.leb_spec (E + 0) (emax - prec)) as [B | B];
        unfold emax, prec in B; (split; [discriminate |]).
      * cbn [sval]. rewrite Z.add_0_r.
        assert (Z.pos p * 2 ^ (E - e0) < top e0).
        { unfold top.
          assert (2 ^ 53 * 2 ^ (E - e0) <= 2 ^ (1024 - e0)).
          { rewrite <- Z.pow_add_r by lia. apply Z.pow_le_mono_r; lia. }
          nia. }
        unfold signed; destruct sx; lia.
      * cbn [sval].
        assert (top e0 <= Z.pos p * 2 ^ (E - e0)).
        { unfold top. specialize (Mnorm ltac:(lia)).
          assert (2 ^ (1024 - e0) <= 2 ^ 52 * 2 ^ (E - e0)).
          { rewrite <- Z.pow_add_r by lia. apply Z.pow_le_mono_r; lia. }
          nia. }
        unfold signed; destruct sx; lia.
Qed.

(** **** Binary64 numbers as integers *)

(** A float that is zero or finite. *)
Definition number (x : spec_float) : Prop :=
  match x with
  | S754_zero _ | S754_finite _ _ _ => True
  | S754_infinity _ | S754_nan => False
  end.

(** The mantissa and exponent of a valid finite float. *)
Lemma valid_finite (s : bool) (m : positive) (e : Z) :
  valid_binary (S754_finite s m e) = true ->
  let d := Z.log2 (Z.pos m) + 1 in
  e = Z.max (d + e - 53) (-1074) /\ e <= 971
  /\ 2 ^ (d - 1) <= Z.pos m < 2 ^ d.
Proof.
  intros V d. cbn [SpecFloat.valid_binary] in V. unfold bounded in V.
  apply andb_true_iff in V as [C B]. unfold canonical_mantissa in C.
  apply Z.eqb_eq in C. apply Z.leb_le in B.
  rewrite fexp_eq, digits2_pos_log2 in C. fold d in C.
  unfold emax, prec in B.
  split; [lia |]. split; [lia |].
  subst d. replace (Z.log2 (Z.pos m) + 1 - 1) with (Z.log2 (Z.pos m)) by lia.
  replace (Z.log2 (Z.pos m) + 1) with (Z.succ (Z.log2 (Z.pos m))) by lia.
  apply Z.log2_spec. lia.
Qed.

Lemma top_pos (e0 : Z) : e0 <= -1074 -> 0 < top e0.
Proof. intros H. apply pow2_pos. lia. Qed.

(** The integer of a valid finite float: positive, below the infinities,
    and at least [2^52] units of its exponent unless subnormal. *)
Lemma valid_finite_units (e0 : Z) (s : bool) (m : positive) (e : Z) :
  e0 <= -1074 ->
  valid_binary (S754_finite s m e) = true ->
  let n := Z.pos m * 2 ^ (e - e0) in
  0 < n < top e0
  /\ n < 2 ^ (53 + e - e0)
  /\ (-1074 < e -> 2 ^ (52 + e - e0) <= n)
  /\ -1074 <= e.
Proof.
  intros He0 V n. destruct (valid_finite s m e V) as (C & B & Lo & Hi).
  set (d := Z.log2 (Z.pos m) + 1) in *.
  assert (Hd : d <= 53) by lia.
  assert (P : 0 < 2 ^ (e - e0)) by (apply pow2_pos; lia).
  assert (M53 : Z.pos m < 2 ^ 53).
  { assert (2 ^ d <= 2 ^ 53) by (apply Z.pow_le_mono_r; lia). lia. }
  assert (N53 : n < 2 ^ (53 + e - e0)).
  { replace (53 + e - e0) with (53 + (e - e0)) by lia.
    rewrite Z.pow_add_r by lia. subst n. nia. }
  split; [split; [subst n; nia |] |].
  - unfold top.
    assert (2 ^ (53 + e - e0) <= 2 ^ (1024 - e0))
      by (apply Z.pow_le_mono_r; lia).
    lia.
  - split; [exact N53 |]. split; [| lia].
    intros N. assert (d = 53) by lia.
    replace (52 + e - e0) with (52 + (e - e0)) by lia.
    rewrite Z.pow_add_r by lia.
    assert (2 ^ 52 <= Z.pos m) by (replace 52 with (d - 1) by lia; exact Lo).
    subst n. nia.
Qed.

Ltac decide_compare :=
  first [apply Z.compare_eq_iff | apply Z.compare_lt_iff
        | apply Z.compare_gt_iff]; lia.

(** Floats compare as their integers do. *)
Lemma SFcompare_sval (e0 : Z) (x y : spec_float) :
  e0 <= -1074 ->
  valid_binary x = true -> valid_binary y = true ->
  x <> S754_nan -> y <> S754_nan ->
  SFcompare x y = Some (sval e0 x ?= sval e0 y).
Proof.
  intros He0 Vx Vy Nx Ny. pose proof (top_pos e0 He0) as T.
  destruct x as [sx | sx | | sx mx ex]; try congruence;
    destruct y as [sy | sy | | sy my ey]; try congruence;
    try (pose proof (valid_finite_units e0 sx mx ex He0 Vx) as (Bx & Ux & Lx & Ex));
    try (pose proof (valid_finite_units e0 sy my ey He0 Vy) as (By & Uy & Ly & Ey));
    cbn [SFcompare sval]; f_equal; symmetry.
  - destruct sy; decide_compare.
  - destruct sy; decide_compare.
  - destruct sx; decide_compare.
  - destruct sx, sy; decide_compare.
  - destruct sx, sy; decide_compare.
  - destruct sx; decide_compare.
  - destruct sx, sy; decide_compare.
  - (* two finite floats *)
    assert (Cross : forall (m1 m2 : positive) (e1 e2 : Z),
              e1 < e2 -> -1074 <= e1 ->
              Z.pos m1 * 2 ^ (e1 - e0) < 2 ^ (53 + e1 - e0) ->
              2 ^ (52 + e2 - e0) <= Z.pos m2 * 2 ^ (e2 - e0) ->
              Z.pos m1 * 2 ^ (e1 - e0) < Z.pos m2 * 2 ^ (e2 - e0)).
    { intros m1 m2 e1 e2 L B U1 L2.
      assert (2 ^ (53 + e1 - e0) <= 2 ^ (52 + e2 - e0))
        by (apply Z.pow_le_mono_r; lia).
      lia. }
    change (Pos.compare_cont Eq mx my) with (Pos.compare mx my).
    destruct sx, sy.
    + destruct (Z.compare_spec ex ey) as [-> | L | L].
      * assert (P : 0 < 2 ^ (ey - e0)) by (apply pow2_pos; lia).
        destruct (Pos.compare_spec mx my) as [-> | M | M]; cbn [CompOpp];
          first [apply Z.compare_eq_iff | apply Z.compare_lt_iff
                | apply Z.compare_gt_iff]; nia.
      * apply Z.compare_gt_iff.
        pose proof (Cross mx my ex ey L Ex Ux (Ly ltac:(lia))). lia.
      * apply Z.compare_lt_iff.
        pose proof (Cross my mx ey ex L Ey Uy (Lx ltac:(lia))). lia.
    + apply Z.compare_lt_iff. lia.
    + apply Z.compare_gt_iff. lia.
    + destruct (Z.compare_spec ex ey) as [-> | L | L].
      * assert (P : 0 < 2 ^ (ey - e0)) by (apply pow2_pos; lia).
        destruct (Pos.compare_spec mx my) as [-> | M | M];
          first [apply Z.compare_eq_iff | apply Z.compare_lt_iff
                | apply Z.compare_gt_iff]; nia.
      * apply Z.compare_lt_iff. apply Cross; auto; lia.
      * apply Z.compare_gt_iff. apply Cross; auto; lia.
Qed.

Lemma SFleb_sval (e0 : Z) (x y : spec_float) :
  e0 <= -1074 ->
  valid_binary x = true -> valid_binary y = true ->
  x <> S754_nan -> y <> S754_nan ->
  SFleb x y = true <-> sval e0 x <= sval e0 y.
Proof.
  intros He0 Vx Vy Nx Ny. unfold SFleb.
  rewrite (SFcompare_sval e0 x y He0 Vx Vy Nx Ny).
  destruct (Z.compare_spec (sval e0 x) (sval e0 y)); split; intros; try lia;
    try reflexivity; discriminate.
Qed.

(** Rounding of a signed integer: away from the sign, round, and put the
    sign back. *)
Definition sround (e0 n : Z) : Z :=
  if n <? 0 then - round_units e0 (- n) else round_units e0 n.

Lemma round_units_0 (e0 : Z) : e0 <= -1074 -> round_units e0 0 = 0.
Proof.
  intros H. unfold round_units. rewrite rnd_0 by lia.
  pose proof (top_pos e0 H). lia.
Qed.

Lemma round_units_nonneg (e0 n : Z) :
  e0 <= -1074 -> 0 <= n -> 0 <= round_units e0 n.
Proof.
  intros H N. rewrite <- (round_units_0 e0 H). apply round_units_mono; lia.
Qed.

Lemma round_units_top (e0 n : Z) : round_units e0 n <= top e0.
Proof. unfold round_units. lia. Qed.

Lemma sround_signed (e0 : Z) (s : bool) (n : Z) :
  e0 <= -1074 -> 0 <= n ->
  signed s (round_units e0 n) = sround e0 (signed s n).
Proof.
  intros H N. unfold sround, signed.
  destruct (Z.eq_dec n 0) as [-> | P].
  - destruct s; change (- 0) with 0; change (0 <? 0) with false; cbv iota;
      rewrite !round_units_0 by exact H; reflexivity.
  - destruct s.
    + destruct (Z.ltb_spec (- n) 0); [| lia]. rewrite Z.opp_involutive. reflexivity.
    + destruct (Z.ltb_spec n 0); [lia | reflexivity].
Qed.

Lemma sround_mono (e0 n1 n2 : Z) :
  e0 <= -1074 -> n1 <= n2 -> sround e0 n1 <= sround e0 n2.
Proof.
  intros H L. unfold sround.
  destruct (Z.ltb_spec n1 0), (Z.ltb_spec n2 0); try lia.
  - pose proof (round_units_mono e0 (- n2) (- n1) H ltac:(lia) ltac:(lia)). lia.
  - pose proof (round_units_nonneg e0 (- n1) H ltac:(lia)).
    pose proof (round_units_nonneg e0 n2 H ltac:(lia)). lia.
  - apply round_units_mono; lia.
Qed.

Lemma sround_bounds (e0 n : Z) :
  e0 <= -1074 -> - top e0 <= sround e0 n <= top e0.
Proof.
  intros H. unfold sround. pose proof (top_pos e0 H).
  destruct (Z.ltb_spec n 0).
  - pose proof (round_units_top e0 (- n)).
    pose proof (round_units_nonneg e0 (- n) H ltac:(lia)). lia.
  - pose proof (round_units_top e0 n).
    pose proof (round_units_nonneg e0 n H ltac:(lia)). lia.
Qed.

Lemma iter_xO (m d : positive) :
  Z.pos (Pos.iter xO m d) = Z.pos m * 2 ^ Z.pos d.
Proof.
  induction d as [| d IH] using Pos.peano_ind.
  - cbn. lia.
  - rewrite Pos.iter_succ, Pos2Z.inj_xO, IH, Pos2Z.inj_succ, Z.pow_succ_r by lia.
    lia.
Qed.

Lemma shl_align_spec (m : positive) (e e' : Z) :
  let r := shl_align m e e' in
  snd r = Z.min e e' /\ Z.pos (fst r) = Z.pos m * 2 ^ (e - snd r).
Proof.
  unfold shl_align. destruct (e' - e) as [| d | d] eqn:E; cbn [fst snd].
  - split; [lia |]. rewrite Z.sub_diag. lia.
  - split; [lia |]. rewrite Z.sub_diag. lia.
  - split; [lia |]. rewrite iter_xO. f_equal. f_equal. lia.
Qed.

(** What [binary_round] makes of [m * 2^e]. *)
Lemma binary_round_spec (e0 : Z) (sx : bool) (m : positive) (e : Z) :
  e0 <= -1074 -> e0 <= e ->
  let out := binary_round prec emax sx m e in
  out <> S754_nan
  /\ sval e0 out = signed sx (round_units e0 (Z.pos m * 2 ^ (e - e0))).
Proof.
  intros He0 He out. subst out. unfold binary_round.
  pose proof (shl_align_spec m e
                (fexp prec emax (Z.pos (digits2_pos m) + e))) as (S & F).
  destruct (shl_align m e (fexp prec emax (Z.pos (digits2_pos m) + e)))
    as [m' e']. cbn [fst snd] in S, F.
  rewrite fexp_eq in S.
  assert (D : Z.pos (digits2_pos m') + e' = Z.pos (digits2_pos m) + e).
  { rewrite !digits2_pos_log2, F, log2_units by lia. lia. }
  assert (V : Z.pos m' * 2 ^ (e' - e0) = Z.pos m * 2 ^ (e - e0)).
  { rewrite F, <- Z.mul_assoc, <- Z.pow_add_r by lia. f_equal. f_equal. lia. }
  rewrite <- V. apply binary_round_aux_spec; [exact He0 | lia |].
  rewrite D, fexp_eq. lia.
Qed.

Lemma binary_normalize_spec (e0 z e : Z) :
  e0 <= -1074 -> e0 <= e ->
  let out := binary_normalize prec emax z e false in
  out <> S754_nan /\ sval e0 out = sround e0 (z * 2 ^ (e - e0)).
Proof.
  intros He0 He out. subst out. unfold binary_normalize.
  assert (P : 0 < 2 ^ (e - e0)) by (apply pow2_pos; lia).
  destruct z as [| p | p].
  - split; [discriminate |]. cbn [sval]. rewrite Z.mul_0_l.
    unfold sround. cbn. symmetry. apply round_units_0, He0.
  - destruct (binary_round_spec e0 false p e He0 He) as (N & V).
    split; [exact N |]. rewrite V, sround_signed by lia. reflexivity.
  - destruct (binary_round_spec e0 true p e He0 He) as (N & V).
    split; [exact N |]. rewrite V, sround_signed by lia.
    unfold signed. f_equal. lia.
Qed.

(** A valid finite float is its own rounding. *)
Lemma sround_fixed (e0 : Z) (x : spec_float) :
  e0 <= -1074 -> valid_binary x = true -> number x ->
  sround e0 (sval e0 x) = sval e0 x.
Proof.
  intros He0 V N. destruct x as [s | s | | s m e]; try contradiction.
  - cbn [sval]. unfold sround. cbn. apply round_units_0, He0.
  - destruct (valid_finite s m e V) as (C & B & Lo & Hi).
    destruct (valid_finite_units e0 s m e He0 V) as (Bn & _ & _ & Ee).
    cbn [sval]. change (if s then - ?a else ?a) with (signed s a).
    rewrite <- sround_signed by lia. f_equal.
    unfold round_units. rewrite rnd_exact; [lia | lia |].
    unfold places. rewrite log2_units by lia.
    replace (Z.max (Z.log2 (Z.pos m) + (e - e0) + 1 - 53) (-1074 - e0))
      with (e - e0) by lia.
    exists (Z.pos m). reflexivity.
Qed.

(** The product of two binary64 numbers is the rounding of the product
    of their integers. *)
Lemma SFmul_sval (e0 : Z) (x y : spec_float) :
  e0 <= -2148 ->
  valid_binary x = true -> valid_binary y = true -> number x -> number y ->
  SF64mul x y <> S754_nan
  /\ sval e0 (SF64mul x y) = sround e0 (sval e0 x * sval e0 y / 2 ^ (- e0)).
Proof.
  intros He0 Vx Vy Nx Ny.
  assert (Z0 : sround e0 0 = 0) by (unfold sround; cbn; apply round_units_0; lia).
  destruct x as [sx | sx | | sx mx ex]; try contradiction;
    destruct y as [sy | sy | | sy my ey]; try contradiction;
    cbn [SF64mul SFmul sval]; unfold SF64mul; cbn [SFmul];
    try (split; [discriminate |]; cbn [sval];
         rewrite ?Z.mul_0_l, ?Z.mul_0_r; cbn [Z.div]; rewrite ?Zdiv_0_l; symmetry; exact Z0).
  destruct (valid_finite sx mx ex Vx) as (Cx & Bx & Lox & Hix).
  destruct (valid_finite sy my ey Vy) as (Cy & By & Loy & Hiy).
  pose proof (Z.log2_mul_below (Z.pos mx) (Z.pos my) ltac:(lia) ltac:(lia)) as LM.
  pose proof (Z.log2_nonneg (Z.pos mx)). pose proof (Z.log2_nonneg (Z.pos my)).
  destruct (binary_round_aux_spec e0 (xorb sx sy) (mx * my) (ex + ey)
              ltac:(lia) ltac:(lia)) as (N & V).
  { rewrite fexp_eq, digits2_pos_log2, Pos2Z.inj_mul. lia. }
  split; [exact N |]. rewrite V, sround_signed.
  2: lia.
  2:{ assert (0 < 2 ^ (ex + ey - e0)) by (apply pow2_pos; lia). lia. }
  f_equal.
  assert (E : Z.pos mx * 2 ^ (ex - e0) * (Z.pos my * 2 ^ (ey - e0))
              = Z.pos (mx * my) * 2 ^ (ex + ey - e0) * 2 ^ (- e0)).
  { rewrite Pos2Z.inj_mul.
    replace (Z.pos mx * Z.pos my * 2 ^ (ex + ey - e0) * 2 ^ (- e0))
      with (Z.pos mx * Z.pos my * (2 ^ (ex + ey - e0) * 2 ^ (- e0))) by ring.
    rewrite <- Z.pow_add_r by lia.
    replace (ex + ey - e0 + - e0) with ((ex - e0) + (ey - e0)) by lia.
    rewrite Z.pow_add_r by lia. ring. }
  assert (P : 0 < 2 ^ (- e0)) by (apply pow2_pos; lia).
  unfold signed.
  destruct sx, sy; cbn [xorb];
    rewrite ?Z.mul_opp_opp, ?Z.mul_opp_l, ?Z.mul_opp_r, E, <- ?Z.mul_opp_l,
      Z.div_mul by lia; reflexivity.
Qed.

(** The sum of two binary64 numbers is the rounding of the sum of their
    integers. *)
Lemma SFadd_sval (e0 : Z) (x y : spec_float) :
  e0 <= -1074 ->
  valid_binary x = true -> valid_binary y = true -> number x -> number y ->
  SF64add x y <> S754_nan
  /\ sval e0 (SF64add x y) = sround e0 (sval e0 x + sval e0 y).
Proof.
  intros He0 Vx Vy Nx Ny.
  assert (Z0 : sround e0 0 = 0) by (unfold sround; cbn; apply round_units_0; lia).
  destruct x as [sx | sx | | sx mx ex]; try contradiction;
    destruct y as [sy | sy | | sy my ey]; try contradiction;
    unfold SF64add; cbn [SFadd].
  - split; [destruct sx, sy; discriminate |].
    destruct sx, sy; cbn [sval]; symmetry; exact Z0.
  - split; [discriminate |]. rewrite Z.add_0_l. symmetry.
    apply sround_fixed; auto.
  - split; [discriminate |]. rewrite Z.add_0_r. symmetry.
    apply sround_fixed; auto.
  - destruct (valid_finite_units e0 sx mx ex He0 Vx) as (_ & _ & _ & Ex).
    destruct (valid_finite_units e0 sy my ey He0 Vy) as (_ & _ & _ & Ey).
    pose proof (shl_align_spec mx ex (Z.min ex ey)) as (Sx & Fx).
    pose proof (shl_align_spec my ey (Z.min ex ey)) as (Sy & Fy).
    destruct (binary_normalize_spec e0
                (cond_Zopp sx (Z.pos (fst (shl_align mx ex (Z.min ex ey))))
                 + cond_Zopp sy (Z.pos (fst (shl_align my ey (Z.min ex ey)))))
                (Z.min ex ey) He0 ltac:(lia)) as (N & V).
    split; [exact N |]. rewrite V. f_equal.
    rewrite Fx, Fy, Sx, Sy. cbn [sval].
    replace (Z.min ex (Z.min ex ey)) with (Z.min ex ey) by lia.
    replace (Z.min ey (Z.min ex ey)) with (Z.min ex ey) by lia.
    set (ez := Z.min ex ey).
    assert (Ax : Z.pos mx * 2 ^ (ex - ez) * 2 ^ (ez - e0) = Z.pos mx * 2 ^ (ex - e0)).
    { rewrite <- Z.mul_assoc, <- Z.pow_add_r by lia. f_equal. f_equal. lia. }
    assert (Ay : Z.pos my * 2 ^ (ey - ez) * 2 ^ (ez - e0) = Z.pos my * 2 ^ (ey - e0)).
    { rewrite <- Z.mul_assoc, <- Z.pow_add_r by lia. f_equal. f_equal. lia. }
    unfold cond_Zopp. destruct sx, sy; lia.
Qed.

(** The difference of two binary64 numbers is the rounding of the
    difference of their integers. *)
Lemma SFsub_sval (e0 : Z) (x y : spec_float) :
  e0 <= -1074 ->
  valid_binary x = true -> valid_binary y = true -> number x -> number y ->
  SF64sub x y <> S754_nan
  /\ sval e0 (SF64sub x y) = sround e0 (sval e0 x - sval e0 y).
Proof.
  intros He0 Vx Vy Nx Ny.
  assert (Z0 : sround e0 0 = 0) by (unfold sround; cbn; apply round_units_0; lia).
  destruct x as [sx | sx | | sx mx ex]; try contradiction;
    destruct y as [sy | sy | | sy my ey]; try contradiction;
    unfold SF64sub; cbn [SFsub].
  - split; [destruct sx, sy; discriminate |].
    destruct sx, sy; cbn [sval]; symmetry; exact Z0.
  - split; [discriminate |].
    assert (E : sval e0 (S754_zero sx) - sval e0 (S754_finite sy my ey)
                = sval e0 (S754_finite (negb sy) my ey))
      by (cbn [sval]; destruct sy; cbn [negb]; lia).
    rewrite E. symmetry. apply sround_fixed; auto.
  - split; [discriminate |]. cbn [sval]. rewrite Z.sub_0_r. symmetry.
    apply (sround_fixed e0 (S754_finite sx mx ex)); auto.
  - destruct (valid_finite_units e0 sx mx ex He0 Vx) as (_ & _ & _ & Ex).
    destruct (valid_finite_units e0 sy my ey He0 Vy) as (_ & _ & _ & Ey).
    pose proof (shl_align_spec mx ex (Z.min ex ey)) as (Sx & Fx).
    pose proof (shl_align_spec my ey (Z.min ex ey)) as (Sy & Fy).
    destruct (binary_normalize_spec e0
                (cond_Zopp sx (Z.pos (fst (shl_align mx ex (Z.min ex ey))))
                 - cond_Zopp sy (Z.pos (fst (shl_align my ey (Z.min ex ey)))))
                (Z.min ex ey) He0 ltac:(lia)) as (N & V).
    split; [exact N |]. rewrite V. f_equal.
    rewrite Fx, Fy, Sx, Sy. cbn [sval].
    replace (Z.min ex (Z.min ex ey)) with (Z.min ex ey) by lia.
    replace (Z.min ey (Z.min ex ey)) with (Z.min ex ey) by lia.
    set (ez := Z.min ex ey).
    assert (Ax : Z.pos mx * 2 ^ (ex - ez) * 2 ^ (ez - e0) = Z.pos mx * 2 ^ (ex - e0)).
    { rewrite <- Z.mul_assoc, <- Z.pow_add_r by lia. f_equal. f_equal. lia. }
    assert (Ay : Z.pos my * 2 ^ (ey - ez) * 2 ^ (ez - e0) = Z.pos my * 2 ^ (ey - e0)).
    { rewrite <- Z.mul_assoc, <- Z.pow_add_r by lia. f_equal. f_equal. lia. }
    unfold cond_Zopp. destruct sx, sy; lia.
Qed.

(** Whatever it rounds, [binary_round_aux] keeps the sign it is given. *)
Lemma binary_round_aux_sign (sx : bool) (mx ex : Z) (lx : location) :
  match binary_round_aux prec emax sx mx ex lx with
  | S754_zero s | S754_infinity s | S754_finite s _ _ => s = sx
  | S754_nan => True
  end.
Proof.
  unfold binary_round_aux.
  destruct (shr_fexp prec emax mx ex lx) as [mrs1 e1].
  destruct (shr_fexp prec emax _ e1 loc_Exact) as [mrs2 e2].
  destruct (shr_m mrs2); [reflexivity | | exact I].
  destruct (e2 <=? emax - prec); reflexivity.
Qed.

(** **** Integers and zeros in binary64 *)

Lemma digits2_pos_shift (p k : positive) :
  digits2_pos (Pos.iter xO p k) = (digits2_pos p + k)%positive.
Proof.
  induction k as [| k IH] using Pos.peano_ind.
  - cbn. lia.
  - rewrite Pos.iter_succ. cbn [digits2_pos]. rewrite IH. lia.
Qed.

Lemma digits2_pos_lower (p : positive) :
  2 ^ (Z.pos (digits2_pos p) - 1) <= Z.pos p.
Proof.
  induction p as [p IH | p IH |]; cbn [digits2_pos].
  - rewrite Pos2Z.inj_succ.
    replace (Z.succ (Z.pos (digits2_pos p)) - 1)
      with (Z.succ (Z.pos (digits2_pos p) - 1)) by lia.
    rewrite Z.pow_succ_r by lia. lia.
  - rewrite Pos2Z.inj_succ.
    replace (Z.succ (Z.pos (digits2_pos p)) - 1)
      with (Z.succ (Z.pos (digits2_pos p) - 1)) by lia.
    rewrite Z.pow_succ_r by lia. lia.
  - cbn. lia.
Qed.

Lemma digits2_pos_53 (p : positive) :
  Z.pos p < 2 ^ 53 -> Z.pos (digits2_pos p) <= 53.
Proof.
  intros H. pose proof (digits2_pos_lower p) as L.
  destruct (Z_le_gt_dec (Z.pos (digits2_pos p)) 53) as [| G]; [assumption |].
  exfalso.
  assert (2 ^ 53 <= 2 ^ (Z.pos (digits2_pos p) - 1))
    by (apply Z.pow_le_mono_r; lia).
  lia.
Qed.

(** A mantissa that already has the exponent of its format is not
    rounded. *)
Lemma binary_round_aux_canonical (s : bool) (m : positive) (e : Z) :
  fexp prec emax (Z.pos (digits2_pos m) + e) = e ->
  e <= emax - prec ->
  binary_round_aux prec emax s (Z.pos m) e loc_Exact = S754_finite s m e.
Proof.
  intros C B. unfold binary_round_aux, shr_fexp.
  cbn [Zdigits2 shr_record_of_loc]. rewrite C, Z.sub_diag.
  cbn [shr loc_of_shr_record shr_m round_nearest_even Zdigits2 shr_record_of_loc].
  rewrite C, Z.sub_diag. cbn [shr shr_m].
  destruct (Z.leb_spec e (emax - prec)); [reflexivity | lia].
Qed.

(** An integer in [1, 2^53) is a binary64 number: its conversion is
    exact, finite and positive. *)
Lemma binary_normalize_pos (p : positive) :
  Z.pos p < 2 ^ 53 ->
  exists (m : positive) (e : Z),
    binary_normalize prec emax (Z.pos p) 0 false = S754_finite false m e.
Proof.
  intros H. pose proof (digits2_pos_53 p H) as D.
  assert (P : 0 < Z.pos (digits2_pos p)) by lia.
  unfold binary_normalize, binary_round, shl_align.
  assert (F : fexp prec emax (Z.pos (digits2_pos p) + 0)
              = Z.pos (digits2_pos p) - 53).
  { unfold fexp, emin, prec, emax. lia. }
  rewrite F, Z.sub_0_r.
  destruct (Z.pos (digits2_pos p) - 53) as [| q | q] eqn:E; try lia.
  - exists p, 0. apply binary_round_aux_canonical.
    + unfold fexp, emin, prec, emax. lia.
    + unfold prec, emax. lia.
  - exists (Pos.iter xO p q), (Z.neg q). apply binary_round_aux_canonical.
    + rewrite digits2_pos_shift. unfold fexp, emin, prec, emax. lia.
    + unfold prec, emax. lia.
Qed.

Lemma float_of_int_spec (z : Z) :
  0 <= z < 2 ^ 53 ->
  Prim2SF (Binary64.float_of_int z) = binary_normalize prec emax z 0 false.
Proof.
  intros H. unfold Binary64.float_of_int.
  destruct (Z.ltb_spec z 0); [lia |].
  rewrite of_uint63_spec, Uint63.of_Z_spec, Z.mod_small; [reflexivity |].
  change wB with (2 ^ 63). 
  assert (2 ^ 53 < 2 ^ 63) by (apply Z.pow_lt_mono_r; lia). lia.
Qed.

Lemma float_of_int_pos (z : Z) :
  1 <= z < 2 ^ 53 ->
  exists (m : positive) (e : Z),
    Prim2SF (Binary64.float_of_int z) = S754_finite false m e.
Proof.
  intros H. rewrite float_of_int_spec by lia.
  destruct z as [| p | p]; try lia.
  apply binary_normalize_pos. lia.
Qed.

Lemma float_of_int_0 : Prim2SF (Binary64.float_of_int 0) = S754_zero false.
Proof. reflexivity. Qed.

(** What [math.isfinite] and [x == x] tell about a float. *)
Lemma is_finite_spec (x : float) :
  PrimFloat.is_finite x = true ->
  (exists s, Prim2SF x = S754_zero s)
  \/ (exists s m e, Prim2SF x = S754_finite s m e).
Proof.
  unfold PrimFloat.is_finite, PrimFloat.is_nan, PrimFloat.is_infinity.
  rewrite !FloatAxioms.eqb_spec, abs_spec.
  destruct (Prim2SF x) as [s | s | | s m e]; eauto.
  - destruct s; discriminate.
  - discriminate.
Qed.

Lemma is_nan_spec (x : float) :
  PrimFloat.is_nan x = false -> Prim2SF x <> S754_nan.
Proof.
  unfold PrimFloat.is_nan. rewrite FloatAxioms.eqb_spec. intros H E. rewrite E in H.
  discriminate.
Qed.

Lemma SFeqb_finite_refl (s : bool) (m : positive) (e : Z) :
  SFeqb (S754_finite s m e) (S754_finite s m e) = true.
Proof.
  unfold SFeqb, SFcompare.
  destruct s; rewrite Z.compare_refl, Pos.compare_cont_refl; reflexivity.
Qed.

(** [x == x] for every float that is not NaN. *)
Lemma SFeqb_refl (x : spec_float) : x <> S754_nan -> SFeqb x x = true.
Proof.
  destruct x as [s | s | | s m e]; intros H; try congruence.
  - reflexivity.
  - destruct s; reflexivity.
  - apply SFeqb_finite_refl.
Qed.

(** Two floats that compare equal, one of them finite and not zero, are
    the same float. *)
Lemma SFeqb_finite (x : spec_float) (s : bool) (m : positive) (e : Z) :
  SFeqb x (S754_finite s m e) = true -> x = S754_finite s m e.
Proof.
  intros H.
  destruct x as [sx | sx | | sx mx ex]; unfold SFeqb, SFcompare in H.
  - destruct s; discriminate.
  - destruct sx; discriminate.
  - discriminate.
  - change (Pos.compare_cont Eq mx m) with (Pos.compare mx m) in H.
    destruct sx, s; try discriminate;
      destruct (ex ?= e) eqn:C; try discriminate;
      destruct (mx ?= m)%positive eqn:D; try discriminate;
      apply Z.compare_eq in C; apply Pos.compare_eq in D; subst; reflexivity.
Qed.

Lemma SFeqb_zero (x : spec_float) (s : bool) :
  SFeqb x (S754_zero s) = true -> exists sx, x = S754_zero sx.
Proof.
  intros H.
  destruct x as [sx | sx | | sx mx ex]; unfold SFeqb, SFcompare in H.
  - eauto.
  - destruct sx; discriminate.
  - discriminate.
  - destruct sx; discriminate.
Qed.

(** [x - x] is zero for a finite [x]. *)
Lemma SFsub_diag (x y : spec_float) :
  SFeqb x y = true ->
  (exists s, y = S754_zero s) \/ (exists s m e, y = S754_finite s m e) ->
  exists s, SF64sub x y = S754_zero s.
Proof.
  intros H [(s & ->) | (s & m & e & ->)].
  - apply SFeqb_zero in H as (sx & ->). destruct sx, s; cbn; eauto.
  - apply SFeqb_finite in H as ->. unfold SF64sub, SFsub.
    rewrite Z.sub_diag. cbn. eauto.
Qed.

(** Zero divided by a positive finite float, and a finite float times
    zero, are zero. *)
Lemma SFdiv_zero (s sy : bool) (m : positive) (e : Z) :
  SF64div (S754_zero s) (S754_finite sy m e) = S754_zero (xorb s sy).
Proof. reflexivity. Qed.

Lemma SFmul_zero (x : spec_float) (s : bool) :
  (exists sx, x = S754_zero sx) \/ (exists sx m e, x = S754_finite sx m e) ->
  exists sz, SF64mul x (S754_zero s) = S754_zero sz.
Proof. intros [(sx & ->) | (sx & m & e & ->)]; cbn; eauto. Qed.

Lemma SFmul_zero_l (s : bool) (y : spec_float) :
  (exists sy, y = S754_zero sy) \/ (exists sy m e, y = S754_finite sy m e) ->
  exists sz, SF64mul (S754_zero s) y = S754_zero sz.
Proof. intros [(sx & ->) | (sx & m & e & ->)]; cbn; eauto. Qed.

(** Adding a zero leaves a float that is not NaN equal to itself. *)
Lemma SFadd_zero (x : spec_float) (s : bool) :
  x <> S754_nan -> SFeqb (SF64add x (S754_zero s)) x = true.
Proof.
  destruct x as [sx | sx | | sx mx ex]; intros H; try congruence.
  - destruct sx, s; reflexivity.
  - destruct sx; reflexivity.
  - cbn. apply SFeqb_finite_refl.
Qed.

Lemma float_of_int_number (z : Z) :
  0 <= z < 2 ^ 53 ->
  (exists s, Prim2SF (Binary64.float_of_int z) = S754_zero s)
  \/ (exists s m e, Prim2SF (Binary64.float_of_int z) = S754_finite s m e).
Proof.
  intros H. destruct (Z.eq_dec z 0) as [-> | N].
  - left. exists false. reflexivity.
  - right. destruct (float_of_int_pos z ltac:(lia)) as (m & e & E). eauto.
Qed.

(** A quotient by a positive float has the sign of the dividend. *)
Lemma SFdiv_sign (e0 : Z) (x : spec_float) (m : positive) (e : Z) :
  e0 <= -1074 -> valid_binary x = true -> number x ->
  let q := SF64div x (S754_finite false m e) in
  (0 <= sval e0 x -> 0 <= sval e0 q) /\ (sval e0 x <= 0 -> sval e0 q <= 0).
Proof.
  intros He0 Vx Nx q. subst q.
  destruct x as [sx | sx | | sx mx ex]; try contradiction.
  - cbn. lia.
  - destruct (valid_finite_units e0 sx mx ex He0 Vx) as (P & _).
    unfold SF64div. cbn [SFdiv].
    destruct (SFdiv_core_binary prec emax (Z.pos mx) ex (Z.pos m) e)
      as [[mz ez] lz].
    pose proof (binary_round_aux_sign (xorb sx false) mz ez lz) as S.
    pose proof (top_pos e0 He0) as T.
    destruct (binary_round_aux prec emax (xorb sx false) mz ez lz)
      as [s | s | | s mq eq]; cbn [sval]; try lia; subst s;
      destruct sx; cbn [xorb sval]; lia.
Qed.

(** [math.isfinite(x)]: [x] is zero or finite. *)
Lemma is_finite_number (x : float) :
  PrimFloat.is_finite x = true -> number (Prim2SF x).
Proof.
  intros H. destruct (is_finite_spec x H) as [(s & ->) | (s & m & e & ->)];
    exact I.
Qed.

Lemma number_not_nan (x : spec_float) : number x -> x <> S754_nan.
Proof. destruct x; intros H; try contradiction; discriminate. Qed.

(** The integer of a converted index grows with the index. *)
Lemma float_of_int_mono (e0 a b : Z) :
  e0 <= -1074 -> 0 <= a -> a <= b -> b < 2 ^ 53 ->
  sval e0 (Prim2SF (Binary64.float_of_int a))
  <= sval e0 (Prim2SF (Binary64.float_of_int b)).
Proof.
  intros He0 Ha L Hb. rewrite !float_of_int_spec by lia.
  destruct (binary_normalize_spec e0 a 0 He0 ltac:(lia)) as (_ & ->).
  destruct (binary_normalize_spec e0 b 0 He0 ltac:(lia)) as (_ & ->).
  apply sround_mono; [exact He0 |].
  assert (0 < 2 ^ (0 - e0)) by (apply pow2_pos; lia). nia.
Qed.

(** Multiplying by a fixed number keeps the order when that number is
    not negative and reverses it when it is not positive. *)
Lemma SFmul_mono (e0 : Z) (x1 x2 y : spec_float) :
  e0 <= -2148 ->
  valid_binary x1 = true -> valid_binary x2 = true -> valid_binary y = true ->
  number x1 -> number x2 -> number y ->
  sval e0 x1 <= sval e0 x2 ->
  (0 <= sval e0 y -> sval e0 (SF64mul x1 y) <= sval e0 (SF64mul x2 y))
  /\ (sval e0 y <= 0 -> sval e0 (SF64mul x2 y) <= sval e0 (SF64mul x1 y)).
Proof.
  intros He0 V1 V2 Vy N1 N2 Ny L.
  destruct (SFmul_sval e0 x1 y He0 V1 Vy N1 Ny) as (_ & ->).
  destruct (SFmul_sval e0 x2 y He0 V2 Vy N2 Ny) as (_ & ->).
  assert (P : 0 < 2 ^ (- e0)) by (apply pow2_pos; lia).
  split; intros S; apply sround_mono; try lia; apply Z.div_le_mono; nia.
Qed.

(** Adding to a fixed number keeps the order, infinities included. *)
Lemma SFadd_mono (e0 : Z) (u y1 y2 : spec_float) :
  e0 <= -1074 ->
  valid_binary u = true -> valid_binary y1 = true -> valid_binary y2 = true ->
  number u -> y1 <> S754_nan -> y2 <> S754_nan ->
  sval e0 y1 <= sval e0 y2 ->
  SF64add u y1 <> S754_nan /\ SF64add u y2 <> S754_nan
  /\ sval e0 (SF64add u y1) <= sval e0 (SF64add u y2).
Proof.
  intros He0 Vu V1 V2 Nu N1 N2 L. pose proof (top_pos e0 He0) as T.
  assert (Inf : forall s, SF64add u (S754_infinity s) = S754_infinity s).
  { intros s. destruct u; try contradiction; reflexivity. }
  assert (Below : forall y, valid_binary y = true -> number y ->
                            - top e0 < sval e0 y < top e0).
  { intros [s | s | | s m e] V N; try contradiction; cbn [sval]; [lia |].
    destruct (valid_finite_units e0 s m e He0 V) as (B & _).
    destruct s; lia. }
  assert (Num : forall y, valid_binary y = true -> number y ->
                          SF64add u y <> S754_nan
                          /\ - top e0 <= sval e0 (SF64add u y) <= top e0).
  { intros y V N. destruct (SFadd_sval e0 u y He0 Vu V Nu N) as (NN & ->).
    split; [exact NN | apply sround_bounds, He0]. }
  destruct y1 as [s1 | s1 | | s1 m1 e1]; try congruence;
    destruct y2 as [s2 | s2 | | s2 m2 e2]; try congruence;
    rewrite ?Inf;
    try (destruct (SFadd_sval e0 u _ He0 Vu V1 Nu I) as (NN1 & E1));
    try (destruct (SFadd_sval e0 u _ He0 Vu V2 Nu I) as (NN2 & E2));
    try (pose proof (Below _ V1 I) as B1);
    try (pose proof (Below _ V2 I) as B2);
    try (pose proof (Num _ V1 I) as (_ & R1));
    try (pose proof (Num _ V2 I) as (_ & R2));
    (split; [first [assumption | discriminate] |]);
    (split; [first [assumption | discriminate] |]);
    try (rewrite E1, E2; apply sround_mono; [exact He0 | lia]);
    cbn [sval] in *; try (destruct s1); try (destruct s2); lia.
Qed.

Lemma Prim2SF_zero : Prim2SF 0 = S754_zero false.
Proof. reflexivity. Qed.

(** [0 <= x] and [x <= 0] on a float, read on its integer. *)
Lemma leb_0_sval (e0 : Z) (x : float) :
  e0 <= -1074 -> Prim2SF x <> S754_nan ->
  ((0 <=? x)%float = true <-> 0 <= sval e0 (Prim2SF x))
  /\ ((x <=? 0)%float = true <-> sval e0 (Prim2SF x) <= 0).
Proof.
  intros He0 N. rewrite !FloatAxioms.leb_spec, Prim2SF_zero.
  split.
  - rewrite (SFleb_sval e0) by (auto using Prim2SF_valid; discriminate).
    reflexivity.
  - rewrite (SFleb_sval e0) by (auto using Prim2SF_valid; discriminate).
    reflexivity.
Qed.

(** **** Padding taken off a center and put back *)








(** *** The center schedule *)

Lemma center_array_length (U sl : float) (N : Z) :
  length (Binary64.center_array U sl N) = Z.to_nat N.
Proof.
  unfold Binary64.center_array, np_arange. rewrite !length_map. apply length_seq.
Qed.

Lemma center_array_lookup (U sl : float) (N : Z) (i : nat) :
  (i < Z.to_nat N)%nat ->
  Binary64.center_array U sl N !! i
  = Some (U + Binary64.float_of_int (Z.of_nat i) * sl)%float.
Proof.
  intros H. unfold Binary64.center_array, np_arange.
  change (map ?f ?l) with (f <$> l).
  rewrite !list_lookup_fmap, lookup_seq_lt by exact H. reflexivity.
Qed.

(** The schedule follows the sign of the slope. *)
Lemma center_array_monotone (U slope : float) (N : Z) (i j : nat)
    (ci cj : float) :
  N < 2 ^ 53 ->
  PrimFloat.is_finite U = true -> PrimFloat.is_finite slope = true ->
  (i <= j)%nat ->
  Binary64.center_array U slope N !! i = Some ci ->
  Binary64.center_array U slope N !! j = Some cj ->
  ((0 <=? slope)%float = true -> (ci <=? cj)%float = true)
  /\ ((slope <=? 0)%float = true -> (cj <=? ci)%float = true).
Proof.
  intros HN FU FS Hij Hi Hj.
  assert (Bi : (i < Z.to_nat N)%nat).
  { apply lookup_lt_Some in Hi. rewrite center_array_length in Hi. exact Hi. }
  assert (Bj : (j < Z.to_nat N)%nat).
  { apply lookup_lt_Some in Hj. rewrite center_array_length in Hj. exact Hj. }
  rewrite center_array_lookup in Hi by exact Bi.
  rewrite center_array_lookup in Hj by exact Bj.
  injection Hi as <-. injection Hj as <-.
  set (e0 := -2148).
  assert (He0 : e0 <= -2148) by (subst e0; lia).
  pose proof (is_finite_number U FU) as NU.
  pose proof (is_finite_number slope FS) as NS.
  set (xi := Binary64.float_of_int (Z.of_nat i)).
  set (xj := Binary64.float_of_int (Z.of_nat j)).
  assert (Ni : number (Prim2SF xi)).
  { destruct (float_of_int_number (Z.of_nat i) ltac:(lia))
      as [(s & E) | (s & m & e & E)]; subst xi; rewrite E; exact I. }
  assert (Nj : number (Prim2SF xj)).
  { destruct (float_of_int_number (Z.of_nat j) ltac:(lia))
      as [(s & E) | (s & m & e & E)]; subst xj; rewrite E; exact I. }
  pose proof (float_of_int_mono e0 (Z.of_nat i) (Z.of_nat j)
                ltac:(lia) ltac:(lia) ltac:(lia) ltac:(lia)) as X.
  fold xi xj in X.
  destruct (SFmul_mono e0 (Prim2SF xi) (Prim2SF xj) (Prim2SF slope) He0
              (Prim2SF_valid _) (Prim2SF_valid _) (Prim2SF_valid _)
              Ni Nj NS X) as (Up & Down).
  destruct (SFmul_sval e0 (Prim2SF xi) (Prim2SF slope) He0
              (Prim2SF_valid _) (Prim2SF_valid _) Ni NS) as (Pi & _).
  destruct (SFmul_sval e0 (Prim2SF xj) (Prim2SF slope) He0
              (Prim2SF_valid _) (Prim2SF_valid _) Nj NS) as (Pj & _).
  assert (Ei : SF64mul (Prim2SF xi) (Prim2SF slope) = Prim2SF (xi * slope))
    by (symmetry; apply FloatAxioms.mul_spec).
  assert (Ej : SF64mul (Prim2SF xj) (Prim2SF slope) = Prim2SF (xj * slope))
    by (symmetry; apply FloatAxioms.mul_spec).
  rewrite Ei, Ej in Up, Down. rewrite Ei in Pi. rewrite Ej in Pj.
  destruct (leb_0_sval e0 slope ltac:(lia) (number_not_nan _ NS)) as (S0 & S1).
  split; intros S.
  - apply S0 in S. specialize (Up S).
    destruct (SFadd_mono e0 (Prim2SF U) _ _ ltac:(lia) (Prim2SF_valid _)
                (Prim2SF_valid _) (Prim2SF_valid _) NU Pi Pj Up)
      as (A1 & A2 & A).
    rewrite <- (FloatAxioms.add_spec U (xi * slope)) in A1, A.
    rewrite <- (FloatAxioms.add_spec U (xj * slope)) in A2, A.
    rewrite FloatAxioms.leb_spec.
    apply (SFleb_sval e0); auto using Prim2SF_valid. lia.
  - apply S1 in S. specialize (Down S).
    destruct (SFadd_mono e0 (Prim2SF U) _ _ ltac:(lia) (Prim2SF_valid _)
                (Prim2SF_valid _) (Prim2SF_valid _) NU Pj Pi Down)
      as (A1 & A2 & A).
    rewrite <- (FloatAxioms.add_spec U (xj * slope)) in A1, A.
    rewrite <- (FloatAxioms.add_spec U (xi * slope)) in A2, A.
    rewrite FloatAxioms.leb_spec.
    apply (SFleb_sval e0); auto using Prim2SF_valid. lia.
Qed.

(** The slope has the sign of [L - U]. *)
Lemma center_slope_sign (U L : float) (N : Z) :
  1 <= N < 2 ^ 53 ->
  PrimFloat.is_finite U = true ->
  let slope := ((L - U) / Binary64.float_of_int N)%float in
  PrimFloat.is_finite slope = true ->
  ((U <=? L)%float = true -> (0 <=? slope)%float = true)
  /\ ((L <=? U)%float = true -> (slope <=? 0)%float = true).
Proof.
  intros HN FU slope FS.
  set (e0 := -1074). assert (He0 : e0 <= -1074) by (subst e0; lia).
  pose proof (is_finite_number U FU) as NU.
  pose proof (is_finite_number slope FS) as NS.
  destruct (float_of_int_pos N HN) as (m & e & EN).
  assert (ES : Prim2SF slope
               = SF64div (SF64sub (Prim2SF L) (Prim2SF U)) (S754_finite false m e)).
  { subst slope. rewrite FloatAxioms.div_spec, FloatAxioms.sub_spec, EN.
    reflexivity. }
  assert (ND : number (SF64sub (Prim2SF L) (Prim2SF U))).
  { rewrite ES in NS.
    destruct (SF64sub (Prim2SF L) (Prim2SF U)); try exact I;
      cbn in NS; contradiction. }
  assert (NL : number (Prim2SF L)).
  { destruct (Prim2SF L) as [s | s | | s p q]; try exact I;
      destruct (Prim2SF U) as [s' | s' | | s' p' q']; try contradiction;
      cbn in ND; try contradiction; destruct s, s'; contradiction. }
  destruct (SFsub_sval e0 (Prim2SF L) (Prim2SF U) He0 (Prim2SF_valid _)
              (Prim2SF_valid _) NL NU) as (_ & D).
  assert (VD : valid_binary (SF64sub (Prim2SF L) (Prim2SF U)) = true).
  { rewrite <- FloatAxioms.sub_spec. apply Prim2SF_valid. }
  destruct (SFdiv_sign e0 _ m e He0 VD ND) as (Q0 & Q1).
  rewrite <- ES in Q0, Q1.
  destruct (leb_0_sval e0 slope He0 (number_not_nan _ NS)) as (S0 & S1).
  assert (Z0 : sround e0 0 = 0) by (unfold sround; cbn; apply round_units_0; lia).
  split; intros H; rewrite FloatAxioms.leb_spec in H;
    apply (SFleb_sval e0) in H; auto using Prim2SF_valid, number_not_nan.
  - apply S0, Q0. rewrite D, <- Z0. apply sround_mono; lia.
  - apply S1, Q1. rewrite D, <- Z0. apply sround_mono; lia.
Qed.

(** C5, as the code has it. For binary64 centers [U] and [L] and
    [1 <= N < 2^53] angles, the schedule has [N] entries and entry [i] is
    the float [U + float(i) * slope] with [slope = (L - U) / float(N)],
    every operation rounded to nearest. When the slope is finite and [U]
    is not NaN, entry 0 equals [U]. When [U] and [L] are equal and finite,
    every entry equals [U]. When [U] and the slope are finite, the
    schedule is monotonic: it does not decrease when [U <= L] and does not
    increase when [L <= U]. *)
Theorem center_schedule_binary64 (U L : float) (N : Z) :
  1 <= N < 2 ^ 53 ->
  let slope := ((L - U) / Binary64.float_of_int N)%float in
  let cs := Binary64.center_array U slope N in
  Binary64.center_slope U L N = Some slope
  /\ Z.of_nat (length cs) = N
  /\ (forall i : nat, (Z.of_nat i < N) ->
        cs !! i = Some (U + Binary64.float_of_int (Z.of_nat i) * slope)%float)
  /\ (PrimFloat.is_finite slope = true -> PrimFloat.is_nan U = false ->
        exists c0, cs !! 0%nat = Some c0 /\ (c0 =? U)%float = true)
  /\ ((L =? U)%float = true -> PrimFloat.is_finite U = true ->
        forall (i : nat) (c : float), cs !! i = Some c -> (c =? U)%float = true)
  /\ (PrimFloat.is_finite U = true -> PrimFloat.is_finite slope = true ->
        forall (i j : nat) (ci cj : float),
          (i <= j)%nat -> cs !! i = Some ci -> cs !! j = Some cj ->
          ((U <=? L)%float = true -> (ci <=? cj)%float = true)
          /\ ((L <=? U)%float = true -> (cj <=? ci)%float = true)).
Proof.
  intros HN slope cs.
  assert (Look : forall i : nat, Z.of_nat i < N ->
            cs !! i = Some (U + Binary64.float_of_int (Z.of_nat i) * slope)%float).
  { intros i Hi. apply center_array_lookup. lia. }
  split; [| split; [| split; [| split; [| split]]]].
  - unfold Binary64.center_slope. destruct (Z.eqb_spec N 0); [lia | reflexivity].
  - subst cs. rewrite center_array_length. lia.
  - exact Look.
  - intros Fs NU. eexists. split; [apply Look; lia |].
    rewrite FloatAxioms.eqb_spec, FloatAxioms.add_spec, FloatAxioms.mul_spec.
    destruct (SFmul_zero_l false (Prim2SF slope) (is_finite_spec _ Fs))
      as (sz & E).
    change (Prim2SF (Binary64.float_of_int (Z.of_nat 0))) with (S754_zero false).
    rewrite E. apply SFadd_zero, is_nan_spec, NU.
  - intros E FU i c Hc.
    assert (Hi : Z.of_nat i < N).
    { apply lookup_lt_Some in Hc. subst cs.
      rewrite center_array_length in Hc. lia. }
    rewrite Look in Hc by exact Hi. injection Hc as <-.
    rewrite FloatAxioms.eqb_spec in E.
    destruct (SFsub_diag _ _ E (is_finite_spec _ FU)) as (s0 & D).
    destruct (float_of_int_pos N HN) as (m & e & FN).
    assert (S : Prim2SF slope = S754_zero (xorb s0 false)).
    { subst slope. rewrite FloatAxioms.div_spec, FloatAxioms.sub_spec, D, FN.
      reflexivity. }
    destruct (SFmul_zero (Prim2SF (Binary64.float_of_int (Z.of_nat i))) (xorb s0 false)
                (float_of_int_number (Z.of_nat i) ltac:(lia))) as (sz & M).
    rewrite FloatAxioms.eqb_spec, FloatAxioms.add_spec, FloatAxioms.mul_spec,
      S, M.
    apply SFadd_zero.
    destruct (is_finite_spec _ FU) as [(s & ->) | (s & m' & e' & ->)];
      discriminate.
  - intros FU FS i j ci cj Hij Hi Hj.
    destruct (center_array_monotone U slope N i j ci cj ltac:(lia) FU FS
                Hij Hi Hj) as (Up & Down).
    destruct (center_slope_sign U L N HN FU FS) as (S0 & S1).
    split; intros H; auto.
Qed.

Lemma center_schedule_binary64_witness :
  let U := 2%float in
  let L := 5%float in
  let slope := ((L - U) / Binary64.float_of_int 6)%float in
  Binary64.center_slope U L 6 = Some slope
  /\ Binary64.center_array U slope 6 = [2; 2.5; 3; 3.5; 4; 4.5]%float
  /\ (exists c0, Binary64.center_array U slope 6 !! 0%nat = Some c0
                 /\ (c0 =? U)%float = true)
  /\ (forall (i : nat) (c : float),
        Binary64.center_array U ((U - U) / Binary64.float_of_int 6) 6 !! i = Some c ->
        (c =? U)%float = true)
  /\ (forall (i j : nat) (ci cj : float),
        (i <= j)%nat ->
        Binary64.center_array U slope 6 !! i = Some ci ->
        Binary64.center_array U slope 6 !! j = Some cj ->
        (ci <=? cj)%float = true).
Proof.
  intros U L slope.
  destruct (center_schedule_binary64 U L 6 ltac:(lia))
    as (S & _ & _ & Z & _ & M).
  destruct (center_schedule_binary64 U U 6 ltac:(lia)) as (_ & _ & _ & _ & C & _).
  split; [exact S |]. split; [vm_compute; reflexivity |].
  split; [apply Z; vm_compute; reflexivity |].
  split; [apply C; vm_compute; reflexivity |].
  intros i j ci cj Hij Hi Hj.
  destruct (M ltac:(vm_compute; reflexivity) ltac:(vm_compute; reflexivity)
              i j ci cj Hij Hi Hj) as (Up & _).
  apply Up. vm_compute. reflexivity.
Defined.

(** C5, counterexample. With centers 0 and 1 and three angles the last
    entry of the schedule is 6004799503160661 / 2^53, printed
    0.66666666666666663: it is neither the rational 2/3 that
    [L - (L - U) / N] is in exact arithmetic nor the float
    6004799503160662 / 2^53, printed 0.66666666666666674, that the same
    expression gives in binary64. With centers 1024.5 and the next float
    above it and 1800 angles, the first two entries are both 1024.5: the
    centers differ and the schedule does not increase from one entry to
    the next. *)
Lemma center_schedule_is_rounded :
  (let U := 0%float in
   let L := 1%float in
   let slope := ((L - U) / Binary64.float_of_int 3)%float in
   Binary64.center_slope U L 3 = Some slope
   /\ exists last : float,
        Binary64.center_array U slope 3 !! 2%nat = Some last
        /\ Prim2SF last = S754_finite false 6004799503160661 (-53)
        /\ Prim2SF (L - slope) = S754_finite false 6004799503160662 (-53)
        /\ (last =? L - slope)%float = false
        /\ exists q : Q, Binary64.value last = Some q /\ ~ (q == 2 # 3)%Q)
  /\ (let U := 1024.5%float in
      let L := next_up U in
      let slope := ((L - U) / Binary64.float_of_int 1800)%float in
      (U <? L)%float = true
      /\ Binary64.center_array U slope 1800 !! 0%nat = Some U
      /\ Binary64.center_array U slope 1800 !! 1%nat = Some U).
Proof.
  split.
  - cbv zeta. split; [reflexivity |].
    eexists. split; [vm_compute; reflexivity |].
    split; [vm_compute; reflexivity |].
    split; [vm_compute; reflexivity |].
    split; [vm_compute; reflexivity |].
    eexists. split; [vm_compute; reflexivity |].
    intros E. vm_compute in E. discriminate.
  - cbv zeta. split; [vm_compute; reflexivity |].
    split; vm_compute; reflexivity.
Qed.

(** The operator types the two centers after the example import. *)
Definition centers_request (u l : Q) : APS_13BM :=
  set_upper_rot_center_blank (FloatText u)
    (set_lower_rot_center_blank (FloatText l) (client_read_nc example_import)).

(** *** Geometry after reconstruction *)



(** *** Center resolution *)

(** A handler that ended normally ended in its final state. *)
Lemma done_final {A : Type} (o : Outcome A) (a : A) (s : APS_13BM) :
  o = Done a s -> s = final o.
Proof. intros ->. reflexivity. Qed.

(** Runs [find_rot_center] along the path the hypotheses select. *)
Ltac run_centering :=
  unfold find_rot_center; unfold_handler; run.

(** Closes a path that does not end with the centers found. *)
Ltac dead_path S := exfalso; revert S; run_centering; discriminate.


(** The 0-180 method refuses a slice number above [shape[2]] and leaves
    the resolved centers alone. *)
Lemma find_rot_center_guard `{K : Kernels} (s : APS_13BM) (tol u l : Q) (a b : Z) :
  py_float (tol_blank s) = Some tol ->
  py_int (upper_rot_slice_blank s) = Some a ->
  py_int (lower_rot_slice_blank s) = Some b ->
  py_float (upper_rot_center_blank s) = Some u ->
  py_float (lower_rot_center_blank s) = Some l ->
  logfile_closed s = false ->
  find_center_type s = Pc0_180 ->
  shape2 (data s) < a \/ shape2 (data s) < b ->
  let s' := final (find_rot_center s) in
  completed (find_rot_center s) = true
  /\ (status_ID s' = "Upper slice out of range."
      \/ status_ID s' = "Lower slice out of range.")
  /\ upper_rot_center s' = upper_rot_center s
  /\ lower_rot_center s' = lower_rot_center s
  /\ rot_center s' = rot_center s
  /\ calls s' = calls s.
Proof.
  intros Htol Ha Hb Hu Hl Hlog Hm Hr s'. subst s'.
  destruct (shape2 (data s) <? a) eqn:G1.
  - run_centering. auto 10.
  - assert (G2 : (shape2 (data s) <? b) = true) by lia.
    run_centering. auto 10.
Qed.

(** The volume a slice preview stores: the kernel's result for the rows
    [z:z+1] of every projection and the padded center. *)
Definition preview `{K : Kernels} (s : APS_13BM) (c : Q) (z : Z) : Volume :=
  tp_recon (map (fun p => py_slice p z (z + 1)) (data s)) (theta s)
    (ScalarCenter (padded_center c (npad s))) (recon_type s) None None.

Arguments preview : simpl never.

(** What a slice preview does once its two controls parse. *)
Lemma up_recon_slice_run `{K : Kernels} (s : APS_13BM) (c : Q) (z : Z) :
  py_float (upper_rot_center_blank s) = Some c ->
  py_int (upper_rot_slice_blank s) = Some z ->
  let o := up_recon_slice s in
  let recon := Call_recon (ScalarCenter (padded_center c (npad s)))
                 (recon_type s) None None in
  data_slice (final o) = Some (preview s c z)
  /\ status_ID (final o) = "Slice Reconstructed."
  /\ (data (final o) = data s /\ npad (final o) = npad s
      /\ upper_rot_center (final o) = upper_rot_center s
      /\ lower_rot_center (final o) = lower_rot_center s
      /\ logfile (final o) = logfile s)
  /\ match py_index (preview s c z) 0 with
     | Some image =>
         completed o = true
         /\ calls (final o) = calls s ++ [recon; Call_display (reverse image)]
     | None =>
         o = Raised IndexError (final o)
         /\ calls (final o) = calls s ++ [recon]
     end.
Proof.
  intros Hc Hz o recon. subst o recon.
  unfold up_recon_slice, recon_slice, plot_slice_data, preview.
  unfold_handler. run.
  destruct (py_index _ 0); cbn; rewrite <- ?app_assoc; auto 10.
Qed.



(** The normalized example after a center resolution with the default
    method. *)
Definition centered_example : APS_13BM :=
  final (find_rot_center (K := example_kernels) normalized_example).



(** The operator picks a centering method and types two slice numbers
    after the example import of 6 projections, 2 rows and 6 columns. *)
Definition centering_request (m : CenterMethod) (upper lower : Z) : APS_13BM :=
  set_find_center_type m
    (set_upper_rot_slice_blank (IntText upper)
       (set_lower_rot_slice_blank (IntText lower)
          (client_read_nc example_import))).

(** C3. A slice number at or beyond the row extent is not refused.
    With 2 rows: the 0-180 method given upper slice 2 finds centers and
    stores them; the Nghia Vo method given upper slice 7 does the same,
    as it checks nothing; the 0-180 method given lower slice 6 stores the
    upper center and then raises [IndexError], the lower center still
    unset. Only a slice number above the column count 6 is refused. *)
Theorem slice_numbers_beyond_rows_are_accepted :
  shape1 (data (client_read_nc example_import)) = 2
  /\ upper_rot_center (client_read_nc example_import) = None
  /\ (let o := find_rot_center (K := example_kernels)
                 (centering_request Pc0_180 2 1) in
      completed o = true
      /\ status_ID (final o) = "Rotation Center found."
      /\ upper_rot_center (final o) = Some (6 # 2)
      /\ lower_rot_center (final o) = Some (6 # 2))
  /\ (let o := find_rot_center (K := example_kernels)
                 (centering_request NghiaVo 7 1) in
      completed o = true
      /\ status_ID (final o) = "Rotation Center found."
      /\ upper_rot_center (final o) = Some (0 # 2)
      /\ calls (final o) = [Call_find_center_vo; Call_find_center_vo])
  /\ (let o := find_rot_center (K := example_kernels)
                 (centering_request Pc0_180 1 6) in
      o = Raised IndexError (final o)
      /\ upper_rot_center (final o) = Some (6 # 2)
      /\ lower_rot_center (final o) = None)
  /\ (let o := find_rot_center (K := example_kernels)
                 (centering_request Pc0_180 7 1) in
      completed o = true
      /\ status_ID (final o) = "Upper slice out of range."
      /\ upper_rot_center (final o) = None).
Proof. conjuncts; evaluate. Qed.

(** *** Tilt correction *)

(** The state without its volume, status label and call log. *)
Definition erase_volume (s : APS_13BM) : APS_13BM :=
  set_calls [] (set_status_ID "" (set_data [] s)).

Lemma broadcast_axis_length {A : Type} (n : nat) (l l' : list A) :
  broadcast_axis n l = Some l' -> length l' = n.
Proof.
  unfold broadcast_axis. destruct (decide (length l = n)) as [E | _].
  - intros [= <-]. exact E.
  - destruct l as [| x [| y l]]; try discriminate.
    intros [= <-]. apply length_replicate.
Qed.

Lemma broadcast_axis_Forall {A : Type} (P : A -> Prop) (n : nat) (l l' : list A) :
  broadcast_axis n l = Some l' -> Forall P l -> Forall P l'.
Proof.
  unfold broadcast_axis. destruct (decide (length l = n)) as [E | _].
  - intros [= <-]. auto.
  - destruct l as [| x [| y l]]; try discriminate.
    intros [= <-] H. apply Forall_replicate. inversion H; assumption.
Qed.

(** A broadcast array has the shape it was broadcast to. *)
Lemma broadcast2_shape (rows cols : nat) (r r' : Projection) :
  broadcast2 rows cols r = Some r' ->
  length r' = rows /\ Forall (fun row => length row = cols) r'.
Proof.
  unfold broadcast2.
  destruct (mapM (broadcast_axis cols) r) as [m |] eqn:E; [| discriminate].
  intros B. split; [exact (broadcast_axis_length _ _ _ B) |].
  apply (broadcast_axis_Forall _ _ _ _ B). clear B.
  apply mapM_Some in E.
  induction E as [| x y l k H _ IH]; constructor; [| exact IH].
  exact (broadcast_axis_length _ _ _ H).
Qed.

(** Storing a projection of the volume's shape keeps the shape. *)
Lemma insert_keeps_shape (d : Volume) (i : nat) (r : Projection) :
  length r = Z.to_nat (shape1 d) ->
  Forall (fun row => length row = Z.to_nat (shape2 d)) r ->
  shape1 (<[i := r]> d) = shape1 d /\ shape2 (<[i := r]> d) = shape2 d.
Proof.
  unfold shape1, shape2. rewrite !Nat2Z.id.
  destruct d as [| p d]; [auto |].
  destruct i as [| i]; [| auto]. cbn.
  intros L F. split; [congruence |].
  destruct r as [| row r]; cbn in *.
  - destruct p; [reflexivity | discriminate].
  - inversion F; subst. congruence.
Qed.

(** One turn of the loop touches the projection [i] at most, and keeps
    the shape. *)
Lemma tilt_step_frame `{K : Kernels} (angle : Q) (i : nat) (s : APS_13BM) :
  let s' := final (tilt_step angle i s) in
  erase_volume s' = erase_volume s
  /\ length (data s') = length (data s)
  /\ (forall j : nat, j <> i -> data s' !! j = data s !! j)
  /\ shape1 (data s') = shape1 (data s)
  /\ shape2 (data s') = shape2 (data s).
Proof.
  unfold tilt_step. unfold_handler. cbn.
  destruct (data s !! i) as [p |] eqn:I; cbn; [| auto 10].
  destruct (broadcast2 _ _ (ndimage_rotate p angle)) as [r |] eqn:B; cbn;
    [| auto 10].
  destruct (broadcast2_shape _ _ _ _ B) as [L F].
  destruct (insert_keeps_shape (data s) i r L F) as [S1 S2].
  split; [reflexivity |]. split; [apply length_insert |].
  split; [| auto]. intros j Hj. apply list_lookup_insert_ne. auto.
Qed.

Lemma tilt_loop_frame `{K : Kernels} (angle : Q) (idx : list nat) (s : APS_13BM) :
  let s' := final (for_each idx (tilt_step angle) s) in
  erase_volume s' = erase_volume s
  /\ length (data s') = length (data s)
  /\ (forall j : nat, j ∉ idx -> data s' !! j = data s !! j)
  /\ shape1 (data s') = shape1 (data s)
  /\ shape2 (data s') = shape2 (data s).
Proof.
  revert s. induction idx as [| i idx IH]; intros s; [cbn; auto 10 |].
  pose proof (tilt_step_frame angle i s) as (E1 & L1 & D1 & A1 & B1).
  cbn. unfold bind.
  destruct (tilt_step angle i s) as [[] s1 | e s1] eqn:T; cbn in *.
  - destruct (IH s1) as (E2 & L2 & D2 & A2 & B2).
    split; [congruence |]. split; [congruence |].
    split; [| split; congruence].
    intros j Hj. apply not_elem_of_cons in Hj as [Hji Hj].
    rewrite D2, D1; auto.
  - split; [auto |]. split; [auto |]. split; [| auto].
    intros j Hj. apply not_elem_of_cons in Hj as [Hji Hj]. auto.
Qed.

(** One turn of the loop that does not raise stores the rotated
    projection. *)
Lemma tilt_step_done `{K : Kernels} (angle : Q) (i : nat) (s s' : APS_13BM) :
  tilt_step angle i s = Done tt s' ->
  exists p r,
    data s !! i = Some p
    /\ broadcast2 (Z.to_nat (shape1 (data s))) (Z.to_nat (shape2 (data s)))
         (ndimage_rotate p angle) = Some r
    /\ data s' = <[i := r]> (data s)
    /\ calls s' = calls s ++ [Call_rotate angle].
Proof.
  unfold tilt_step. unfold_handler. cbn.
  destruct (data s !! i) as [p |] eqn:I; cbn; [| discriminate].
  destruct (broadcast2 _ _ (ndimage_rotate p angle)) as [r |] eqn:B; cbn;
    [| discriminate].
  intros [= <-]. exists p, r. auto.
Qed.

Lemma tilt_loop_done `{K : Kernels} (angle : Q) (idx : list nat) (s s' : APS_13BM) :
  NoDup idx ->
  for_each idx (tilt_step angle) s = Done tt s' ->
  calls s' = calls s ++ replicate (length idx) (Call_rotate angle)
  /\ forall i : nat, i ∈ idx ->
       exists p r,
         data s !! i = Some p
         /\ broadcast2 (Z.to_nat (shape1 (data s))) (Z.to_nat (shape2 (data s)))
              (ndimage_rotate p angle) = Some r
         /\ data s' !! i = Some r.
Proof.
  revert s. induction idx as [| i idx IH]; intros s ND E.
  - cbn in E. injection E as <-. split; [symmetry; apply app_nil_r |].
    intros i Hi. inversion Hi.
  - apply NoDup_cons in ND as [Hi ND].
    cbn in E. unfold bind in E.
    destruct (tilt_step angle i s) as [[] s1 | e s1] eqn:T; [| discriminate].
    destruct (tilt_step_done angle i s s1 T) as (p & r & I & B & D & C).
    pose proof (tilt_step_frame angle i s) as F1. cbv zeta in F1.
    rewrite T in F1. cbn [final] in F1. destruct F1 as (_ & _ & _ & A1 & B1).
    destruct (IH s1 ND E) as (C2 & R2).
    pose proof (tilt_loop_frame angle idx s1) as F2. cbv zeta in F2.
    rewrite E in F2. cbn [final] in F2. destruct F2 as (_ & _ & F & _).
    split.
    + rewrite C2, C, <- app_assoc. reflexivity.
    + intros j Hj. apply elem_of_cons in Hj as [-> | Hj].
      * exists p, r. split; [exact I |]. split; [exact B |].
        rewrite (F i Hi), D. apply list_lookup_insert_eq.
        apply lookup_lt_Some in I. exact I.
      * destruct (R2 j Hj) as (p' & r' & I' & B' & D').
        exists p', r'. rewrite A1, B1 in B'.
        split; [| auto]. rewrite D in I'.
        rewrite list_lookup_insert_ne in I'; [exact I' |].
        intros ->. contradiction.
Qed.

(** The tilt angle [tilt_correction] computes from the four controls;
    [None] when a control does not hold a number or the two slice numbers
    are equal. *)
Definition tilt_angle (s : APS_13BM) : option Q :=
  match py_float (upper_rot_center_blank s),
        py_float (lower_rot_center_blank s),
        py_float (upper_rot_slice_blank s),
        py_float (lower_rot_slice_blank s) with
  | Some top_center, Some bottom_center, Some top_slice, Some bottom_slice =>
      py_div (top_center - bottom_center) (bottom_slice - top_slice)
  | _, _, _, _ => None
  end.

(** [tilt_correction] is its loop between two status messages, or stops
    before the loop with the volume untouched. *)
Lemma tilt_correction_run `{K : Kernels} (s : APS_13BM) :
  match tilt_angle s with
  | Some angle =>
      tilt_correction s
      = (for_each (seq 0 (length (data s) - 1)) (tilt_step angle) ;;
         SetLabel_status "Tilt Corrected")
          (set_status_ID "Correcting Tilt" s)
  | None =>
      completed (tilt_correction s) = false
      /\ final (tilt_correction s) = set_status_ID "Correcting Tilt" s
  end.
Proof.
  unfold tilt_angle.
  assert (N : Z.to_nat (shape0 (data s) - 1) = (length (data s) - 1)%nat)
    by (unfold shape0; lia).
  destruct (py_float (upper_rot_center_blank s)) as [tc |] eqn:H1;
    [| unfold tilt_correction; unfold_handler; run; auto].
  destruct (py_float (lower_rot_center_blank s)) as [bc |] eqn:H2;
    [| unfold tilt_correction; unfold_handler; run; auto].
  destruct (py_float (upper_rot_slice_blank s)) as [ts |] eqn:H3;
    [| unfold tilt_correction; unfold_handler; run; auto].
  destruct (py_float (lower_rot_slice_blank s)) as [bs |] eqn:H4;
    [| unfold tilt_correction; unfold_handler; run; auto].
  destruct (py_div (tc - bc) (bs - ts)) as [angle |] eqn:H5;
    [| unfold tilt_correction; unfold_handler; run; auto].
  unfold tilt_correction. unfold_handler. run. reflexivity.
Qed.

(** C10. Tilt correction stores a rotated projection at the indices
    [0 .. nangles - 2] and nowhere else: however the handler ends, the
    projection at every index from [nangles - 1] on is the one it was,
    the number of projections and every attribute other than the volume
    (and the status label) are unchanged; when it ends normally, each
    projection before the last is the rotation of the one that was there,
    by the angle computed from the four controls. *)
Theorem tilt_correction_spares_last_projection `{K : Kernels} (s : APS_13BM) :
  let o := tilt_correction s in
  let nangles := length (data s) in
  erase_volume (final o) = erase_volume s
  /\ length (data (final o)) = nangles
  /\ (forall j : nat, (nangles - 1 <= j)%nat -> data (final o) !! j = data s !! j)
  /\ (forall s' : APS_13BM,
        o = Done tt s' ->
        exists angle : Q,
          tilt_angle s = Some angle
          /\ status_ID s' = "Tilt Corrected"
          /\ calls s' = calls s ++ replicate (nangles - 1) (Call_rotate angle)
          /\ forall i : nat, (i < nangles - 1)%nat ->
               exists p r,
                 data s !! i = Some p
                 /\ broadcast2 (Z.to_nat (shape1 (data s)))
                      (Z.to_nat (shape2 (data s))) (ndimage_rotate p angle)
                    = Some r
                 /\ data s' !! i = Some r).
Proof.
  intros o nangles. subst o nangles.
  pose proof (tilt_correction_run s) as R.
  destruct (tilt_angle s) as [angle |].
  - rewrite R. clear R. unfold bind, SetLabel_status, modify.
    set (s0 := set_status_ID "Correcting Tilt" s).
    pose proof (tilt_loop_frame angle (seq 0 (length (data s) - 1)) s0) as F.
    cbv zeta in F.
    destruct (for_each (seq 0 (length (data s) - 1)) (tilt_step angle) s0)
      as [[] s1 | e s1] eqn:L; cbn [final] in *;
      destruct F as (E & Len & D & _).
    + split; [exact E |]. split; [exact Len |]. split.
      * intros j Hj. apply D. rewrite elem_of_seq. lia.
      * intros s' [= <-]. exists angle. split; [reflexivity |].
        split; [reflexivity |].
        destruct (tilt_loop_done angle _ s0 s1 (NoDup_seq _ _) L) as (C & Rot).
        rewrite length_seq in C. split; [exact C |].
        intros i Hi. apply (Rot i). rewrite elem_of_seq. lia.
    + split; [exact E |]. split; [exact Len |]. split.
      * intros j Hj. apply D. rewrite elem_of_seq. lia.
      * intros s' [=].
  - destruct R as (C & ->). split; [reflexivity |]. split; [reflexivity |].
    split; [reflexivity |]. intros s' E. rewrite E in C. discriminate.
Qed.

Lemma tilt_correction_spares_last_projection_witness :
  let s := centers_request 2 5 in
  let s' := final (tilt_correction (K := example_kernels) s) in
  data s' !! 5%nat = data s !! 5%nat
  /\ exists angle : Q,
       tilt_angle s = Some angle
       /\ calls s' = calls s ++ replicate 5 (Call_rotate angle).
Proof.
  intros s s'.
  destruct (tilt_correction_spares_last_projection (K := example_kernels) s)
    as (_ & _ & Last & Rot).
  split; [apply Last; cbn; lia |].
  destruct (Rot s' ltac:(evaluate)) as (angle & A & _ & C & _).
  exists angle. split; [exact A | exact C].
Defined.


(** ** Further properties of the handlers *)

(** *** Artifact correction *)

(** [remove_ring], once its three controls parse and the log is open,
    replaces the volume by the stripe kernel's result for an odd size,
    the ring width or the ring width plus one. *)
Theorem remove_ring_uses_odd_width `{K : Kernels} (s : APS_13BM) (n c w : Z) :
  py_int (nchunk_blank s) = Some n ->
  py_int (ncore_blank s) = Some c ->
  py_int (ring_width_blank s) = Some w ->
  logfile_closed s = false ->
  exists k : Z,
    Z.odd k = true /\ w <= k <= w + 1
    /\ completed (remove_ring s) = true
    /\ data (final (remove_ring s)) = tp_remove_stripe_sf (data s) k
    /\ calls (final (remove_ring s)) = calls s ++ [Call_remove_stripe_sf k]
    /\ status_ID (final (remove_ring s)) = "Ring removed.".
Proof.
  intros Hn Hc Hw Hlog. exists (make_odd w).
  split; [apply make_odd_odd |].
  split; [unfold make_odd; destruct (w mod 2 =? 0); lia |].
  unfold remove_ring. unfold_handler. run. auto.
Qed.

Lemma remove_ring_uses_odd_width_witness :
  exists k : Z,
    Z.odd k = true
    /\ calls (final (remove_ring (K := example_kernels) (zinger_request 4 8)))
       = [Call_remove_stripe_sf k].
Proof.
  destruct (remove_ring_uses_odd_width (K := example_kernels)
              (zinger_request 4 8) 128 12 8
              ltac:(evaluate) ltac:(evaluate) ltac:(evaluate) ltac:(evaluate))
    as (k & O & _ & _ & _ & C & _).
  exists k. split; [exact O | exact C].
Defined.

(** [zinger_removal] with a zinger difference that is not a number (as
    the control is when the application starts) reports it and returns:
    no kernel is called and the volume is as it was. *)
Theorem zinger_removal_without_difference `{K : Kernels} (s : APS_13BM)
    (n c k : Z) :
  py_int (nchunk_blank s) = Some n ->
  py_int (ncore_blank s) = Some c ->
  py_int (zinger_kernel_size_blank s) = Some k ->
  py_float (zinger_diff_blank s) = None ->
  let s' := final (zinger_removal s) in
  completed (zinger_removal s) = true
  /\ status_ID s'
     = "Provide expected difference b/n zinger and median data value"
  /\ data s' = data s
  /\ calls s' = calls s
  /\ zinger s' = zinger s
  /\ logfile s' = logfile s.
Proof.
  intros Hn Hc Hk Hd s'. subst s'.
  unfold zinger_removal. unfold_handler. run. auto 10.
Qed.

Lemma zinger_removal_without_difference_witness :
  let s := client_read_nc example_import in
  completed (zinger_removal (K := example_kernels) s) = true
  /\ calls (final (zinger_removal (K := example_kernels) s)) = [].
Proof.
  intros s.
  destruct (zinger_removal_without_difference (K := example_kernels) s 128 12 3
              ltac:(evaluate) ltac:(evaluate) ltac:(evaluate) ltac:(evaluate))
    as (D & _ & _ & C & _).
  split; [exact D | exact C].
Defined.

(** *** Export and the operation log *)

(** Every request other than ['.vol'] with an unsigned dtype reaches the
    writer once, with the current padding and file name, closes the log
    and reports completion; the volume is not changed. *)
Theorem save_recon_writes_once (s : APS_13BM) :
  unsupported (save_data_type s) (save_dtype s) = false ->
  logfile_closed s = false ->
  let s' := final (save_recon s) in
  completed (save_recon s) = true
  /\ calls s' = calls s ++ [Call_save_recon (save_data_type s) (save_dtype s)
                              (npad s) (_fname s)]
  /\ logfile_closed s' = true
  /\ status_ID s' = "Saving completed."
  /\ data s' = data s.
Proof.
  intros Hu Hl s'. subst s'. unfold save_recon. unfold_handler. run. auto 10.
Qed.

Lemma save_recon_writes_once_witness :
  let s := client_read_nc example_import in
  completed (save_recon s) = true
  /\ calls (final (save_recon s)) = [Call_save_recon Vol f4 0 "sample.nc"].
Proof.
  intros s.
  destruct (save_recon_writes_once s ltac:(evaluate) ltac:(evaluate))
    as (D & C & _).
  split; [exact D | exact C].
Defined.

(** [save_recon] closes the log: a second export raises [ValueError] at
    its first log line, before the writer is called again. *)
Theorem save_recon_twice (s : APS_13BM) :
  unsupported (save_data_type s) (save_dtype s) = false ->
  logfile_closed s = false ->
  let s1 := final (save_recon s) in
  save_recon s1 = Raised ValueError (final (save_recon s1))
  /\ calls (final (save_recon s1)) = calls s1
  /\ status_ID (final (save_recon s1)) = "Saving".
Proof.
  intros Hu Hl s1.
  assert (Hu1 : unsupported (save_data_type s1) (save_dtype s1) = false).
  { subst s1. unfold save_recon. unfold_handler. run. auto. }
  assert (Hl1 : logfile_closed s1 = true).
  { subst s1. unfold save_recon. unfold_handler. run. reflexivity. }
  clearbody s1. clear Hu Hl.
  unfold save_recon. unfold_handler. run. auto.
Qed.

Lemma save_recon_twice_witness :
  let s1 := final (save_recon (client_read_nc example_import)) in
  completed (save_recon s1) = false
  /\ length (calls (final (save_recon s1))) = 1%nat.
Proof.
  intros s1.
  destruct (save_recon_twice (client_read_nc example_import)
              ltac:(evaluate) ltac:(evaluate)) as (E & C & _).
  fold s1 in E, C. split; [rewrite E; reflexivity | rewrite C; evaluate].
Defined.

(** With the log closed (as it is after an export), [reconstruct] still
    replaces the volume by the kernel's result and then raises
    [ValueError] at its log line: NaN is not removed and the recorded
    geometry is not updated. *)
Theorem reconstruct_with_closed_log `{K : Kernels} (s : APS_13BM) (n c : Z)
    (u l : Q) :
  py_int (nchunk_blank s) = Some n ->
  py_int (ncore_blank s) = Some c ->
  py_float (upper_rot_center_blank s) = Some u ->
  py_float (lower_rot_center_blank s) = Some l ->
  shape0 (data s) <> 0 ->
  logfile_closed s = true ->
  let s' := final (reconstruct s) in
  completed (reconstruct s) = false
  /\ data s' = tp_recon (data s) (theta s) (CenterArray (schedule s u l))
                 (recon_type s) (Some (filter_type s)) (Some c)
  /\ calls s' = calls s ++ [Call_recon (CenterArray (schedule s u l))
                              (recon_type s) (Some (filter_type s)) (Some c)]
  /\ (sx s' = sx s /\ sy s' = sy s /\ sz s' = sz s)
  /\ status_ID s' = "Reconstructing.".
Proof.
  intros Hn Hc Hu Hl H0 Hlog s'. subst s'.
  pose proof (py_div_nonzero
                (padded_center l (npad s) - padded_center u (npad s))
                (shape0 (data s)) H0) as Hdiv.
  unfold reconstruct. unfold_handler. run. fold (schedule s u l). auto 10.
Qed.

Lemma reconstruct_with_closed_log_witness :
  let s := final (save_recon (client_read_nc example_import)) in
  completed (reconstruct (K := example_kernels) s) = false
  /\ shape0 (data (final (reconstruct (K := example_kernels) s))) = 2
  /\ sz (final (reconstruct (K := example_kernels) s)) = 6.
Proof.
  intros s.
  destruct (reconstruct_with_closed_log (K := example_kernels) s 128 12 (6 # 2) (6 # 2)
              ltac:(evaluate) ltac:(evaluate) ltac:(evaluate) ltac:(evaluate)
              ltac:(evaluate) ltac:(evaluate))
    as (D & V & _ & (_ & _ & Z) & _).
  split; [exact D |]. split; [rewrite V | rewrite Z]; evaluate.
Defined.

(** [reconstruct] stops before the kernel when a center control does not
    hold a number or the volume has no projection: an exception is
    raised, no kernel is called and the volume and its recorded geometry
    are as they were. *)
Theorem reconstruct_stops_before_kernel `{K : Kernels} (s : APS_13BM) (n c : Z) :
  py_int (nchunk_blank s) = Some n ->
  py_int (ncore_blank s) = Some c ->
  py_float (upper_rot_center_blank s) = None
  \/ py_float (lower_rot_center_blank s) = None
  \/ shape0 (data s) = 0 ->
  let s' := final (reconstruct s) in
  completed (reconstruct s) = false
  /\ data s' = data s
  /\ calls s' = calls s
  /\ (sx s' = sx s /\ sy s' = sy s /\ sz s' = sz s).
Proof.
  intros Hn Hc H s'. subst s'.
  destruct (py_float (upper_rot_center_blank s)) as [u |] eqn:Hu;
    [| unfold reconstruct; unfold_handler; run; auto 10].
  destruct (py_float (lower_rot_center_blank s)) as [l |] eqn:Hl;
    [| unfold reconstruct; unfold_handler; run; auto 10].
  destruct H as [H | [H | H]]; try discriminate.
  assert (Hdiv : py_div (padded_center l (npad s) - padded_center u (npad s))
                   (inject_Z (shape0 (data s))) = None)
    by (rewrite H; reflexivity).
  unfold reconstruct. unfold_handler. run. auto 10.
Qed.

Lemma reconstruct_stops_before_kernel_witness :
  let s := set_data [] (client_read_nc example_import) in
  completed (reconstruct (K := example_kernels) s) = false
  /\ calls (final (reconstruct (K := example_kernels) s)) = [].
Proof.
  intros s.
  destruct (reconstruct_stops_before_kernel (K := example_kernels) s 128 12
              ltac:(evaluate) ltac:(evaluate)
              ltac:(right; right; evaluate))
    as (D & _ & C & _).
  split; [exact D | exact C].
Defined.

(** *** Import *)

Lemma py_trunc_Qeq (p q : Q) : (p == q)%Q -> py_trunc p = py_trunc q.
Proof.
  unfold Qeq, py_trunc. destruct p as [a b], q as [c d]. cbn. intros E.
  rewrite <- (Z.quot_mul_cancel_r a (Z.pos b) (Z.pos d)) by lia.
  rewrite <- (Z.quot_mul_cancel_r c (Z.pos d) (Z.pos b)) by lia.
  rewrite E. f_equal. lia.
Qed.

(** The two slice numbers the import seeds are the quarter and the three
    quarters of [sz], rounded down: for [sz >= 1] both are indices below
    [sz], the upper one not above the lower one. The two center controls
    hold half of [sx]. *)
Theorem import_defaults (i : Imported) :
  0 <= i_sz i ->
  let s := client_read_nc i in
  py_int (upper_rot_slice_blank s) = Some (i_sz i / 4)
  /\ py_int (lower_rot_slice_blank s) = Some (3 * i_sz i / 4)
  /\ 0 <= i_sz i / 4 <= 3 * i_sz i / 4
  /\ (1 <= i_sz i -> 3 * i_sz i / 4 < i_sz i)
  /\ py_float (upper_rot_center_blank s) = Some (inject_Z (i_sx i) / 2)%Q
  /\ py_float (lower_rot_center_blank s) = Some (inject_Z (i_sx i) / 2)%Q.
Proof.
  intros H s. subst s. cbn [client_read_nc upper_rot_slice_blank
    lower_rot_slice_blank upper_rot_center_blank lower_rot_center_blank].
  unfold str_int, str_float, py_int, py_float.
  assert (U : py_trunc (inject_Z (i_sz i) - 3 * (inject_Z (i_sz i) / 4))
              = i_sz i / 4).
  { rewrite (py_trunc_Qeq _ (i_sz i # 4)) by (unfold Qeq; cbn; lia).
    unfold py_trunc. cbn. apply Z.quot_div_nonneg; lia. }
  assert (L : py_trunc (inject_Z (i_sz i) - inject_Z (i_sz i) / 4)
              = 3 * i_sz i / 4).
  { rewrite (py_trunc_Qeq _ (3 * i_sz i # 4)) by (unfold Qeq; cbn; lia).
    unfold py_trunc. cbn. apply Z.quot_div_nonneg; lia. }
  rewrite U, L. repeat split; try reflexivity.
  - apply Z.div_pos; lia.
  - apply Z.div_le_mono; lia.
  - intros H1. apply Z.div_lt_upper_bound; lia.
Qed.

Lemma import_defaults_witness :
  py_int (upper_rot_slice_blank (client_read_nc example_import)) = Some 1
  /\ py_int (lower_rot_slice_blank (client_read_nc example_import)) = Some 4.
Proof.
  destruct (import_defaults example_import ltac:(evaluate)) as (U & L & _).
  split; [exact U | exact L].
Defined.

(** *** The movie *)

(** The attributes of the movie: the index of the frame on display,
    whether the timer runs, and (ghost) the indices handed to the image
    frame so far. *)
Record Movie : Type := {
  movie_index : Z;
  timer_running : bool;
  frames_displayed : list Z
}.

(** [movie_maker] on a volume that has a projection: frame 0 is
    displayed and the timer started. *)
Definition movie_maker : Movie :=
  {| movie_index := 0; timer_running := true; frames_displayed := [0] |}.

(** [onMovieFrame] for a volume of [nframes] projections. *)
Definition onMovieFrame (nframes : Z) (m : Movie) : Movie :=
  let i := movie_index m + 1 in
  if nframes - 1 <=? i then
    {| movie_index := i; timer_running := false;
       frames_displayed := frames_displayed m |}
  else
    {| movie_index := i; timer_running := true;
       frames_displayed := frames_displayed m ++ [i] |}.

(** [k] ticks of the timer; a stopped timer sends no event. *)
Fixpoint ticks (nframes : Z) (k : nat) (m : Movie) : Movie :=
  match k with
  | O => m
  | S k' => if timer_running m then ticks nframes k' (onMovieFrame nframes m)
            else m
  end.

Lemma ticks_running (nframes : Z) (k : nat) (j : nat) :
  (j + k < Z.to_nat nframes - 1)%nat ->
  ticks nframes k
    {| movie_index := Z.of_nat j; timer_running := true;
       frames_displayed := np_arange (Z.of_nat (S j)) |}
  = {| movie_index := Z.of_nat (j + k); timer_running := true;
       frames_displayed := np_arange (Z.of_nat (S (j + k))) |}.
Proof.
  revert j. induction k as [| k IH]; intros j H.
  - cbn. rewrite Nat.add_0_r. reflexivity.
  - cbn [ticks timer_running]. unfold onMovieFrame. cbn [movie_index frames_displayed].
    destruct (Z.leb_spec (nframes - 1) (Z.of_nat j + 1)) as [L | L]; [lia |].
    replace (Z.of_nat j + 1) with (Z.of_nat (S j)) by lia.
    replace (np_arange (Z.of_nat (S j)) ++ [Z.of_nat (S j)])
      with (np_arange (Z.of_nat (S (S j)))).
    + rewrite IH by lia. replace (S j + k)%nat with (j + S k)%nat by lia.
      reflexivity.
    + unfold np_arange. rewrite !Nat2Z.id.
      rewrite (seq_S (S j) 0), map_app. reflexivity.
Qed.

(** The movie displays the frames [0 .. nframes - 2] in order and then
    stops the timer: for a volume of at least two projections, once
    [nframes - 1] ticks have passed the timer is stopped, the frames
    displayed are exactly those, and the last projection was never on
    display. *)
Theorem movie_skips_last_frame (nframes : Z) (k : nat) :
  2 <= nframes ->
  (Z.to_nat nframes - 1 <= k)%nat ->
  let m := ticks nframes k movie_maker in
  timer_running m = false
  /\ frames_displayed m = np_arange (nframes - 1)
  /\ (nframes - 1) ∉ frames_displayed m.
Proof.
  intros H2 Hk m.
  assert (E : m = {| movie_index := nframes - 1; timer_running := false;
                     frames_displayed := np_arange (nframes - 1) |}).
  { subst m.
    replace k with ((Z.to_nat nframes - 2) + S (k - (Z.to_nat nframes - 1)))%nat
      by lia.
    generalize (k - (Z.to_nat nframes - 1))%nat. intros r.
    assert (T : forall a b m0, ticks nframes (a + b) m0
                               = ticks nframes b (ticks nframes a m0) \/
                               timer_running (ticks nframes a m0) = false).
    { induction a as [| a IHa]; intros b m0; [left; reflexivity |].
      cbn [Nat.add ticks]. destruct (timer_running m0) eqn:R.
      - apply IHa.
      - right. exact R. }
    pose proof (ticks_running nframes (Z.to_nat nframes - 2) 0 ltac:(lia)) as Run.
    change (np_arange (Z.of_nat 1)) with [0] in Run.
    change {| movie_index := Z.of_nat 0; timer_running := true;
              frames_displayed := [0] |} with movie_maker in Run.
    destruct (T (Z.to_nat nframes - 2)%nat (S r) movie_maker) as [-> | F];
      [| rewrite Run in F; discriminate].
    rewrite Run. cbn [ticks timer_running]. unfold onMovieFrame.
    cbn [movie_index frames_displayed Nat.add].
    destruct (Z.leb_spec (nframes - 1) (Z.of_nat (Z.to_nat nframes - 2) + 1))
      as [L | L]; [| lia].
    replace (Z.of_nat (Z.to_nat nframes - 2) + 1) with (nframes - 1) by lia.
    replace (Z.of_nat (S (Z.to_nat nframes - 2))) with (nframes - 1) by lia.
    destruct r; reflexivity. }
  rewrite E. cbn. split; [reflexivity |]. split; [reflexivity |].
  unfold np_arange. intros In. apply list_elem_of_In, in_map_iff in In.
  destruct In as (x & Hx & Hin). apply in_seq in Hin. lia.
Qed.

Lemma movie_skips_last_frame_witness :
  frames_displayed (ticks 5 9 movie_maker) = [0; 1; 2; 3]
  /\ timer_running (ticks 5 9 movie_maker) = false.
Proof.
  destruct (movie_skips_last_frame 5 9 ltac:(lia) ltac:(cbn; lia))
    as (R & F & _).
  split; [exact F | exact R].
Defined.

(** *** Normalization, again *)

(** With pad size 0 (the entry 'No Padding') [normalization] never calls
    the padding kernel and does not touch [npad]: the corrected volume
    goes straight to the logarithm. *)
Theorem normalization_without_padding `{K : Kernels} (s : APS_13BM) (n c : Z)
    (dk : Volume) :
  py_int (nchunk_blank s) = Some n ->
  py_int (ncore_blank s) = Some c ->
  logfile_closed s = false ->
  dark s = Some dk ->
  nonempty (data s) ->
  nonempty (tp_normalize (data s) (flat s) dk c) ->
  nonempty (flat_dark_corrected s c dk) ->
  pad_size s = 0 ->
  exists s',
    normalization s = Done tt s'
    /\ status_ID s' = "Preprocessing Complete"
    /\ data s' = log_transform (flat_dark_corrected s c dk)
    /\ npad s' = npad s
    /\ dark s' = None
    /\ calls s' = calls s ++ correction_calls s c
                    ++ [Call_minus_log; Call_remove_nan 0].
Proof.
  intros Hn Hc Hl Hd N0 N1 N2 Hp.
  assert (Hp' : (pad_size s =? 0) = true) by lia.
  unfold flat_dark_corrected, correction_calls in *.
  destruct (cb s) eqn:Hcb; eexists; split.
  - unfold normalization, normalization_tail. unfold_handler. run_extrema.
    reflexivity.
  - cbn. rewrite <- !app_assoc. repeat split; reflexivity.
  - unfold normalization, normalization_tail. unfold_handler. run_extrema.
    reflexivity.
  - cbn. rewrite <- !app_assoc. repeat split; reflexivity.
Qed.

Lemma normalization_without_padding_witness :
  exists s',
    normalization (K := example_kernels)
      (final (pad_size_combo_recall None (client_read_nc example_import)))
    = Done tt s'
    /\ npad s' = 0
    /\ calls s' = [Call_normalize 12; Call_normalize_bg 10; Call_minus_log;
                   Call_remove_nan 0].
Proof.
  destruct (normalization_without_padding (K := example_kernels)
              (final (pad_size_combo_recall None (client_read_nc example_import)))
              128 12 (constant_volume 1 2 6 (Fin 0))
              ltac:(evaluate) ltac:(evaluate) ltac:(evaluate) ltac:(evaluate)
              ltac:(evaluate) ltac:(evaluate) ltac:(evaluate) ltac:(evaluate))
    as (s' & E & _ & _ & P & _ & C).
  exists s'. split; [exact E |]. split; [exact P | exact C].
Defined.

(** Once the dark field has been deleted, as a completed normalization
    leaves it, a further [normalization] raises [AttributeError] when it
    reads [self.dark]: no kernel is called and the volume is as it was. *)
Theorem normalization_without_dark `{K : Kernels} (s : APS_13BM) (n c : Z) :
  py_int (nchunk_blank s) = Some n ->
  py_int (ncore_blank s) = Some c ->
  logfile_closed s = false ->
  nonempty (data s) ->
  dark s = None ->
  let s' := final (normalization s) in
  normalization s = Raised AttributeError s'
  /\ data s' = data s
  /\ calls s' = calls s
  /\ npad s' = npad s
  /\ status_ID s' = "Preprocessing".
Proof.
  intros Hn Hc Hl N0 Hd s'. subst s'.
  unfold normalization. unfold_handler. run_extrema. auto 10.
Qed.

Lemma normalization_without_dark_witness :
  dark normalized_example = None
  /\ completed (normalization (K := example_kernels) normalized_example) = false
  /\ data (final (normalization (K := example_kernels) normalized_example))
     = data normalized_example.
Proof.
  destruct (normalization_without_dark (K := example_kernels)
              normalized_example 128 12
              ltac:(evaluate) ltac:(evaluate) ltac:(evaluate) ltac:(evaluate)
              ltac:(evaluate)) as (E & D & _).
  split; [evaluate |]. split; [rewrite E; reflexivity | exact D].
Defined.

(** What a run that stopped at the too-small pad size leaves behind. *)
Lemma normalization_pad_too_small_state `{K : Kernels} (s : APS_13BM) (n c : Z)
    (dk : Volume) :
  py_int (nchunk_blank s) = Some n ->
  py_int (ncore_blank s) = Some c ->
  logfile_closed s = false ->
  dark s = Some dk ->
  nonempty (data s) ->
  nonempty (tp_normalize (data s) (flat s) dk c) ->
  nonempty (flat_dark_corrected s c dk) ->
  pad_size s <> 0 ->
  pad_size s < shape2 (flat_dark_corrected s c dk) ->
  let s1 := final (normalization s) in
  (nchunk_blank s1 = nchunk_blank s /\ ncore_blank s1 = ncore_blank s
   /\ logfile_closed s1 = false /\ flat s1 = flat s /\ cb s1 = cb s)
  /\ dark s1 = Some dk
  /\ data s1 = flat_dark_corrected s c dk
  /\ calls s1 = calls s ++ correction_calls s c.
Proof.
  intros Hn Hc Hl Hd N0 N1 N2 Hp Hlt s1. subst s1.
  apply Z.eqb_neq in Hp. apply Z.ltb_lt in Hlt.
  unfold flat_dark_corrected, correction_calls in *.
  destruct (cb s) eqn:Hcb.
  - unfold normalization. unfold_handler. run_extrema.
    rewrite <- app_assoc. auto 10.
  - unfold normalization. unfold_handler. run_extrema. auto 10.
Qed.

(** A run that stopped at a too-small pad size keeps the dark field, so
    the operator can pick a larger pad size and run the stage again: the
    second run applies the flat/dark correction (and the air
    normalization) a second time, to the volume the first run had already
    corrected, before it pads and takes the logarithm. *)
Theorem retry_after_small_pad_corrects_twice `{K : Kernels} (s : APS_13BM)
    (n c : Z) (dk : Volume) (p' : Z) :
  py_int (nchunk_blank s) = Some n ->
  py_int (ncore_blank s) = Some c ->
  logfile_closed s = false ->
  dark s = Some dk ->
  nonempty (data s) ->
  nonempty (tp_normalize (data s) (flat s) dk c) ->
  nonempty (flat_dark_corrected s c dk) ->
  pad_size s <> 0 ->
  pad_size s < shape2 (flat_dark_corrected s c dk) ->
  let d1 := flat_dark_corrected s c dk in
  let s1 := set_pad_size p' (final (normalization s)) in
  let d2 := flat_dark_corrected s1 c dk in
  let p := (p' - shape2 d2) / 2 in
  d2 = (let d := tp_normalize d1 (flat s) dk c in
        if cb s then tp_normalize_bg d 10 else d)
  /\ (p' <> 0 ->
      shape2 d2 <= p' ->
      nonempty (tp_normalize d1 (flat s) dk c) ->
      nonempty d2 ->
      nonempty (tp_pad d2 2 p "edge") ->
      exists s2,
        normalization s1 = Done tt s2
        /\ status_ID s2 = "Preprocessing Complete"
        /\ data s2 = log_transform (tp_pad d2 2 p "edge")
        /\ calls s2 = calls s ++ correction_calls s c ++ correction_calls s c
                        ++ [Call_pad 2 p "edge"; Call_minus_log;
                            Call_remove_nan 0]).
Proof.
  intros Hn Hc Hl Hd N0 N1 N2 Hp Hlt d1 s1 d2 p.
  destruct (normalization_pad_too_small_state s n c dk Hn Hc Hl Hd N0 N1 N2 Hp Hlt)
    as ((B1 & B2 & L1 & F1 & C1) & D1 & V1 & K1).
  assert (Ed2 : d2 = (let d := tp_normalize d1 (flat s) dk c in
                      if cb s then tp_normalize_bg d 10 else d)).
  { subst d2 s1. unfold flat_dark_corrected at 1. unfold set_pad_size.
    cbn [data flat cb]. rewrite V1, F1, C1. reflexivity. }
  split; [exact Ed2 |].
  intros Hp' Hle M1 M2 M3.
  destruct (normalization_padded s1 n c dk) as (s2 & E & S & _ & D & _ & C);
    try (subst s1; unfold set_pad_size;
         cbn [nchunk_blank ncore_blank logfile_closed dark data flat pad_size];
         first [ rewrite B1; exact Hn | rewrite B2; exact Hc | exact L1
               | exact D1 | rewrite V1; exact N2
               | rewrite V1, F1; exact M1 | exact Hp' ]).
  - exact M2.
  - exact Hle.
  - exact M3.
  - exists s2. split; [exact E |]. split; [exact S |]. split; [exact D |].
    assert (A1 : calls s1 = calls s ++ correction_calls s c) by exact K1.
    assert (A2 : correction_calls s1 c = correction_calls s c).
    { unfold correction_calls.
      change (cb s1) with (cb (final (normalization s))).
      rewrite C1. reflexivity. }
    rewrite C, A1, A2, <- !app_assoc. reflexivity.
Qed.

Lemma retry_after_small_pad_corrects_twice_witness :
  let s := request_pad 1024 (wide_import 1030 (Fin 0.25)) in
  let s1 := set_pad_size 2048 (final (normalization (K := example_kernels) s)) in
  exists s2,
    normalization (K := example_kernels) s1 = Done tt s2
    /\ calls s2 = [Call_normalize 12; Call_normalize_bg 10;
                   Call_normalize 12; Call_normalize_bg 10;
                   Call_pad 2 509 "edge"; Call_minus_log; Call_remove_nan 0].
Proof.
  intros s s1.
  destruct (retry_after_small_pad_corrects_twice (K := example_kernels) s
              128 12 (constant_volume 1 1 1030 (Fin 0)) 2048
              ltac:(evaluate) ltac:(evaluate) ltac:(evaluate) ltac:(evaluate)
              ltac:(evaluate) ltac:(evaluate) ltac:(evaluate) ltac:(evaluate)
              ltac:(evaluate)) as (_ & H).
  destruct (H ltac:(evaluate) ltac:(evaluate) ltac:(evaluate) ltac:(evaluate)
              ltac:(evaluate)) as (s2 & E & _ & _ & C).
  exists s2. split; [exact E | exact C].
Defined.

(** *** Tilt correction, again *)

(** Equal slice numbers make the tilt angle a division by zero:
    [tilt_correction] raises before its loop and the volume is as it
    was. *)
Theorem tilt_correction_equal_slices `{K : Kernels} (s : APS_13BM)
    (tc bc ts bs : Q) :
  py_float (upper_rot_center_blank s) = Some tc ->
  py_float (lower_rot_center_blank s) = Some bc ->
  py_float (upper_rot_slice_blank s) = Some ts ->
  py_float (lower_rot_slice_blank s) = Some bs ->
  (ts == bs)%Q ->
  tilt_correction s
    = Raised ZeroDivisionError (set_status_ID "Correcting Tilt" s).
Proof.
  intros H1 H2 H3 H4 E.
  assert (D : py_div (tc - bc) (bs - ts) = None).
  { unfold py_div. replace (Qeq_bool (bs - ts) 0) with true; [reflexivity |].
    symmetry. apply Qeq_bool_iff. lra. }
  unfold tilt_correction. unfold_handler. run. reflexivity.
Qed.

Lemma tilt_correction_equal_slices_witness :
  let s := set_lower_rot_slice_blank (IntText 1) (client_read_nc example_import) in
  completed (tilt_correction (K := example_kernels) s) = false
  /\ data (final (tilt_correction (K := example_kernels) s)) = data s.
Proof.
  intros s.
  rewrite (tilt_correction_equal_slices (K := example_kernels) s
             (6 # 2) (6 # 2) (inject_Z 1) (inject_Z 1)
             ltac:(evaluate) ltac:(evaluate) ltac:(evaluate) ltac:(evaluate)
             ltac:(reflexivity)).
  split; reflexivity.
Defined.

(** A projection of [rows] by [cols]. *)
Definition has_shape (rows cols : nat) (p : Projection) : Prop :=
  length p = rows /\ Forall (fun row => length row = cols) p.

(** An array that has the target shape is broadcast to itself. *)
Lemma broadcast2_same_shape (rows cols : nat) (r : Projection) :
  has_shape rows cols r -> broadcast2 rows cols r = Some r.
Proof.
  intros [L F]. unfold broadcast2.
  assert (M : mapM (broadcast_axis cols) r = Some r).
  { apply mapM_Some. clear L. induction F as [| row r H _ IH]; constructor.
    - unfold broadcast_axis. destruct (decide (length row = cols)); [reflexivity | contradiction].
    - exact IH. }
  rewrite M. unfold broadcast_axis.
  destruct (decide (length r = rows)); [reflexivity | contradiction].
Qed.

Lemma tilt_loop_completes `{K : Kernels} (angle : Q) (idx : list nat)
    (s : APS_13BM) :
  NoDup idx ->
  (forall i : nat, i ∈ idx ->
     exists p, data s !! i = Some p
       /\ has_shape (Z.to_nat (shape1 (data s))) (Z.to_nat (shape2 (data s)))
            (ndimage_rotate p angle)) ->
  exists s', for_each idx (tilt_step angle) s = Done tt s'.
Proof.
  revert s. induction idx as [| i idx IH]; intros s ND H; [eexists; reflexivity |].
  apply NoDup_cons in ND as [Hi ND].
  destruct (H i ltac:(left)) as (p & I & Sh).
  pose proof (tilt_step_frame angle i s) as F. cbv zeta in F.
  assert (T : exists s1, tilt_step angle i s = Done tt s1).
  { unfold tilt_step. unfold_handler. cbn. rewrite I. cbn.
    rewrite (broadcast2_same_shape _ _ _ Sh). cbn. eexists. reflexivity. }
  destruct T as (s1 & T). rewrite T in F. cbn [final] in F.
  destruct F as (_ & _ & D & A1 & B1).
  cbn. unfold bind. rewrite T. apply IH; [exact ND |].
  intros j Hj. destruct (H j ltac:(right; exact Hj)) as (q & J & Sq).
  exists q. rewrite A1, B1. split; [| exact Sq].
  rewrite D; [exact J |]. intros ->. contradiction.
Qed.

(** When the rotation kernel returns, for each projection before the
    last, a projection of the volume's shape, [tilt_correction] ends
    normally and stores exactly the kernel's result at each of these
    indices. *)
Theorem tilt_correction_completes `{K : Kernels} (s : APS_13BM) (angle : Q) :
  tilt_angle s = Some angle ->
  (forall (i : nat) (p : Projection),
     (i < length (data s) - 1)%nat -> data s !! i = Some p ->
     has_shape (Z.to_nat (shape1 (data s))) (Z.to_nat (shape2 (data s)))
       (ndimage_rotate p angle)) ->
  exists s',
    tilt_correction s = Done tt s'
    /\ status_ID s' = "Tilt Corrected"
    /\ forall (i : nat) (p : Projection),
         (i < length (data s) - 1)%nat -> data s !! i = Some p ->
         data s' !! i = Some (ndimage_rotate p angle).
Proof.
  intros A H.
  pose proof (tilt_correction_run s) as R. rewrite A in R.
  set (s0 := set_status_ID "Correcting Tilt" s) in R.
  destruct (tilt_loop_completes angle (seq 0 (length (data s) - 1)) s0
              (NoDup_seq _ _)) as (s1 & L).
  { intros i Hi. apply elem_of_seq in Hi.
    destruct (lookup_lt_is_Some_2 (data s) i ltac:(lia)) as (p & I).
    exists p. split; [exact I |]. apply (H i p); [lia | exact I]. }
  exists (set_status_ID "Tilt Corrected" s1).
  split; [rewrite R; unfold bind; rewrite L; reflexivity |].
  split; [reflexivity |].
  intros i p Hi I.
  destruct (tilt_loop_done angle _ s0 s1 (NoDup_seq _ _) L) as (_ & Rot).
  destruct (Rot i) as (p' & r & I' & B & D); [apply elem_of_seq; lia |].
  change (data s0) with (data s) in I', B.
  rewrite I in I'. injection I' as <-.
  rewrite (broadcast2_same_shape _ _ _ (H i p Hi I)) in B. injection B as <-.
  exact D.
Qed.

Lemma tilt_correction_completes_witness :
  exists s',
    tilt_correction (K := example_kernels) (centers_request 2 5) = Done tt s'
    /\ status_ID s' = "Tilt Corrected".
Proof.
  destruct (tilt_correction_completes (K := example_kernels)
              (centers_request 2 5) (-3 # 3))
    as (s' & E & S & _).
  - evaluate.
  - intros i p Hi I. cbn in Hi.
    assert (P : p = replicate 2 (replicate 6 (Fin 0.5))).
    { do 5 (destruct i as [| i];
            [vm_compute in I; injection I as <-; reflexivity |]). lia. }
    subst p. split; [reflexivity |]. repeat constructor.
  - exists s'. split; [exact E | exact S].
Defined.

(** *** Slice previews *)

(** Whether [l[z:z+1]] has an element, for [l] of length [n]. *)
Definition single_row (n z : Z) : bool :=
  ((0 <=? z) && (z <? n)) || ((- n <=? z) && (z <? -1)).

Lemma py_slice_one {A : Type} (l : list A) (z : Z) :
  length (py_slice l z (z + 1))
  = if single_row (Z.of_nat (length l)) z then 1%nat else 0%nat.
Proof.
  unfold py_slice, slice_bound, single_row.
  rewrite length_take, length_drop.
  set (n := Z.of_nat (length l)).
  assert (Hn : length l = Z.to_nat n) by (subst n; lia).
  assert (Hn0 : 0 <= n) by (subst n; lia).
  rewrite Hn. clearbody n. clear Hn l.
  destruct (Z.ltb_spec z 0), (Z.ltb_spec (z + 1) 0), (Z.leb_spec 0 z),
    (Z.ltb_spec z n), (Z.leb_spec (- n) z), (Z.ltb_spec z (-1));
    cbn [andb orb]; lia.
Qed.

Lemma py_index_0 {A : Type} (l : list A) : py_index l 0 = l !! 0%nat.
Proof. destruct l; reflexivity. Qed.

(** [up_recon_slice], once its center and slice controls parse,
    hands the kernel the rows [z:z+1] of every projection (one row, or
    none when [z] is out of range or is -1) with the padded center and
    stores the result in [data_slice]. Its last statement plots the first
    slice of the result, rows reversed: the handler ends normally when the
    result has a slice, and with [IndexError] when it has none, the
    status then reading 'Slice Reconstructed.' all the same. Either way
    the volume, the padding, the resolved centers and the log are as they
    were. *)
Theorem up_recon_slice_preview `{K : Kernels} (s : APS_13BM) (c : Q) (z : Z) :
  py_float (upper_rot_center_blank s) = Some c ->
  py_int (upper_rot_slice_blank s) = Some z ->
  let o := up_recon_slice s in
  let rows := map (fun p => py_slice p z (z + 1)) (data s) in
  let center := ScalarCenter (padded_center c (npad s)) in
  let result := tp_recon rows (theta s) center (recon_type s) None None in
  let recon := Call_recon center (recon_type s) None None in
  (forall (i : nat) (p : Projection),
     data s !! i = Some p ->
     exists q, rows !! i = Some q
       /\ length q = if single_row (Z.of_nat (length p)) z
                     then 1%nat else 0%nat)
  /\ data_slice (final o) = Some result
  /\ status_ID (final o) = "Slice Reconstructed."
  /\ (data (final o) = data s /\ npad (final o) = npad s
      /\ upper_rot_center (final o) = upper_rot_center s
      /\ lower_rot_center (final o) = lower_rot_center s
      /\ logfile (final o) = logfile s)
  /\ (forall image : Projection,
        result !! 0%nat = Some image ->
        completed o = true
        /\ calls (final o) = calls s ++ [recon; Call_display (reverse image)])
  /\ (result = [] ->
        o = Raised IndexError (final o)
        /\ calls (final o) = calls s ++ [recon]).
Proof.
  intros Hc Hz o rows center result recon.
  destruct (up_recon_slice_run s c z Hc Hz) as (D & S & F & P).
  fold o in D, S, F, P. unfold preview in D, P.
  fold rows center result recon in D, P. rewrite py_index_0 in P.
  split; [| split; [exact D | split; [exact S | split; [exact F | split]]]].
  - intros i p I. exists (py_slice p z (z + 1)). split; [| apply py_slice_one].
    subst rows. change (map ?f ?l) with (f <$> l).
    rewrite list_lookup_fmap, I. reflexivity.
  - intros image I. rewrite I in P. exact P.
  - intros E. rewrite E in P. exact P.
Qed.

Lemma up_recon_slice_preview_witness :
  let s := set_upper_rot_slice_blank (IntText (-1)) (client_read_nc example_import) in
  let o := up_recon_slice (K := example_kernels) s in
  o = Raised IndexError (final o)
  /\ data_slice (final o) = Some []
  /\ data (final o) = data s
  /\ exists q : list (list sample),
       map (fun p => py_slice p (-1) (-1 + 1)) (data s) !! 0%nat = Some q
       /\ length q = 0%nat.
Proof.
  intros s o.
  destruct (up_recon_slice_preview (K := example_kernels) s (6 # 2) (-1)
              ltac:(evaluate) ltac:(evaluate))
    as (R & D & _ & (F & _) & _ & E).
  fold o in D, F, E.
  destruct (E ltac:(evaluate)) as (X & _).
  split; [exact X |]. split; [rewrite D; evaluate |]. split; [exact F |].
  destruct (R 0%nat (replicate 2 (replicate 6 (Fin 0.5))) ltac:(reflexivity))
    as (q & Q & L).
  exists q. split; [exact Q | exact L].
Defined.

(** *** Center resolution, again *)

(** Closes one path of the frame property of [find_rot_center]. *)
Ltac frame_path := run_centering; auto 10.

(** However [find_rot_center] ends, normally or with an exception, the
    volume, the padding, the angles and the flat and dark fields are what
    they were. *)
Theorem find_rot_center_keeps_volume `{K : Kernels} (s : APS_13BM) :
  let s' := final (find_rot_center s) in
  data s' = data s /\ npad s' = npad s /\ theta s' = theta s
  /\ flat s' = flat s /\ dark s' = dark s.
Proof.
  cbv zeta.
  destruct (py_float (tol_blank s)) as [tol |] eqn:Htol; [| frame_path].
  destruct (py_int (upper_rot_slice_blank s)) as [a |] eqn:Ha; [| frame_path].
  destruct (py_int (lower_rot_slice_blank s)) as [b |] eqn:Hb; [| frame_path].
  destruct (py_float (upper_rot_center_blank s)) as [u0 |] eqn:Hu; [| frame_path].
  destruct (py_float (lower_rot_center_blank s)) as [l0 |] eqn:Hl; [| frame_path].
  destruct (logfile_closed s) eqn:Hlog; [frame_path |].
  destruct (find_center_type s) eqn:Hm; [frame_path | frame_path |].
  destruct (shape2 (data s) <? a) eqn:G1; [frame_path |].
  destruct (shape2 (data s) <? b) eqn:G2; [frame_path |].
  destruct (py_index (data s) a) as [p1 |] eqn:I1; [| frame_path].
  destruct (py_mod (a + int_of_quotient (shape0 (data s)) 2) (shape0 (data s)))
    as [a2 |] eqn:M1; [| frame_path].
  destruct (py_index (data s) a2) as [p2 |] eqn:I2; [| frame_path].
  destruct (py_index (data s) b) as [q1 |] eqn:I3; [| frame_path].
  destruct (py_mod (b + int_of_quotient (shape0 (data s)) 2) (shape0 (data s)))
    as [b2 |] eqn:M2; [| frame_path].
  destruct (py_index (data s) b2) as [q2 |] eqn:I4; [| frame_path].
  frame_path.
Qed.

(** When [find_rot_center] reports the centers found, [rot_center] is
    the mean of the two centers it stored, whatever the method. *)
Theorem rot_center_is_mean `{K : Kernels} (s s1 : APS_13BM) :
  find_rot_center s = Done tt s1 ->
  status_ID s1 = "Rotation Center found." ->
  exists u l : Q,
    upper_rot_center s1 = Some u /\ lower_rot_center s1 = Some l
    /\ rot_center s1 = Some ((u + l) / 2)%Q.
Proof.
  intros E S. apply done_final in E. subst s1.
  destruct (py_float (tol_blank s)) as [tol |] eqn:Htol; [| dead_path S].
  destruct (py_int (upper_rot_slice_blank s)) as [a |] eqn:Ha; [| dead_path S].
  destruct (py_int (lower_rot_slice_blank s)) as [b |] eqn:Hb; [| dead_path S].
  destruct (py_float (upper_rot_center_blank s)) as [u0 |] eqn:Hu; [| dead_path S].
  destruct (py_float (lower_rot_center_blank s)) as [l0 |] eqn:Hl; [| dead_path S].
  destruct (logfile_closed s) eqn:Hlog; [dead_path S |].
  destruct (find_center_type s) eqn:Hm.
  - clear S. run_centering. eauto.
  - clear S. run_centering. eauto.
  - destruct (shape2 (data s) <? a) eqn:G1; [dead_path S |].
    destruct (shape2 (data s) <? b) eqn:G2; [dead_path S |].
    destruct (py_index (data s) a) as [p1 |] eqn:I1; [| dead_path S].
    destruct (py_mod (a + int_of_quotient (shape0 (data s)) 2) (shape0 (data s)))
      as [a2 |] eqn:M1; [| dead_path S].
    destruct (py_index (data s) a2) as [p2 |] eqn:I2; [| dead_path S].
    destruct (py_index (data s) b) as [q1 |] eqn:I3; [| dead_path S].
    destruct (py_mod (b + int_of_quotient (shape0 (data s)) 2) (shape0 (data s)))
      as [b2 |] eqn:M2; [| dead_path S].
    destruct (py_index (data s) b2) as [q2 |] eqn:I4; [| dead_path S].
    clear S. run_centering. eauto.
Qed.

Lemma rot_center_is_mean_witness :
  exists u l : Q,
    upper_rot_center centered_example = Some u
    /\ lower_rot_center centered_example = Some l
    /\ rot_center centered_example = Some ((u + l) / 2)%Q.
Proof.
  exact (rot_center_is_mean (K := example_kernels) normalized_example
           centered_example ltac:(evaluate) ltac:(evaluate)).
Defined.

Lemma py_index_in_range {A : Type} (l : list A) (i : Z) :
  0 <= i < Z.of_nat (length l) -> exists x, py_index l i = Some x.
Proof.
  intros H. unfold py_index.
  replace ((0 <=? i) && (i <? Z.of_nat (length l))) with true by lia.
  apply lookup_lt_is_Some_2. lia.
Qed.

(** The 0-180 method on slice numbers that are indices of projections
    (and do not exceed the column count): the projection opposite to
    projection [a] is number [(a + N / 2) mod N], which always exists, so
    the method ends with both centers found, each the kernel's result for
    a projection and its opposite. *)
Theorem find_rot_center_pc_in_range `{K : Kernels} (s : APS_13BM) (tol u l : Q)
    (a b : Z) :
  py_float (tol_blank s) = Some tol ->
  py_int (upper_rot_slice_blank s) = Some a ->
  py_int (lower_rot_slice_blank s) = Some b ->
  py_float (upper_rot_center_blank s) = Some u ->
  py_float (lower_rot_center_blank s) = Some l ->
  logfile_closed s = false ->
  find_center_type s = Pc0_180 ->
  0 <= a < shape0 (data s) ->
  0 <= b < shape0 (data s) ->
  a <= shape2 (data s) ->
  b <= shape2 (data s) ->
  let N := shape0 (data s) in
  let s' := final (find_rot_center s) in
  exists p1 p2 q1 q2 : Projection,
    (py_index (data s) a = Some p1
     /\ py_index (data s) ((a + N / 2) mod N) = Some p2
     /\ py_index (data s) b = Some q1
     /\ py_index (data s) ((b + N / 2) mod N) = Some q2)
    /\ completed (find_rot_center s) = true
    /\ status_ID s' = "Rotation Center found."
    /\ upper_rot_center s' = Some (tp_find_center_pc p1 p2 tol)
    /\ lower_rot_center s' = Some (tp_find_center_pc q1 q2 tol).
Proof.
  intros Htol Ha Hb Hu Hl Hlog Hm Ra Rb Ca Cb N s'. subst s'.
  assert (G1 : (shape2 (data s) <? a) = false) by lia.
  assert (G2 : (shape2 (data s) <? b) = false) by lia.
  assert (HN : 0 < N) by (subst N; lia).
  assert (Q2 : int_of_quotient (shape0 (data s)) 2 = N / 2)
    by (apply int_of_quotient_floor; lia).
  assert (M1 : py_mod (a + N / 2) N = Some ((a + N / 2) mod N))
    by (unfold py_mod; replace (N =? 0) with false by lia; reflexivity).
  assert (M2 : py_mod (b + N / 2) N = Some ((b + N / 2) mod N))
    by (unfold py_mod; replace (N =? 0) with false by lia; reflexivity).
  pose proof (Z.mod_pos_bound (a + N / 2) N HN) as Ba.
  pose proof (Z.mod_pos_bound (b + N / 2) N HN) as Bb.
  destruct (py_index_in_range (data s) a Ra) as (p1 & I1).
  destruct (py_index_in_range (data s) ((a + N / 2) mod N) Ba) as (p2 & I2).
  destruct (py_index_in_range (data s) b Rb) as (q1 & I3).
  destruct (py_index_in_range (data s) ((b + N / 2) mod N) Bb) as (q2 & I4).
  exists p1, p2, q1, q2. split; [auto |].
  subst N. clear Ra Rb Ca Cb HN Ba Bb.
  run_centering. auto.
Qed.

Lemma find_rot_center_pc_in_range_witness :
  let s := centering_request Pc0_180 1 4 in
  completed (find_rot_center (K := example_kernels) s) = true
  /\ status_ID (final (find_rot_center (K := example_kernels) s))
     = "Rotation Center found.".
Proof.
  intros s.
  destruct (find_rot_center_pc_in_range (K := example_kernels) s
              0.25 (6 # 2) (6 # 2) 1 4
              ltac:(evaluate) ltac:(evaluate) ltac:(evaluate) ltac:(evaluate)
              ltac:(evaluate) ltac:(evaluate) ltac:(evaluate)
              ltac:(vm_compute; split; [discriminate | reflexivity])
              ltac:(vm_compute; split; [discriminate | reflexivity])
              ltac:(evaluate) ltac:(evaluate))
    as (p1 & p2 & q1 & q2 & _ & D & S & _).
  split; [exact D | exact S].
Defined.

(** *** Padding and cropping across the stages *)

(** What a normalization that padded leaves behind. *)
Lemma normalization_padded_state `{K : Kernels} (s : APS_13BM) (n c : Z)
    (dk : Volume) :
  py_int (nchunk_blank s) = Some n ->
  py_int (ncore_blank s) = Some c ->
  logfile_closed s = false ->
  dark s = Some dk ->
  nonempty (data s) ->
  nonempty (tp_normalize (data s) (flat s) dk c) ->
  nonempty (flat_dark_corrected s c dk) ->
  pad_size s <> 0 ->
  shape2 (flat_dark_corrected s c dk) <= pad_size s ->
  let d := flat_dark_corrected s c dk in
  let p := (pad_size s - shape2 d) / 2 in
  nonempty (tp_pad d 2 p "edge") ->
  let s1 := final (normalization s) in
  (nchunk_blank s1 = nchunk_blank s /\ ncore_blank s1 = ncore_blank s
   /\ upper_rot_center_blank s1 = upper_rot_center_blank s
   /\ lower_rot_center_blank s1 = lower_rot_center_blank s
   /\ logfile_closed s1 = false)
  /\ npad s1 = p
  /\ data s1 = log_transform (tp_pad d 2 p "edge").
Proof.
  intros Hn Hc Hl Hd N0 N1 N2 Hp Hle d p N3 s1. subst d p s1.
  rewrite <- int_of_quotient_floor in * by lia.
  apply Z.eqb_neq in Hp. apply Z.ltb_ge in Hle.
  unfold flat_dark_corrected in *.
  destruct (cb s) eqn:Hcb.
  - unfold normalization, normalization_tail. unfold_handler. run_extrema.
    auto 10.
  - unfold normalization, normalization_tail. unfold_handler. run_extrema.
    auto 10.
Qed.

Lemma shape2_map3 (f : sample -> sample) (v : Volume) :
  shape2 (map3 f v) = shape2 v.
Proof.
  unfold shape2, map3. destruct v as [| [| r p] v]; cbn; [reflexivity ..|].
  rewrite length_map. reflexivity.
Qed.

(** Padding at normalization and cropping at reconstruction cancel: when
    the padding kernel adds [npad] columns on each side and the
    reconstruction kernel returns slices as wide as the padded
    projections, the column count recorded after reconstruction is the
    one the volume had before it was padded, whether the pad size
    exceeds it by an even or an odd number. *)
Theorem pad_then_reconstruct_restores_width `{K : Kernels} (s : APS_13BM)
    (n c : Z) (dk : Volume) (u l : Q) :
  py_int (nchunk_blank s) = Some n ->
  py_int (ncore_blank s) = Some c ->
  py_float (upper_rot_center_blank s) = Some u ->
  py_float (lower_rot_center_blank s) = Some l ->
  logfile_closed s = false ->
  dark s = Some dk ->
  nonempty (data s) ->
  nonempty (tp_normalize (data s) (flat s) dk c) ->
  nonempty (flat_dark_corrected s c dk) ->
  pad_size s <> 0 ->
  shape2 (flat_dark_corrected s c dk) <= pad_size s ->
  let d := flat_dark_corrected s c dk in
  let p := (pad_size s - shape2 d) / 2 in
  nonempty (tp_pad d 2 p "edge") ->
  shape2 (tp_pad d 2 p "edge") = shape2 d + 2 * p ->
  let s1 := final (normalization s) in
  let s2 := final (reconstruct s1) in
  shape0 (data s1) <> 0 ->
  shape2 (data s2) = shape2 (data s1) ->
  npad s2 = p /\ shape2 (data s1) = shape2 d + 2 * p /\ sx s2 = shape2 d.
Proof.
  intros Hn Hc Hu Hl Hlog Hd N0 N1 N2 Hp Hle d p N3 Pad s1 s2 H0 Rec.
  destruct (normalization_padded_state s n c dk Hn Hc Hlog Hd N0 N1 N2 Hp Hle N3)
    as ((B1 & B2 & B3 & B4 & L1) & P1 & V1).
  fold s1 d p in B1, B2, B3, B4, L1, P1, V1.
  assert (W : shape2 (data s1) = shape2 d + 2 * p).
  { rewrite V1. unfold log_transform, tp_remove_nan, tp_minus_log, floor_negatives.
    rewrite !shape2_map3. exact Pad. }
  destruct (reconstruct_run s1 n c u l) as (V2 & _ & _ & X & _ & _ & P2 & _);
    try (rewrite ?B1, ?B2, ?B3, ?B4; assumption).
  fold s2 in V2, X, P2.
  rewrite <- V2, Rec, W, P1 in X. rewrite P2, P1.
  split; [reflexivity |]. split; [exact W | lia].
Qed.

Lemma pad_then_reconstruct_restores_width_witness :
  let s := request_pad 1024 (wide_import 1021 (Fin 0.25)) in
  let s1 := final (normalization (K := example_kernels) s) in
  let s2 := final (reconstruct (K := example_kernels) s1) in
  npad s2 = 1 /\ shape2 (data s1) = 1021 + 2 * 1 /\ sx s2 = 1021.
Proof.
  intros s s1 s2.
  exact (pad_then_reconstruct_restores_width (K := example_kernels) s 128 12
           (constant_volume 1 1 1021 (Fin 0)) (1021 # 2) (1021 # 2)
           ltac:(evaluate) ltac:(evaluate) ltac:(evaluate) ltac:(evaluate)
           ltac:(evaluate) ltac:(evaluate) ltac:(evaluate) ltac:(evaluate)
           ltac:(evaluate) ltac:(evaluate) ltac:(evaluate) ltac:(evaluate)
           ltac:(evaluate) ltac:(evaluate) ltac:(evaluate)).
Defined.

(** *** The algorithm menu *)

(** What [self.recon_type] holds after [OnReconCombo]: a string, or the
    one-element tuple that the line [self.recon_type = 'tv',] builds. *)
Inductive ReconType : Type :=
  | AlgorithmName (name : string)
  | AlgorithmTuple (name : string).

(** [self.recon_type == label]; a tuple equals no string. *)
Definition is_entry (r : ReconType) (label : string) : bool :=
  match r with
  | AlgorithmName s => String.eqb s label
  | AlgorithmTuple _ => false
  end.

(** [OnReconCombo] for the menu selection [selection]: the tests are made
    one after the other, each on the value the previous ones left. *)
Definition OnReconCombo (selection : string) : ReconType :=
  let r := AlgorithmName selection in
  let r := if is_entry r "Algebraic" then AlgorithmName "art" else r in
  let r := if is_entry r "Block Algebraic" then AlgorithmName "bart" else r in
  let r := if is_entry r "Filtered Back-projection" then AlgorithmName "fbp" else r in
  let r := if is_entry r "Gridrec" then AlgorithmName "gridrec" else r in
  let r := if is_entry r "Max-likelihood Expectation" then AlgorithmName "mlem" else r in
  let r := if is_entry r "Ordered-subset Expectation" then AlgorithmName "osem" else r in
  let r := if is_entry r "ospml_hybrid" then AlgorithmName "ospml_hybrid" else r in
  let r := if is_entry r "ospml_quad" then AlgorithmName "ospml_quad" else r in
  let r := if is_entry r "pml_hybrid" then AlgorithmName "pml_hybrid" else r in
  let r := if is_entry r "pml_quad" then AlgorithmName "pml_quad" else r in
  let r := if is_entry r "Simultaneous Algebraic" then AlgorithmName "sirt" else r in
  let r := if is_entry r "Total Variation" then AlgorithmTuple "tv" else r in
  let r := if is_entry r "Gradient Descent" then AlgorithmName "grad" else r in
  r.

(** The entries of the algorithm menu. *)
Definition recon_type_list : list string :=
  [ "Algebraic"; "Block Algebraic"; "Filtered Back-projection"; "Gridrec";
    "Max-likelihood Expectation"; "Ordered-subset Expectation";
    "ospml_hybrid"; "ospml_quad"; "pml_hybrid"; "pml_quad";
    "Simultaneous Algebraic"; "Total Variation"; "Gradient Descent" ].

Definition is_name (r : ReconType) : bool :=
  match r with
  | AlgorithmName _ => true
  | AlgorithmTuple _ => false
  end.

(** Of the entries of the menu, 'Total Variation' alone leaves something
    that is not a string; the entries lead to distinct values; and a
    selection that is none of the capitalised labels is stored as it
    is. *)
Theorem OnReconCombo_menu :
  filter (fun e => negb (is_name (OnReconCombo e))) recon_type_list
    = ["Total Variation"]
  /\ OnReconCombo "Total Variation" = AlgorithmTuple "tv"
  /\ NoDup (map OnReconCombo recon_type_list)
  /\ (forall selection : string,
        selection ∉ recon_type_list ->
        OnReconCombo selection = AlgorithmName selection).
Proof.
  split; [reflexivity |]. split; [reflexivity |]. split.
  - apply NoDup_ListNoDup. vm_compute.
    repeat (constructor; [cbn; intuition discriminate |]). constructor.
  - intros sel H. unfold OnReconCombo, recon_type_list in *.
    repeat (apply not_elem_of_cons in H as [? H]).
    cbn [is_entry].
    repeat match goal with
           | Hne : sel <> ?lbl |- context [String.eqb sel ?lbl] =>
               rewrite (proj2 (String.eqb_neq sel lbl) Hne); cbn [is_entry]
           end.
    reflexivity.
Qed.

Lemma OnReconCombo_menu_witness :
  OnReconCombo "gridrec" = AlgorithmName "gridrec".
Proof.
  destruct OnReconCombo_menu as (_ & _ & _ & H). apply H.
  unfold recon_type_list.
  repeat (apply not_elem_of_cons; split; [discriminate |]).
  apply not_elem_of_nil.
Defined.

(** *** Post-processing filters *)

(** The three filters of [tomopy.misc.corr]. *)
Class PostKernels : Type := {
  (** [tp.misc.corr.gaussian_filter(arr, sigma)] *)
  tp_gaussian_filter : Volume -> Z -> Volume;
  (** [tp.misc.corr.median_filter(arr)] *)
  tp_median_filter : Volume -> Volume;
  (** [tp.misc.corr.sobel_filter(arr)] *)
  tp_sobel_filter : Volume -> Volume
}.

(** [filter_pp_data]. The attribute [pp_filter_type] is the argument:
    [None] until [OnppFilterCombo] has run, as [__init__] does not set
    it. *)
Definition filter_pp_data `{P : PostKernels} (pp_filter_type : option string)
  : Handler unit :=
  SetLabel_status "Filtering" ;;
  t <- expect AttributeError pp_filter_type ;;
  (if String.eqb t "gaussian_filter" then
     modify (fun s => set_data (tp_gaussian_filter (data s) 3) s) ;;
     logfile_write "data = tp.misc.corr.gaussian_filter(data, sigma = 3)" []
   else ret tt) ;;
  (if String.eqb t "median_filter" then
     modify (fun s => set_data (tp_median_filter (data s)) s) ;;
     logfile_write "data = tp.misc.corr.median_filter(data)" []
   else ret tt) ;;
  (if String.eqb t "sobel_filter" then
     modify (fun s => set_data (tp_sobel_filter (data s)) s) ;;
     logfile_write "data = tp.misc.corr.sobel_filter(data)" []
   else ret tt) ;;
  SetLabel_status "Data Filtered".

(** The volume [filter_pp_data] stores for a filter name. *)
Definition filtered `{P : PostKernels} (t : string) (v : Volume) : Volume :=
  if String.eqb t "gaussian_filter" then tp_gaussian_filter v 3
  else if String.eqb t "median_filter" then tp_median_filter v
  else if String.eqb t "sobel_filter" then tp_sobel_filter v
  else v.

(** [filter_pp_data] applies the one filter that was selected, and none
    for any other name; requested before a filter was ever selected it
    raises [AttributeError] and the volume is as it was. *)
Theorem filter_pp_data_applies_one_filter `{P : PostKernels} (s : APS_13BM) :
  logfile_closed s = false ->
  (filter_pp_data None s = Raised AttributeError (set_status_ID "Filtering" s))
  /\ (forall t : string,
        completed (filter_pp_data (Some t) s) = true
        /\ data (final (filter_pp_data (Some t) s)) = filtered t (data s)
        /\ status_ID (final (filter_pp_data (Some t) s)) = "Data Filtered"
        /\ calls (final (filter_pp_data (Some t) s)) = calls s).
Proof.
  intros Hlog. split; [reflexivity |].
  intros t. unfold filter_pp_data, filtered. unfold_handler. cbn.
  destruct (String.eqb_spec t "gaussian_filter") as [-> | _];
    [cbn; rewrite Hlog; cbn; auto |].
  destruct (String.eqb_spec t "median_filter") as [-> | _];
    [cbn; rewrite Hlog; cbn; auto |].
  destruct (String.eqb_spec t "sobel_filter") as [-> | _];
    [cbn; rewrite Hlog; cbn; auto |].
  cbn. auto.
Qed.

(** Filters for the examples: each marks the first sample. *)
Definition example_filters : PostKernels := {|
  tp_gaussian_filter := fun v _ => [[[Fin 1]]] ++ v;
  tp_median_filter := fun v => [[[Fin 2]]] ++ v;
  tp_sobel_filter := fun v => [[[Fin 3]]] ++ v
|}.

Lemma filter_pp_data_applies_one_filter_witness :
  let s := client_read_nc example_import in
  completed (filter_pp_data (P := example_filters) None s) = false
  /\ data (final (filter_pp_data (P := example_filters) (Some "median_filter") s))
     = [[[Fin 2]]] ++ data s.
Proof.
  intros s.
  destruct (filter_pp_data_applies_one_filter (P := example_filters) s
              ltac:(evaluate)) as (E & F).
  split; [rewrite E; reflexivity |].
  destruct (F "median_filter") as (_ & D & _). exact D.
Defined.
